(** * OpenRES -- valley floor delineation (Sechu cost-distance algorithm)

    A shallow embedding of [SechuCostDistanceAlgorithm]
    (src/algorithms/Sechu_valley_bottom_algorithm.py) and the properties of
    its threshold-and-statistics core.

    The algorithm is an orchestration: slope, rasterisation, cost distance,
    polygonisation, hole removal, smoothing and buffering are delegated to the
    host toolbox through [processing.run].  Those collaborators are a
    parameter of the model (a [Backend]); the raster calculator is given its
    cell-wise meaning, because the expressions handed to it are part of the
    source ([processAlgorithm]); the same body with the raster calculator
    left to the host like every other collaborator, free to fail and to
    answer with a raster of any size on any grid, is [processAlgorithm_host].
    What the source computes itself -- grid size, the three
    expressions, the Pass 2 scan, the mean, the gap distance, the sink loop,
    the clean-up -- is embedded as written.

    Python [float]s are kept abstract behind the class [Number], with two
    instances: exact rationals [Q] and IEEE binary64 ([PrimFloat.float]),
    on which the source's arithmetic runs as in the interpreter.  What needs
    no arithmetic law is proved for every instance.  What rests on the order
    of numbers is proved over [Valued], a valuation into [Q] that the
    comparisons respect; it is the identity on [Q] and the real value of a
    finite double on binary64, so that a hypothesis of exactness says which
    double-precision computations a statement covers. *)

From Stdlib Require Import ZArith QArith Qround Qpower Lia List String Bool.
From Stdlib Require Import Uint63 Floats.
Import ListNotations.

Set Implicit Arguments.

(* ================================================================== *)
(** * Numbers *)

(** The operations the source applies to floating-point values.
    [fdiv] is the bare quotient; Python's [/] raises on a zero divisor, which
    is [pydiv] below.  [fceil] is [math.ceil], [None] where it raises. *)
Class Number (A : Type) : Type := {
  of_int : Z -> A;
  lit_0_00001 : A;
  lit_0_4 : A;
  fadd : A -> A -> A;
  fsub : A -> A -> A;
  fmul : A -> A -> A;
  fdiv : A -> A -> A;
  fneg : A -> A;
  flt : A -> A -> bool;
  fle : A -> A -> bool;
  feq : A -> A -> bool;
  fceil : A -> option Z;
  feq_0_0 : feq (of_int 0) (of_int 0) = true;
  feq_1_1 : feq (of_int 1) (of_int 1) = true;
  feq_0_1 : feq (of_int 0) (of_int 1) = false;
  feq_1_0 : feq (of_int 1) (of_int 0) = false
}.

Declare Scope py_scope.
Delimit Scope py_scope with py.
Notation "x + y" := (fadd x y) : py_scope.
Notation "x - y" := (fsub x y) : py_scope.
Notation "x * y" := (fmul x y) : py_scope.
Notation "- x" := (fneg x) : py_scope.
Notation "x <? y" := (flt x y) : py_scope.
Notation "x <=? y" := (fle x y) : py_scope.
Notation "x =? y" := (feq x y) : py_scope.

(** ** Exact rationals *)

Definition Qlt_bool (x y : Q) : bool := negb (Qle_bool y x).

#[export] Instance Number_Q : Number Q := {
  of_int := inject_Z;
  lit_0_00001 := 1 # 100000;
  lit_0_4 := 2 # 5;
  fadd := Qplus;
  fsub := Qminus;
  fmul := Qmult;
  fdiv := Qdiv;
  fneg := Qopp;
  flt := Qlt_bool;
  fle := Qle_bool;
  feq := Qeq_bool;
  fceil := fun x => Some (Qceiling x);
  feq_0_0 := eq_refl;
  feq_1_1 := eq_refl;
  feq_0_1 := eq_refl;
  feq_1_0 := eq_refl
}.

(** ** IEEE binary64 *)

Definition float_of_int (z : Z) : float :=
  if (z <? 0)%Z then PrimFloat.opp (PrimFloat.of_uint63 (Uint63.of_Z (- z)))
  else PrimFloat.of_uint63 (Uint63.of_Z z).

(** [math.ceil] on a double: the least integer not below it; it raises on an
    infinity or a NaN. *)
Definition float_ceil (x : float) : option Z :=
  match Prim2SF x with
  | S754_zero _ => Some 0%Z
  | S754_infinity _ => None
  | S754_nan => None
  | S754_finite s m e =>
      let n := if s then Z.neg m else Z.pos m in
      Some (if (0 <=? e)%Z then n * 2 ^ e else - ((- n) / 2 ^ (- e)))%Z
  end.

#[export] Instance Number_float : Number float := {
  of_int := float_of_int;
  lit_0_00001 := 0x1.4f8b588e368f1p-17%float;
  lit_0_4 := 0x1.999999999999ap-2%float;
  fadd := PrimFloat.add;
  fsub := PrimFloat.sub;
  fmul := PrimFloat.mul;
  fdiv := PrimFloat.div;
  fneg := PrimFloat.opp;
  flt := PrimFloat.ltb;
  fle := PrimFloat.leb;
  feq := PrimFloat.eqb;
  fceil := float_ceil;
  feq_0_0 := eq_refl;
  feq_1_1 := eq_refl;
  feq_0_1 := eq_refl;
  feq_1_0 := eq_refl
}.

(** The two hexadecimal constants are the doubles Python reads the literals
    [0.00001] and [0.4] as. *)
Example lit_0_00001_is_decimal :
  (lit_0_00001 : float) = PrimFloat.div 1%float 100000%float.
Proof. reflexivity. Qed.

Example lit_0_4_is_decimal :
  (lit_0_4 : float) = PrimFloat.div 4%float 10%float.
Proof. reflexivity. Qed.

(* ================================================================== *)
(** * Data model *)

Section Data.
Context {A : Type} {NA : Number A}.

Definition zero : A := of_int 0.
Definition one : A := of_int 1.

(** Python's true division of floats: [ZeroDivisionError] on a zero divisor. *)
Definition pydiv (x y : A) : option A :=
  if (y =? zero)%py then None else Some (fdiv x y).

(** A float divided by an [int]: the [int] is converted, and only the
    integer 0 converts to a zero divisor. *)
Definition pydiv_int (x : A) (n : Z) : option A :=
  if (n =? 0)%Z then None else Some (fdiv x (of_int n)).

(** [QgsRectangle]: an extent. *)
Record QgsRectangle : Type := {
  xMinimum : A;
  xMaximum : A;
  yMinimum : A;
  yMaximum : A
}.

(** The geometry of a grid: extent and cell size; the origin is the corner
    ([xMinimum], [yMaximum]) of the extent. *)
Record Grid : Type := {
  grid_extent : QgsRectangle;
  grid_xres : A;
  grid_yres : A
}.

Definition same_extent (e1 e2 : QgsRectangle) : bool :=
  (xMinimum e1 =? xMinimum e2)%py && (xMaximum e1 =? xMaximum e2)%py &&
  (yMinimum e1 =? yMinimum e2)%py && (yMaximum e1 =? yMaximum e2)%py.

Definition same_grid (g1 g2 : Grid) : bool :=
  same_extent (grid_extent g1) (grid_extent g2) &&
  (grid_xres g1 =? grid_xres g2)%py && (grid_yres g1 =? grid_yres g2)%py.

(** A single-band raster (a GDAL dataset and its band 1): [pixel y x] is the
    value of column [x] of row [y]. *)
Record Raster : Type := {
  raster_grid : Grid;
  RasterXSize : nat;
  RasterYSize : nat;
  pixel : nat -> nat -> A
}.

Definition of_rows (g : Grid) (rows : list (list A)) : Raster :=
  {| raster_grid := g;
     RasterXSize := List.length (hd [] rows);
     RasterYSize := List.length rows;
     pixel := fun y x => nth x (nth y rows []) zero |}.

(** [band.ReadAsArray(xoff, yoff, xsize, ysize)]: the window as rows, [None]
    when the window leaves the raster. *)
Definition ReadAsArray (r : Raster) (xoff yoff xsize ysize : nat)
  : option (list (list A)) :=
  if (xoff + xsize <=? RasterXSize r)%nat && (yoff + ysize <=? RasterYSize r)%nat
  then Some (map (fun y => map (pixel r y) (seq xoff xsize)) (seq yoff ysize))
  else None.

(** [QgsRasterLayer]: the elevation input. *)
Record QgsRasterLayer : Type := {
  source : string;
  dataset : Raster;
  authid : string
}.

Definition extent (l : QgsRasterLayer) : QgsRectangle :=
  grid_extent (raster_grid (dataset l)).
Definition rasterUnitsPerPixelX (l : QgsRasterLayer) : A :=
  grid_xres (raster_grid (dataset l)).
Definition rasterUnitsPerPixelY (l : QgsRasterLayer) : A :=
  grid_yres (raster_grid (dataset l)).

(** Vector data: a geometry is a list of vertex chains (the parts of a line,
    the rings of a polygon); a feature carries one attribute value per field
    of its layer. *)
Definition QgsGeometry : Type := list (list (A * A)).

Record QgsFeature : Type := {
  geometry : QgsGeometry;
  attributes : list Z
}.

Record QgsVectorLayer : Type := {
  fields : list string;
  wkbType : Z;
  sourceCrs : string;
  getFeatures : list QgsFeature
}.

(** ** Raster calculator expressions

    The three expressions the source builds as strings, as syntax trees.
    [Band1] is the reference ["<layer>@1"] to band 1 of the one layer of
    [LAYERS]; a number formatted into the string is read back as the same
    number. *)
Inductive expr : Type :=
| Band1
| Num (a : A)
| opMUL (e1 e2 : expr)
| opPLUS (e1 e2 : expr)
| opGT (e1 e2 : expr)
| opLE (e1 e2 : expr)
| opAND (e1 e2 : expr)
| opIF (c e1 e2 : expr).

Definition of_bool (b : bool) : A := if b then one else zero.
Definition truthy (a : A) : bool := negb (a =? zero)%py.

(** The value of an expression at a cell whose band-1 value is [v]. *)
Fixpoint eval (v : A) (e : expr) : A :=
  match e with
  | Band1 => v
  | Num a => a
  | opMUL e1 e2 => (eval v e1 * eval v e2)%py
  | opPLUS e1 e2 => (eval v e1 + eval v e2)%py
  | opGT e1 e2 => of_bool (eval v e2 <? eval v e1)%py
  | opLE e1 e2 => of_bool (eval v e1 <=? eval v e2)%py
  | opAND e1 e2 => of_bool (truthy (eval v e1) && truthy (eval v e2))
  | opIF c e1 e2 => if truthy (eval v c) then eval v e1 else eval v e2
  end.

(** [qgis:rastercalculator]: the output is declared on the grid asked for
    ([EXTENT], [CELL_SIZE]) and holds the expression evaluated cell by cell
    on the layer.  Resampling of a layer that lies on another grid is the
    engine's business and is not modelled: cells are taken as they are, and
    the output has as many of them as the layer.  [processAlgorithm_host]
    does without this reading of the engine. *)
Definition rastercalculator (EXPRESSION : expr) (LAYERS : list Raster)
    (CELL_SIZE : A) (EXTENT : QgsRectangle) : Raster :=
  let g := {| grid_extent := EXTENT; grid_xres := CELL_SIZE; grid_yres := CELL_SIZE |} in
  match LAYERS with
  | [] => {| raster_grid := g; RasterXSize := 0; RasterYSize := 0;
             pixel := fun _ _ => zero |}
  | layer :: _ =>
      {| raster_grid := g;
         RasterXSize := RasterXSize layer;
         RasterYSize := RasterYSize layer;
         pixel := fun y x => eval (pixel layer y x) EXPRESSION |}
  end.

End Data.

Arguments QgsRectangle A : clear implicits.
Arguments Grid A : clear implicits.
Arguments Raster A : clear implicits.
Arguments QgsRasterLayer A : clear implicits.
Arguments QgsGeometry A : clear implicits.
Arguments QgsFeature A : clear implicits.
Arguments QgsVectorLayer A : clear implicits.
Arguments expr A : clear implicits.

(* ================================================================== *)
(** * The host toolbox *)

Section Toolbox.
Context {A : Type} {NA : Number A}.

(** ** [processing.run]: algorithm identifiers with their parameter
    dictionaries.  An [OUTPUT] path or ['memory:'] is not a parameter here:
    a temporary file is modelled by the raster or layer written to it. *)
Inductive RasterAlg : Type :=
| gdal_slope (INPUT : QgsRasterLayer A) (BAND : Z) (SCALE : A)
    (AS_PERCENT COMPUTE_EDGES ZEVENBERGEN : bool)
| qgis_rastercalculator (EXPRESSION : expr A) (LAYERS : list (Raster A))
    (CELL_SIZE : A) (EXTENT : QgsRectangle A) (CRS : string)
| gdal_rasterize (INPUT : QgsVectorLayer A) (BURN : Z) (USE_Z : bool)
    (UNITS WIDTH HEIGHT : Z) (EXTENT : QgsRectangle A)
    (NODATA DATA_TYPE INIT : Z) (INVERT : bool)
| grass7_r_cost (input start_raster : Raster A) (max_cost memory : Z)
    (GRASS_REGION_PARAMETER : QgsRectangle A)
    (GRASS_REGION_CELLSIZE_PARAMETER : A).

Inductive VectorAlg : Type :=
| gdal_polygonize (INPUT : Raster A) (BAND : Z) (FIELD : string)
    (EIGHT_CONNECTEDNESS : bool)
| native_extractbyattribute (INPUT : QgsVectorLayer A) (FIELD : string)
    (OPERATOR VALUE : Z)
| native_deleteholes (INPUT : QgsVectorLayer A) (MIN_AREA : Z)
| native_smoothgeometry (INPUT : QgsVectorLayer A) (METHOD ITERATIONS : Z)
    (OFFSET : A)
| native_buffer (INPUT : QgsVectorLayer A) (DISTANCE : A)
    (SEGMENTS END_CAP_STYLE JOIN_STYLE MITER_LIMIT : Z) (DISSOLVE : bool).

Inductive Call : Type :=
| RasterCall (a : RasterAlg)
| VectorCall (a : VectorAlg).

Definition alg_id (c : Call) : string :=
  match c with
  | RasterCall (gdal_slope _ _ _ _ _ _) => "gdal:slope"
  | RasterCall (qgis_rastercalculator _ _ _ _ _) => "qgis:rastercalculator"
  | RasterCall (gdal_rasterize _ _ _ _ _ _ _ _ _ _ _) => "gdal:rasterize"
  | RasterCall (grass7_r_cost _ _ _ _ _ _) => "grass7:r.cost"
  | VectorCall (gdal_polygonize _ _ _ _) => "gdal:polygonize"
  | VectorCall (native_extractbyattribute _ _ _ _) => "native:extractbyattribute"
  | VectorCall (native_deleteholes _ _) => "native:deleteholes"
  | VectorCall (native_smoothgeometry _ _ _ _) => "native:smoothgeometry"
  | VectorCall (native_buffer _ _ _ _ _ _ _) => "native:buffer"
  end.

(** The collaborators.  [run_raster] and [run_vector] are the algorithms of
    the toolbox other than the raster calculator ([None]: the algorithm
    raised); [gdal_Open] tells whether a temporary raster can be opened for
    reading; [os_remove_raises] whether deleting a path raises;
    [getMapLayer] whether the destination is a loaded map layer.  A
    collaborator is a function of its parameters: it answers the same to the
    same call, and what it does with the cancellation signal it is handed is
    its own business. *)
Record Backend : Type := {
  tempFolder : string;
  run_raster : RasterAlg -> option (Raster A);
  run_vector : VectorAlg -> option (QgsVectorLayer A);
  gdal_Open : string -> bool;
  os_remove_raises : string -> bool;
  getMapLayer : string -> bool
}.

(** ** Exceptions *)
Inductive exn : Type :=
| QgsProcessingException (msg : string)
| ProcessingRunError (id : string)
| ZeroDivisionError
| MathCeilError
| TypeError
| AttributeError.

Inductive result (X : Type) : Type :=
| Ok (x : X)
| Raise (e : exn).
Arguments Ok {X} x.
Arguments Raise {X} e.

(** ** The state a run acts on *)

Inductive Message : Type :=
| Info (s : string)
| InfoMeanCost (mean_cost : A)
| InfoCouldNotDelete (p : string).

Record Sink : Type := {
  sink_fields : list string;
  sink_wkbType : Z;
  sink_crs : string;
  added : list (QgsFeature A)
}.

(** [calls]: the invocations of [processing.run], oldest first; [polls]: how
    many times [feedback.isCanceled()] was asked; [sink]: the output sink
    once created; [messages]: what [feedback.pushInfo] was given;
    [removed]: the temporary files deleted. *)
Record State : Type := {
  calls : list Call;
  polls : nat;
  sink : option Sink;
  messages : list Message;
  removed : list string
}.

Definition initial : State :=
  {| calls := []; polls := 0; sink := None; messages := []; removed := [] |}.

Definition M (X : Type) : Type := State -> result X * State.

Definition ret {X} (x : X) : M X := fun s => (Ok x, s).

Definition raise {X} (e : exn) : M X := fun s => (Raise e, s).

Definition bind {X Y} (m : M X) (k : X -> M Y) : M Y :=
  fun s =>
    match m s with
    | (Ok x, s') => k x s'
    | (Raise e, s') => (Raise e, s')
    end.

Definition or_raise {X} (o : option X) (e : exn) : M X :=
  match o with
  | Some x => ret x
  | None => raise e
  end.

End Toolbox.

Arguments RasterAlg A : clear implicits.
Arguments VectorAlg A : clear implicits.
Arguments Call A : clear implicits.
Arguments Backend A : clear implicits.
Arguments Message A : clear implicits.
Arguments Sink A : clear implicits.
Arguments State A : clear implicits.
Arguments M A X : clear implicits.
Arguments initial A : clear implicits.
Arguments Ok {X} x.
Arguments Raise {X} e.

Declare Scope monad_scope.
Delimit Scope monad_scope with monad.
Notation "x <- m ;; k" := (bind m (fun x => k))
  (at level 61, m at next level, right associativity) : monad_scope.
Notation "' p <- m ;; k" := (bind m (fun x => let p := x in k))
  (at level 61, p pattern, m at next level, right associativity) : monad_scope.
Notation "m ;; k" := (bind m (fun _ => k))
  (at level 61, right associativity) : monad_scope.

(* ================================================================== *)
(** * SechuCostDistanceAlgorithm *)

Section Algorithm.
Context {A : Type} {NA : Number A}.
Local Open Scope string_scope.
Local Open Scope monad_scope.

(** parameter keys *)
Definition PARAM_RIVER := "RIVER".
Definition PARAM_DEM := "DEM".
Definition PARAM_COST_THRESHOLD := "COST_THRESHOLD".
Definition PARAM_GAP_FACTOR := "GAP_FACTOR".
Definition PARAM_OUTPUT := "OUTPUT".

Inductive ParameterDefinition : Type :=
| QgsProcessingParameterVectorLayer (name description : string)
| QgsProcessingParameterRasterLayer (name description : string)
| QgsProcessingParameterNumber (name description : string) (defaultValue : A)
| QgsProcessingParameterFeatureSink (name description : string).

(** [initAlgorithm]: the parameters the algorithm declares, in order. *)
Definition initAlgorithm : list ParameterDefinition :=
  [ QgsProcessingParameterVectorLayer PARAM_RIVER "Stream network";
    QgsProcessingParameterRasterLayer PARAM_DEM "Elevation raster";
    QgsProcessingParameterNumber PARAM_COST_THRESHOLD
      "Initial cost distance threshold" (of_int 1500);
    QgsProcessingParameterNumber PARAM_GAP_FACTOR
      "Gap buffer factor (× DEM pixel size)" (of_int 2);
    QgsProcessingParameterFeatureSink PARAM_OUTPUT "Valley Floor" ].

(** The [parameters] dictionary of a run. *)
Inductive ParameterValue : Type :=
| VectorLayerValue (l : QgsVectorLayer A)
| RasterLayerValue (l : QgsRasterLayer A)
| DoubleValue (a : A)
| SinkValue (dest_id : string).

Definition Parameters : Type := list (string * ParameterValue).

Fixpoint lookup (key : string) (parameters : Parameters) : option ParameterValue :=
  match parameters with
  | [] => None
  | (k, v) :: rest => if String.eqb k key then Some v else lookup key rest
  end.

Fixpoint defaultValue_of (key : string) (defs : list ParameterDefinition) : option A :=
  match defs with
  | [] => None
  | QgsProcessingParameterNumber name _ d :: rest =>
      if String.eqb name key then Some d else defaultValue_of key rest
  | _ :: rest => defaultValue_of key rest
  end.

Definition parameterAsVectorLayer (parameters : Parameters) (key : string)
  : option (QgsVectorLayer A) :=
  match lookup key parameters with
  | Some (VectorLayerValue l) => Some l
  | _ => None
  end.

Definition parameterAsRasterLayer (parameters : Parameters) (key : string)
  : option (QgsRasterLayer A) :=
  match lookup key parameters with
  | Some (RasterLayerValue l) => Some l
  | _ => None
  end.

(** The value given by the caller, else the default of the definition. *)
Definition parameterAsDouble (parameters : Parameters) (key : string) : A :=
  match lookup key parameters with
  | Some (DoubleValue a) => a
  | _ => match defaultValue_of key initAlgorithm with
         | Some d => d
         | None => zero
         end
  end.

Variable backend : Backend A.

(** The cancellation signal: the answer of the [n]-th call (from 0) of
    [feedback.isCanceled()]. *)
Variable feedback : nat -> bool.

Definition isCanceled : M A bool :=
  fun s =>
    (Ok (feedback (polls s)),
     {| calls := calls s; polls := S (polls s); sink := sink s;
        messages := messages s; removed := removed s |}).

Definition pushInfo (m : Message A) : M A unit :=
  fun s =>
    (Ok tt,
     {| calls := calls s; polls := polls s; sink := sink s;
        messages := messages s ++ [m]; removed := removed s |}).

Definition record_call (c : Call A) : M A unit :=
  fun s =>
    (Ok tt,
     {| calls := calls s ++ [c]; polls := polls s; sink := sink s;
        messages := messages s; removed := removed s |}).

(** [processing.run] of a raster algorithm; the raster calculator has its
    cell-wise meaning, any other algorithm is the backend's. *)
Definition processing_run_raster (a : RasterAlg A) : M A (Raster A) :=
  record_call (RasterCall a) ;;
  match a with
  | qgis_rastercalculator e layers cell_size ext _ =>
      ret (rastercalculator e layers cell_size ext)
  | _ => or_raise (run_raster backend a) (ProcessingRunError (alg_id (RasterCall a)))
  end.

(** [processing.run] of a raster algorithm with nothing assumed of the raster
    calculator: every algorithm is the backend's, and may fail or answer with
    a raster of any size on any grid. *)
Definition processing_run_host (a : RasterAlg A) : M A (Raster A) :=
  record_call (RasterCall a) ;;
  or_raise (run_raster backend a) (ProcessingRunError (alg_id (RasterCall a))).

Definition processing_run_vector (a : VectorAlg A) : M A (QgsVectorLayer A) :=
  record_call (VectorCall a) ;;
  or_raise (run_vector backend a) (ProcessingRunError (alg_id (VectorCall a))).

(** [self.parameterAsSink(...)]: creates the sink when the caller named a
    destination; the source does not test the sink it gets.  The identifier
    handed back stands for the one the host gives to the destination: it is
    written as the caller's string. *)
Definition parameterAsSink (parameters : Parameters) (key : string)
    (flds : list string) (wkb : Z) (crs : string) : M A string :=
  match lookup key parameters with
  | Some (SinkValue dest_id) =>
      fun s =>
        (Ok dest_id,
         {| calls := calls s; polls := polls s;
            sink := Some {| sink_fields := flds; sink_wkbType := wkb;
                            sink_crs := crs; added := [] |};
            messages := messages s; removed := removed s |})
  | _ => ret ""
  end.

(** [sink.addFeature(f, QgsFeatureSink.FastInsert)] *)
Definition addFeature (f : QgsFeature A) : M A unit :=
  fun s =>
    match sink s with
    | Some k =>
        (Ok tt,
         {| calls := calls s; polls := polls s;
            sink := Some {| sink_fields := sink_fields k;
                            sink_wkbType := sink_wkbType k;
                            sink_crs := sink_crs k;
                            added := added k ++ [f] |};
            messages := messages s; removed := removed s |})
    | None => (Raise AttributeError, s)
    end.

(** [if os.path.exists(p): os.remove(p)], where it does not raise: the path is
    gone afterwards, whether or not it was there. *)
Definition os_remove (p : string) : M A unit :=
  fun s =>
    (Ok tt,
     {| calls := calls s; polls := polls s; sink := sink s;
        messages := messages s; removed := removed s ++ [p] |}).

(** [os.path.join(dir, name)] (POSIX): an absolute [name] stands alone; no
    separator is added after an empty [dir] or after one that ends in a
    separator. *)
Fixpoint endswith_sep (s : string) : bool :=
  match s with
  | EmptyString => false
  | String c EmptyString => String.eqb (String c EmptyString) "/"
  | String _ rest => endswith_sep rest
  end.

Definition os_path_join (dir name : string) : string :=
  if String.prefix "/" name then name
  else if String.eqb dir "" || endswith_sep dir then dir ++ name
  else dir ++ "/" ++ name.

Example os_path_join_examples :
  os_path_join "/tmp/processing" "cb_tmp_slope.tif" = "/tmp/processing/cb_tmp_slope.tif" /\
  os_path_join "/tmp/processing/" "cb_tmp_slope.tif" = "/tmp/processing/cb_tmp_slope.tif" /\
  os_path_join "" "cb_tmp_slope.tif" = "cb_tmp_slope.tif".
Proof. repeat split. Qed.

(** ** The raster calculator expressions of the source *)

(** [("<slope>@1" * dem_xres) + 0.00001] *)
Definition conditioned_slope_expression (dem_xres : A) : expr A :=
  opPLUS (opMUL Band1 (Num dem_xres)) (Num lit_0_00001).

(** [if(("<cost>@1" > 0) AND ("<cost>@1" <= t), 1, 0)] *)
Definition threshold_expression (t : A) : expr A :=
  opIF (opAND (opGT Band1 (Num zero)) (opLE Band1 (Num t))) (Num one) (Num zero).

(** ** 5a. the mean inside the coarse mask *)

(** One step of the inner loop, at a column holding mask value [m] and cost
    [c]: [if mask_arr[x] == 1 and cost_arr[x] > 0: total += ...; count += 1]. *)
Definition accumulate (acc : A * Z) (mc : A * A) : A * Z :=
  let '(total, count) := acc in
  let '(m, c) := mc in
  if (m =? one)%py && (zero <? c)%py then ((total + c)%py, (count + 1)%Z) else acc.

(** [for x in range(cols)] over the two arrays of one row. *)
Definition scan_row (mask_arr cost_arr : list A) (acc : A * Z) : A * Z :=
  fold_left accumulate (combine mask_arr cost_arr) acc.

(** [band.ReadAsArray(0, y, cols, 1)[0]]: subscripting [None] raises. *)
Definition read_row (band : Raster A) (y cols : nat) : M A (list A) :=
  match ReadAsArray band 0 y cols 1 with
  | Some (row :: _) => ret row
  | _ => raise TypeError
  end.

(** [for y in range(rows)], with the cancellation test that leaves the loop. *)
Fixpoint scan_rows (cost_band mask_band : Raster A) (cols : nat)
    (ys : list nat) (acc : A * Z) : M A (A * Z) :=
  match ys with
  | [] => ret acc
  | y :: ys' =>
      canceled <- isCanceled ;;
      if canceled : bool then ret acc
      else
        cost_arr <- read_row cost_band y cols ;;
        mask_arr <- read_row mask_band y cols ;;
        scan_rows cost_band mask_band cols ys' (scan_row mask_arr cost_arr acc)
  end.

Definition EMPTY_SELECTION : string :=
  "Coarse mask selected 0 pixels — increase cost threshold.".

Definition compute_mean (accum_cost_path belt_mask_path : string)
    (accum_cost_raster belt_mask_raster : Raster A) : M A A :=
  pushInfo (Info "Computing mean inside coarse mask...") ;;
  if negb (gdal_Open backend accum_cost_path && gdal_Open backend belt_mask_path)
  then raise (QgsProcessingException "Could not open cost or mask raster for reading.")
  else
    let cols := RasterXSize accum_cost_raster in
    let rows := RasterYSize accum_cost_raster in
    acc <- scan_rows accum_cost_raster belt_mask_raster cols (seq 0 rows) (zero, 0%Z) ;;
    let total := fst acc in
    let count := snd acc in
    if (count =? 0)%Z then raise (QgsProcessingException EMPTY_SELECTION)
    else
      mean_cost <- or_raise (pydiv_int total count) ZeroDivisionError ;;
      pushInfo (InfoMeanCost mean_cost) ;;
      ret mean_cost.

(** ** The sink loop and the clean-up *)

(** [for f in gaps_closed.getFeatures(): if feedback.isCanceled(): break;
    sink.addFeature(f, ...)] *)
Fixpoint add_features (fs : list (QgsFeature A)) : M A unit :=
  match fs with
  | [] => ret tt
  | f :: fs' =>
      canceled <- isCanceled ;;
      if canceled : bool then ret tt
      else addFeature f ;; add_features fs'
  end.

(** [for p in to_delete: try: ... os.remove(p) except Exception as e:
    feedback.pushInfo(...)] *)
Fixpoint delete_files (to_delete : list string) : M A unit :=
  match to_delete with
  | [] => ret tt
  | p :: rest =>
      (if os_remove_raises backend p then pushInfo (InfoCouldNotDelete p)
       else os_remove p) ;;
      delete_files rest
  end.

(** [int(math.ceil(a / b))] *)
Definition int_ceil_div (a b : A) : M A Z :=
  q <- or_raise (pydiv a b) ZeroDivisionError ;;
  or_raise (fceil q) MathCeilError.

(** ** [processAlgorithm]

    The body of [processAlgorithm], with [processing.run] on raster
    algorithms as the parameter [processing_run]. *)

Definition processAlgorithm_with
    (processing_run : RasterAlg A -> M A (Raster A))
    (parameters : Parameters) : M A string :=
  let river_layer := parameterAsVectorLayer parameters PARAM_RIVER in
  let dem_layer := parameterAsRasterLayer parameters PARAM_DEM in
  let cost_threshold := parameterAsDouble parameters PARAM_COST_THRESHOLD in
  let gap_factor := parameterAsDouble parameters PARAM_GAP_FACTOR in
  match river_layer, dem_layer with
  | Some river_layer, Some dem_layer =>
    let temp_dir := tempFolder backend in
    let slope_path := os_path_join temp_dir "cb_tmp_slope.tif" in
    let cond_slope_path := os_path_join temp_dir "cb_tmp_slope_cond.tif" in
    let river_path := os_path_join temp_dir "cb_tmp_river.tif" in
    let accum_cost_path := os_path_join temp_dir "cb_tmp_costdist.tif" in
    let belt_mask_path := os_path_join temp_dir "cb_tmp_mask_coarse.tif" in
    let refined_mask_path := os_path_join temp_dir "cb_tmp_mask_refined.tif" in
    (* DEM info *)
    let ext := extent dem_layer in
    let xmin := xMinimum ext in
    let xmax := xMaximum ext in
    let ymin := yMinimum ext in
    let ymax := yMaximum ext in
    let dem_xres := rasterUnitsPerPixelX dem_layer in
    let dem_yres := rasterUnitsPerPixelY dem_layer in
    let crs_auth := authid dem_layer in
    width_px <- int_ceil_div (xmax - xmin)%py dem_xres ;;
    height_px <- int_ceil_div (ymax - ymin)%py dem_yres ;;
    (* 1. Slope *)
    pushInfo (Info "Computing slope...") ;;
    slope_raster <- processing_run
      (gdal_slope dem_layer 1 one false true false) ;;
    (* 2. Condition slope *)
    pushInfo (Info "Conditioning slope...") ;;
    cond_slope_raster <- processing_run
      (qgis_rastercalculator (conditioned_slope_expression dem_xres)
         [slope_raster] dem_xres ext crs_auth) ;;
    (* 3. Rasterize river *)
    pushInfo (Info "Rasterizing river...") ;;
    river_raster <- processing_run
      (gdal_rasterize river_layer 1 false 0 width_px height_px ext 0 5 0 false) ;;
    (* 4. GRASS r.cost *)
    pushInfo (Info "Running GRASS r.cost...") ;;
    accum_cost_raster <- processing_run
      (grass7_r_cost cond_slope_raster river_raster 0 300 ext dem_xres) ;;
    (* 5. coarse mask *)
    pushInfo (Info "Creating coarse mask...") ;;
    belt_mask_raster <- processing_run
      (qgis_rastercalculator (threshold_expression cost_threshold)
         [accum_cost_raster] dem_xres ext crs_auth) ;;
    (* 5a. compute mean *)
    mean_cost <- compute_mean accum_cost_path belt_mask_path
                   accum_cost_raster belt_mask_raster ;;
    (* 5b. refined mask *)
    pushInfo (Info "Creating refined mask...") ;;
    refined_mask_raster <- processing_run
      (qgis_rastercalculator (threshold_expression mean_cost)
         [accum_cost_raster] dem_xres ext crs_auth) ;;
    (* 6. polygonize refined mask *)
    pushInfo (Info "Polygonizing refined mask...") ;;
    let refined_poly_path := os_path_join temp_dir "cb_refined_poly.gpkg" in
    refined_poly <- processing_run_vector
      (gdal_polygonize refined_mask_raster 1 "DN" false) ;;
    (* 7. Extract DN = 1 *)
    pushInfo (Info "Extracting DN = 1...") ;;
    extracted <- processing_run_vector
      (native_extractbyattribute refined_poly "DN" 0 1) ;;
    (* 8. Delete holes *)
    pushInfo (Info "Deleting holes...") ;;
    hole_free <- processing_run_vector (native_deleteholes extracted 0) ;;
    (* 9. Smooth *)
    pushInfo (Info "Smoothing...") ;;
    smoothed <- processing_run_vector
      (native_smoothgeometry hole_free 0 3 lit_0_4) ;;
    (* 10. gap-closing buffer in/out *)
    pushInfo (Info "Closing narrow gaps...") ;;
    let gap_dist := (dem_xres * gap_factor)%py in
    buf_out <- processing_run_vector
      (native_buffer smoothed gap_dist 8 0 0 2 true) ;;
    gaps_closed <- processing_run_vector
      (native_buffer buf_out (- gap_dist)%py 8 0 0 2 true) ;;
    (* write to user output *)
    dest_id <- parameterAsSink parameters PARAM_OUTPUT
                 (fields gaps_closed) (wkbType gaps_closed) (sourceCrs gaps_closed) ;;
    add_features (getFeatures gaps_closed) ;;
    delete_files
      [slope_path; cond_slope_path; river_path; accum_cost_path;
       belt_mask_path; refined_mask_path; refined_poly_path] ;;
    (if getMapLayer backend dest_id
     then pushInfo (Info "Applied light blue symbology with 30% transparency.")
     else ret tt) ;;
    ret dest_id
  | _, _ => raise (QgsProcessingException "River Network or DEM not valid")
  end.

(** [processAlgorithm], the raster calculator having its cell-wise meaning. *)
Definition processAlgorithm : Parameters -> M A string :=
  processAlgorithm_with processing_run_raster.

(** [processAlgorithm], the raster calculator being the host's like every
    other collaborator. *)
Definition processAlgorithm_host : Parameters -> M A string :=
  processAlgorithm_with processing_run_host.

End Algorithm.

(* ================================================================== *)
(** * A synthetic backend

    A test double for the toolbox, used to run the algorithm on concrete
    rasters.  The slope of any elevation is flat, the river is burnt along
    the first row, the cost surface is the synthetic raster [cost_rows]
    whatever the friction and the seeds; every cell of a mask becomes one
    square polygon tagged with its value in the field it is asked to write;
    extraction keeps the features whose first attribute is the value asked
    for; hole removal and smoothing change nothing; a dissolving buffer
    merges all features into one that keeps the attributes of the first.
    Every raster lies on the grid it was asked for. *)

Module Synthetic.
Section Synthetic.
Context {A : Type} {NA : Number A}.

Definition constant (g : Grid A) (w h : nat) (v : A) : Raster A :=
  {| raster_grid := g; RasterXSize := w; RasterYSize := h;
     pixel := fun _ _ => v |}.

Definition first_row_burnt (g : Grid A) (w h : nat) (v : A) : Raster A :=
  {| raster_grid := g; RasterXSize := w; RasterYSize := h;
     pixel := fun y _ => match y with O => v | S _ => zero end |}.

Definition square (y x : nat) : QgsGeometry A :=
  let x0 := of_int (Z.of_nat x) in
  let x1 := of_int (Z.of_nat (S x)) in
  let y0 := of_int (Z.of_nat y) in
  let y1 := of_int (Z.of_nat (S y)) in
  [[(x0, y0); (x1, y0); (x1, y1); (x0, y1)]].

Definition polygonize (r : Raster A) (field : string) : QgsVectorLayer A :=
  {| fields := [field];
     wkbType := 3;
     sourceCrs := "";
     getFeatures :=
       flat_map
         (fun y =>
            map (fun x =>
                   {| geometry := square y x;
                      attributes := [if truthy (pixel r y x) then 1 else 0]%Z |})
                (seq 0 (RasterXSize r)))
         (seq 0 (RasterYSize r)) |}.

Definition extract (l : QgsVectorLayer A) (value : Z) : QgsVectorLayer A :=
  {| fields := fields l; wkbType := wkbType l; sourceCrs := sourceCrs l;
     getFeatures :=
       filter (fun f => match attributes f with
                        | v :: _ => (v =? value)%Z
                        | [] => false
                        end)
              (getFeatures l) |}.

Definition dissolve (l : QgsVectorLayer A) : QgsVectorLayer A :=
  {| fields := fields l; wkbType := wkbType l; sourceCrs := sourceCrs l;
     getFeatures :=
       match getFeatures l with
       | [] => []
       | f :: rest =>
           [{| geometry := flat_map (@geometry A) (f :: rest);
               attributes := attributes f |}]
       end |}.

Definition width_of (e : QgsRectangle A) : A := (xMaximum e - xMinimum e)%py.
Definition height_of (e : QgsRectangle A) : A := (yMaximum e - yMinimum e)%py.

Definition backend (cost_rows : list (list A)) : Backend A :=
  {| tempFolder := "/tmp/processing";
     run_raster := fun a =>
       match a with
       | gdal_slope dem _ _ _ _ _ =>
           Some (constant (raster_grid (dataset dem))
                          (RasterXSize (dataset dem)) (RasterYSize (dataset dem)) zero)
       | qgis_rastercalculator e layers cell_size ext _ =>
           Some (rastercalculator e layers cell_size ext)
       | gdal_rasterize _ burn _ _ w h ext _ _ _ _ =>
           Some (first_row_burnt
                   {| grid_extent := ext;
                      grid_xres := fdiv (width_of ext) (of_int w);
                      grid_yres := fdiv (height_of ext) (of_int h) |}
                   (Z.to_nat w) (Z.to_nat h) (of_int burn))
       | grass7_r_cost _ _ _ _ region cellsize =>
           Some (of_rows {| grid_extent := region; grid_xres := cellsize;
                            grid_yres := cellsize |} cost_rows)
       end;
     run_vector := fun a =>
       match a with
       | gdal_polygonize r _ field _ => Some (polygonize r field)
       | native_extractbyattribute l _ _ value => Some (extract l value)
       | native_deleteholes l _ => Some l
       | native_smoothgeometry l _ _ _ => Some l
       | native_buffer l _ _ _ _ _ diss => Some (if diss then dissolve l else l)
       end;
     gdal_Open := fun _ => true;
     os_remove_raises := fun _ => false;
     getMapLayer := fun _ => false |}.

(** The cancellation signal: never set, or set from the [n]-th poll on. *)
Definition never : nat -> bool := fun _ => false.
Definition canceled_from (n : nat) : nat -> bool := fun k => (n <=? k)%nat.

(** A square-celled elevation grid of [w] by [h] cells of size [res] with
    its lower left corner at the origin, and a run's parameters on it. *)
Definition dem (w h : nat) (xres yres : A) : QgsRasterLayer A :=
  {| source := "dem.tif";
     dataset :=
       constant
         {| grid_extent :=
              {| xMinimum := zero;
                 xMaximum := (of_int (Z.of_nat w) * xres)%py;
                 yMinimum := zero;
                 yMaximum := (of_int (Z.of_nat h) * yres)%py |};
            grid_xres := xres; grid_yres := yres |}
         w h zero;
     authid := "EPSG:32610" |}.

Definition river : QgsVectorLayer A :=
  {| fields := []; wkbType := 2; sourceCrs := "EPSG:32610";
     getFeatures := [{| geometry := [[(zero, zero); (one, zero)]];
                        attributes := [] |}] |}.

Definition parameters (d : QgsRasterLayer A) (cost_threshold : A)
  : Parameters :=
  [ (PARAM_RIVER, VectorLayerValue river);
    (PARAM_DEM, RasterLayerValue d);
    (PARAM_COST_THRESHOLD, DoubleValue cost_threshold);
    (PARAM_OUTPUT, SinkValue "valley_floor") ].

End Synthetic.
End Synthetic.

(** ** A toolbox whose raster calculator works on the grid it is asked for *)

Module Host.
Section Host.
Context {A : Type} {NA : Number A}.

(** The number of cells of size [cell] that cover the length [len]. *)
Definition cells_across (len cell : A) : nat :=
  match pydiv len cell with
  | Some q => match fceil q with Some n => Z.to_nat n | None => 0%nat end
  | None => 0%nat
  end.

(** A raster calculator that lays its output on the grid it is asked for:
    as many cells as cover [EXTENT] at [CELL_SIZE], each holding the
    expression evaluated on the cell of the layer with the same indices. *)
Definition calculator (EXPRESSION : expr A) (LAYERS : list (Raster A))
    (CELL_SIZE : A) (EXTENT : QgsRectangle A) : Raster A :=
  {| raster_grid :=
       {| grid_extent := EXTENT; grid_xres := CELL_SIZE; grid_yres := CELL_SIZE |};
     RasterXSize := cells_across (Synthetic.width_of EXTENT) CELL_SIZE;
     RasterYSize := cells_across (Synthetic.height_of EXTENT) CELL_SIZE;
     pixel := fun y x =>
       match LAYERS with
       | [] => zero
       | layer :: _ => eval (pixel layer y x) EXPRESSION
       end |}.

(** The synthetic toolbox with that calculator. *)
Definition backend (cost_rows : list (list A)) : Backend A :=
  let b := Synthetic.backend cost_rows in
  {| tempFolder := tempFolder b;
     run_raster := fun a =>
       match a with
       | qgis_rastercalculator e layers cell_size ext _ =>
           Some (calculator e layers cell_size ext)
       | _ => run_raster b a
       end;
     run_vector := run_vector b;
     gdal_Open := gdal_Open b;
     os_remove_raises := os_remove_raises b;
     getMapLayer := getMapLayer b |}.

End Host.
End Host.

(** ** Scenarios on the synthetic backend *)
Module Scenario.
Import Synthetic.

(** The cost surface the synthetic backend answers with for [d]. *)
Definition cost_surface {A} {NA : Number A} (d : QgsRasterLayer A)
    (rows : list (list A)) : Raster A :=
  of_rows {| grid_extent := extent d;
             grid_xres := rasterUnitsPerPixelX d;
             grid_yres := rasterUnitsPerPixelX d |} rows.

(** A 2 x 2 grid of 10 m cells, exact arithmetic. *)
Definition rowsQ : list (list Q) := [[1; 2]; [3; 4]]%Q.
Definition demQ : QgsRasterLayer Q := dem 2 2 10%Q 10%Q.
Definition costQ : Raster Q := cost_surface demQ rowsQ.

(** The same grid with cells 10 m wide and 20 m high. *)
Definition demQ_oblong : QgsRasterLayer Q := dem 2 2 10%Q 20%Q.

(** Binary64: a cost surface and threshold with no rounding in Pass 2 ... *)
Definition rowsF_exact : list (list float) := [[1; 2]; [3; 5000]]%float.
Definition demF : QgsRasterLayer float := dem 2 2 10%float 10%float.
Definition costF_exact : Raster float := cost_surface demF rowsF_exact.

(** ... and one where the sum [0.1 + 0.1 + 0.1] rounds upwards; the fourth
    cell holds the double next above [0.1]. *)
Definition tenth : float := 0x1.999999999999ap-4%float.
Definition tenth_up : float := 0x1.999999999999bp-4%float.

End Scenario.


(* ================================================================== *)
(** * Specification-level definitions *)

Section Spec.
Context {A : Type} {NA : Number A}.

(** A run of the algorithm: [processAlgorithm] from a fresh state. *)
Definition run (backend : Backend A) (feedback : nat -> bool)
    (parameters : Parameters) : result string * State A :=
  processAlgorithm backend feedback parameters (initial A).

(** A run in which the raster calculator is the host's like every other
    collaborator: it may fail, and its output has whatever size and grid the
    host gives it. *)
Definition run_host (backend : Backend A) (feedback : nat -> bool)
    (parameters : Parameters) : result string * State A :=
  processAlgorithm_host backend feedback parameters (initial A).

(** The backend that answers a raster calculator call with the cell-wise
    meaning of its expression, and any other call as [backend] does: a run
    is the host run on it. *)
Definition cell_wise (backend : Backend A) : Backend A :=
  {| tempFolder := tempFolder backend;
     run_raster := fun a =>
       match a with
       | qgis_rastercalculator e layers cell_size ext _ =>
           Some (rastercalculator e layers cell_size ext)
       | _ => run_raster backend a
       end;
     run_vector := run_vector backend;
     gdal_Open := gdal_Open backend;
     os_remove_raises := os_remove_raises backend;
     getMapLayer := getMapLayer backend |}.

(** ThresholdMask: the raster the calculator yields for the threshold
    expression at threshold [t] on the cost surface. *)
Definition ThresholdMask (t : A) (cost : Raster A) (cell_size : A)
    (ext : QgsRectangle A) : Raster A :=
  rastercalculator (threshold_expression t) [cost] cell_size ext.

(** The cells of the first [rows] rows of a grid [cols] wide, row by row. *)
Definition cells (rows cols : nat) : list (nat * nat) :=
  flat_map (fun y => map (pair y) (seq 0 cols)) (seq 0 rows).

(** A cell qualifies when the mask is 1 there and the cost is positive. *)
Definition qualifies (cost mask : Raster A) (c : nat * nat) : bool :=
  (pixel mask (fst c) (snd c) =? one)%py && (zero <? pixel cost (fst c) (snd c))%py.

(** The cost values of the qualifying cells of the first [rows] rows, in
    scan order. *)
Definition corridor_costs (cost mask : Raster A) (rows : nat) : list A :=
  map (fun c => pixel cost (fst c) (snd c))
      (filter (qualifies cost mask) (cells rows (RasterXSize cost))).

(** The number of rows Pass 2 scans out of [n] when its first poll of the
    cancellation signal is poll [p]: all of them unless the signal is set. *)
Fixpoint rows_scanned (feedback : nat -> bool) (p n : nat) : nat :=
  match n with
  | O => O
  | S n' => if feedback p then O else S (rows_scanned feedback (S p) n')
  end.

Definition corridor_sum (vals : list A) : A := fold_left fadd vals zero.
Definition corridor_count (vals : list A) : Z := Z.of_nat (List.length vals).
Definition corridor_mean (vals : list A) : A :=
  fdiv (corridor_sum vals) (of_int (corridor_count vals)).

End Spec.


(** The exact value of a number, where it has one: the laws say that the
    comparisons of the source are those of the values. *)
Class Valued (A : Type) {NA : Number A} : Type := {
  value : A -> option Q;
  value_zero : value zero = Some 0%Q;
  value_lt : forall a b qa qb, value a = Some qa -> value b = Some qb ->
    ((a <? b)%py = true <-> (qa < qb)%Q);
  value_le : forall a b qa qb, value a = Some qa -> value b = Some qb ->
    ((a <=? b)%py = true <-> (qa <= qb)%Q);
  value_between : forall a b c qa qc,
    value a = Some qa -> value c = Some qc ->
    (a <? b)%py = true -> (b <=? c)%py = true -> exists qb, value b = Some qb
}.
Arguments Valued A {NA}.


(** The value of a binary64 number: none for an infinity or a NaN. *)
Definition SF2Q (f : spec_float) : option Q :=
  match f with
  | S754_zero _ => Some 0
  | S754_finite s m e =>
      Some (inject_Z (if s then Z.neg m else Z.pos m) * 2 ^ e)
  | S754_infinity _ => None
  | S754_nan => None
  end.

Definition float_value (x : float) : option Q := SF2Q (Prim2SF x).


(* ================================================================== *)
(** * A program logic for runs *)

Section Logic.
Context {A : Type} {NA : Number A}.
Variable backend : Backend A.
Variable feedback : nat -> bool.

Definition with_polls (s : State A) (p : nat) : State A :=
  {| calls := calls s; polls := p; sink := sink s;
     messages := messages s; removed := removed s |}.

(** [post m s Q]: the outcome of running [m] from [s] satisfies [Q]. *)
Definition post {X} (m : M A X) (s : State A)
    (Q : result X -> State A -> Prop) : Prop :=
  Q (fst (m s)) (snd (m s)).

Lemma post_bind {X Y} (m : M A X) (k : X -> M A Y) s Q :
  post m s (fun r s' => match r with
                        | Ok x => post (k x) s' Q
                        | Raise e => Q (Raise e) s'
                        end) ->
  post (bind m k) s Q.
Proof.
  unfold post, bind. destruct (m s) as [[x|e] s']; simpl; auto.
Qed.

Lemma post_or_raise {X} (o : option X) e s (Q : result X -> State A -> Prop) :
  (forall x, o = Some x -> Q (Ok x) s) ->
  (o = None -> Q (Raise e) s) ->
  post (or_raise o e) s Q.
Proof.
  unfold post. destruct o; simpl; auto.
Qed.

Lemma read_row_frame (band : Raster A) y cols s :
  exists r, read_row band y cols s = (r, s).
Proof.
  unfold read_row. destruct (ReadAsArray band 0 y cols 1) as [[|row rest]|];
    eexists; reflexivity.
Qed.

Lemma scan_rows_frame cb mb cols ys : forall acc s,
  exists r p, scan_rows feedback cb mb cols ys acc s = (r, with_polls s p).
Proof.
  induction ys as [|y ys IH]; intros acc s; simpl.
  - exists (Ok acc), (polls s). destruct s; reflexivity.
  - unfold bind at 1. unfold isCanceled at 1.
    destruct (feedback (polls s)).
    + eexists _, _. reflexivity.
    + unfold bind at 1.
      destruct (read_row_frame cb y cols (with_polls s (S (polls s)))) as [r1 E1].
      unfold with_polls in E1. rewrite E1. destruct r1 as [cost_arr|e].
      * unfold bind at 1.
        destruct (read_row_frame mb y cols (with_polls s (S (polls s)))) as [r2 E2].
        unfold with_polls in E2. rewrite E2. destruct r2 as [mask_arr|e].
        -- destruct (IH (scan_row mask_arr cost_arr acc) (with_polls s (S (polls s))))
             as (r & p & E).
           unfold with_polls in E. rewrite E. exists r, p. reflexivity.
        -- eexists _, _. reflexivity.
      * eexists _, _. reflexivity.
Qed.

Lemma post_scan_rows cb mb cols ys acc s Q :
  (forall r p, scan_rows feedback cb mb cols ys acc s = (r, with_polls s p) ->
               Q r (with_polls s p)) ->
  post (scan_rows feedback cb mb cols ys acc) s Q.
Proof.
  intros H. unfold post.
  destruct (scan_rows_frame cb mb cols ys acc s) as (r & p & E).
  rewrite E. simpl. apply H, E.
Qed.

(** The sink loop touches the poll counter and the features of the sink. *)
Definition with_sink (s : State A) (p : nat) (k : option (Sink A)) : State A :=
  {| calls := calls s; polls := p; sink := k;
     messages := messages s; removed := removed s |}.

Definition sink_extends (k0 k : option (Sink A)) (fs : list (QgsFeature A)) : Prop :=
  match k0, k with
  | None, None => True
  | Some a, Some b =>
      sink_fields b = sink_fields a /\ sink_wkbType b = sink_wkbType a /\
      sink_crs b = sink_crs a /\
      exists written rest, added b = added a ++ written /\ fs = written ++ rest
  | _, _ => False
  end.

Lemma add_features_frame fs : forall s,
  exists r p k, add_features feedback fs s = (r, with_sink s p k) /\
                sink_extends (sink s) k fs /\
                (r = Ok tt \/ (r = Raise AttributeError /\ sink s = None)).
Proof.
  induction fs as [|f fs IH]; intros s; simpl.
  - exists (Ok tt), (polls s), (sink s). split; [|split; [|left; reflexivity]].
    + destruct s; reflexivity.
    + unfold sink_extends. destruct (sink s); auto.
      repeat split; auto. exists [], []. rewrite app_nil_r. auto.
  - unfold bind at 1. unfold isCanceled at 1.
    destruct (feedback (polls s)).
    + exists (Ok tt), (S (polls s)), (sink s).
      split; [reflexivity|split; [|left; reflexivity]].
      unfold sink_extends. destruct (sink s); auto.
      repeat split; auto. exists [], (f :: fs). rewrite app_nil_r. auto.
    + unfold bind at 1. unfold addFeature at 1. cbn [sink].
      destruct (sink s) as [k0|] eqn:Ek.
      * match goal with |- context [add_features feedback fs ?s1] =>
          destruct (IH s1) as (r & p & k & E & Hx & Hr) end.
        rewrite E. exists r, p, k. split; [reflexivity|].
        cbn [sink] in Hx, Hr. split.
        -- unfold sink_extends in *. destruct k as [k|]; [|contradiction].
           cbn [sink_fields sink_wkbType sink_crs added] in Hx.
           destruct Hx as (H1 & H2 & H3 & written & rest & H4 & H5).
           repeat split; auto. exists (f :: written), rest.
           rewrite H4, <- app_assoc. simpl. subst fs. auto.
        -- destruct Hr as [Hr|[_ Hr]]; [left; exact Hr|discriminate Hr].
      * exists (Raise AttributeError), (S (polls s)), None.
        split; [reflexivity|]. split; [exact I|]. right. split; reflexivity.
Qed.

Lemma post_add_features fs s (Q : result unit -> State A -> Prop) :
  (forall p k, sink_extends (sink s) k fs -> Q (Ok tt) (with_sink s p k)) ->
  (forall p, sink s = None -> Q (Raise AttributeError) (with_sink s p None)) ->
  post (add_features feedback fs) s Q.
Proof.
  intros H1 H2. unfold post.
  destruct (add_features_frame fs s) as (r & p & k & E & Hx & Hr).
  rewrite E. simpl. destruct Hr as [->|[-> Hs]].
  - apply H1, Hx.
  - rewrite Hs in Hx. unfold sink_extends in Hx. destruct k; [contradiction|].
    apply H2, Hs.
Qed.

Definition with_cleanup (s : State A) (ms : list (Message A)) (rm : list string) : State A :=
  {| calls := calls s; polls := polls s; sink := sink s;
     messages := ms; removed := rm |}.

Definition deletion_notice (m : Message A) : Prop :=
  exists p, m = InfoCouldNotDelete p.

Lemma delete_files_frame ps : forall s,
  exists ms rm,
    delete_files backend ps s =
    (Ok tt, with_cleanup s (messages s ++ ms) (removed s ++ rm)) /\
    Forall deletion_notice ms.
Proof.
  induction ps as [|p ps IH]; intros s; simpl.
  - exists [], []. rewrite !app_nil_r. split; [destruct s; reflexivity|constructor].
  - unfold bind at 1.
    destruct (os_remove_raises backend p); simpl.
    + match goal with |- context [delete_files backend ps ?s1] =>
        destruct (IH s1) as (ms & rm & E & F) end.
      rewrite E. exists (InfoCouldNotDelete p :: ms), rm.
      unfold with_cleanup. cbn [calls polls sink messages removed].
      rewrite <- app_assoc. split; [reflexivity|].
      constructor; [exists p; reflexivity|exact F].
    + match goal with |- context [delete_files backend ps ?s1] =>
        destruct (IH s1) as (ms & rm & E & F) end.
      rewrite E. exists ms, (p :: rm).
      unfold with_cleanup. cbn [calls polls sink messages removed].
      rewrite <- app_assoc. split; [reflexivity|exact F].
Qed.

Lemma post_delete_files ps s (Q : result unit -> State A -> Prop) :
  (forall ms rm, Forall deletion_notice ms ->
     Q (Ok tt) (with_cleanup s (messages s ++ ms) (removed s ++ rm))) ->
  post (delete_files backend ps) s Q.
Proof.
  intros H. unfold post.
  destruct (delete_files_frame ps s) as (ms & rm & E & F).
  rewrite E. simpl. apply H, F.
Qed.

Lemma no_mean_in_notices ms (m : A) :
  Forall deletion_notice ms -> ~ In (InfoMeanCost m) ms.
Proof.
  intros F H. rewrite Forall_forall in F. destruct (F _ H) as [p E]. discriminate E.
Qed.

End Logic.

Section Walk.
Context {A : Type} {NA : Number A}.
Variable backend : Backend A.
Variable feedback : nat -> bool.

Lemma post_pushInfo m s (Q : result unit -> State A -> Prop) :
  Q (Ok tt) {| calls := calls s; polls := polls s; sink := sink s;
               messages := messages s ++ [m]; removed := removed s |} ->
  post (pushInfo m) s Q.
Proof. exact (fun H => H). Qed.

Lemma post_record_call c s (Q : result unit -> State A -> Prop) :
  Q (Ok tt) {| calls := calls s ++ [c]; polls := polls s; sink := sink s;
               messages := messages s; removed := removed s |} ->
  post (record_call c) s Q.
Proof. exact (fun H => H). Qed.

Lemma post_ret {X} (x : X) s (Q : result X -> State A -> Prop) :
  Q (Ok x) s -> post (ret x) s Q.
Proof. exact (fun H => H). Qed.

Lemma post_raise {X} e s (Q : result X -> State A -> Prop) :
  Q (Raise e) s -> post (raise e) s Q.
Proof. exact (fun H => H). Qed.

Lemma post_parameterAsSink parameters key flds wkb crs s
    (Q : result string -> State A -> Prop) :
  (forall dest_id, lookup key parameters = Some (SinkValue dest_id) ->
     Q (Ok dest_id)
       {| calls := calls s; polls := polls s;
          sink := Some {| sink_fields := flds; sink_wkbType := wkb;
                          sink_crs := crs; added := [] |};
          messages := messages s; removed := removed s |}) ->
  ((forall dest_id, lookup key parameters <> Some (SinkValue dest_id)) ->
     Q (Ok EmptyString) s) ->
  post (parameterAsSink parameters key flds wkb crs) s Q.
Proof.
  intros H1 H2. unfold post, parameterAsSink.
  destruct (lookup key parameters) as [[| | |d]|]; simpl;
    try (apply H2; intros; discriminate).
  apply H1. reflexivity.
Qed.

End Walk.

Ltac norm :=
  cbv beta iota;
  cbn [fst snd calls polls sink messages removed app with_polls with_sink with_cleanup].

Ltac walk1 :=
  lazymatch goal with
  | |- post (bind _ _) _ _ => apply post_bind
  | |- post (pushInfo _) _ _ => apply post_pushInfo; norm
  | |- post (record_call _) _ _ => apply post_record_call; norm
  | |- post (ret _) _ _ => apply post_ret; norm
  | |- post (raise _) _ _ => apply post_raise; norm
  | |- post (or_raise _ _) _ _ =>
      apply post_or_raise; [intros ? ?|intros ?]; norm
  | |- post (processing_run_raster _ _) _ _ => unfold processing_run_raster
  | |- post (processing_run_vector _ _) _ _ => unfold processing_run_vector
  | |- post (int_ceil_div _ _) _ _ => unfold int_ceil_div
  | |- post (compute_mean _ _ _ _ _ _) _ _ => unfold compute_mean
  | |- post (scan_rows _ _ _ _ _ _) _ _ =>
      apply post_scan_rows; intros [[? ?]|?] ? ?; norm
  | |- post (add_features _ _) _ _ =>
      apply post_add_features; [intros ? ? ?|intros ? ?]; norm
  | |- post (delete_files _ _) _ _ =>
      apply post_delete_files; intros ? ? ?; norm
  | |- post (parameterAsSink ?p ?k _ _ _) _ _ =>
      apply post_parameterAsSink; [intros ? ?|intros ?]; norm
  | |- post (if ?b then _ else _) _ _ => destruct b eqn:?
  | |- post (match ?o with _ => _ end) _ _ => destruct o eqn:?
  | |- post (let _ := _ in _) _ _ => cbv zeta
  end.

Ltac walk := repeat walk1.

(* ================================================================== *)
(** * Pass 2 computes the corridor statistics *)

Section Scan.
Context {A : Type} {NA : Number A}.
Variable feedback : nat -> bool.

Lemma ReadAsArray_row (r : Raster A) y cols :
  (y < RasterYSize r)%nat -> (cols <= RasterXSize r)%nat ->
  ReadAsArray r 0 y cols 1 = Some [map (pixel r y) (seq 0 cols)].
Proof.
  intros Hy Hc. unfold ReadAsArray.
  replace ((0 + cols <=? RasterXSize r)%nat) with true
    by (symmetry; apply Nat.leb_le; lia).
  replace ((y + 1 <=? RasterYSize r)%nat) with true
    by (symmetry; apply Nat.leb_le; lia).
  reflexivity.
Qed.

Lemma read_row_ok (r : Raster A) y cols s :
  (y < RasterYSize r)%nat -> (cols <= RasterXSize r)%nat ->
  read_row r y cols s = (Ok (map (pixel r y) (seq 0 cols)), s).
Proof.
  intros Hy Hc. unfold read_row. rewrite ReadAsArray_row by assumption.
  reflexivity.
Qed.

(** The cost values one row contributes, in column order. *)
Definition row_costs (cost mask : Raster A) (y : nat) (xs : list nat) : list A :=
  map (fun c => pixel cost (fst c) (snd c))
      (filter (qualifies cost mask) (map (pair y) xs)).

Lemma scan_row_spec (cost mask : Raster A) y xs : forall total count,
  scan_row (map (pixel mask y) xs) (map (pixel cost y) xs) (total, count) =
  (fold_left fadd (row_costs cost mask y xs) total,
   (count + Z.of_nat (List.length (row_costs cost mask y xs)))%Z).
Proof.
  unfold scan_row, row_costs.
  induction xs as [|x xs IH]; intros total count; cbn [map combine fold_left filter].
  - cbn [map List.length Z.of_nat]. rewrite Z.add_0_r. reflexivity.
  - unfold accumulate at 2.
    change ((pixel mask y x =? one)%py && (zero <? pixel cost y x)%py)
      with (qualifies cost mask (y, x)).
    destruct (qualifies cost mask (y, x)).
    + rewrite IH. cbn [map fold_left List.length fst snd].
      apply f_equal2; [reflexivity|lia].
    + apply IH.
Qed.

Lemma corridor_costs_succ (cost mask : Raster A) n :
  corridor_costs cost mask (S n) =
  corridor_costs cost mask n ++ row_costs cost mask n (seq 0 (RasterXSize cost)).
Proof.
  unfold corridor_costs, cells, row_costs.
  rewrite seq_S, flat_map_app, filter_app, map_app. cbn [flat_map Nat.add].
  rewrite app_nil_r. reflexivity.
Qed.

(** The scan from row [y0] on, started with the sum and count of the
    first [y0] rows, ends with those of the rows scanned. *)
Lemma scan_rows_spec (cost mask : Raster A) :
  RasterXSize mask = RasterXSize cost ->
  RasterYSize mask = RasterYSize cost ->
  forall n y0 s,
    (y0 + n <= RasterYSize cost)%nat ->
    let k := rows_scanned feedback (polls s) n in
    exists p,
      scan_rows feedback cost mask (RasterXSize cost) (seq y0 n)
        (corridor_sum (corridor_costs cost mask y0),
         corridor_count (corridor_costs cost mask y0)) s
      = (Ok (corridor_sum (corridor_costs cost mask (y0 + k)),
             corridor_count (corridor_costs cost mask (y0 + k))),
         with_polls s p).
Proof.
  intros HX HY. induction n as [|n IH]; intros y0 s Hn; cbn [seq scan_rows rows_scanned].
  - exists (polls s). rewrite Nat.add_0_r. destruct s; reflexivity.
  - unfold bind at 1. unfold isCanceled at 1.
    destruct (feedback (polls s)) eqn:Hc.
    + exists (S (polls s)). rewrite Nat.add_0_r. reflexivity.
    + unfold bind at 1. rewrite read_row_ok by lia.
      unfold bind at 1. rewrite read_row_ok by lia.
      unfold corridor_sum, corridor_count. rewrite scan_row_spec.
      rewrite <- fold_left_app, <- Nat2Z.inj_add, <- length_app.
      rewrite <- corridor_costs_succ.
      match goal with |- context [scan_rows _ _ _ _ _ _ ?s1] =>
        destruct (IH (S y0) s1 ltac:(lia)) as [p E] end.
      cbn [polls] in E. unfold corridor_sum, corridor_count in E.
      rewrite E. exists p. rewrite <- Nat.add_succ_comm. reflexivity.
Qed.

End Scan.

(* ================================================================== *)
(** * The order of binary64 numbers is the order of their values *)

Section FloatOrder.
Local Open Scope Z_scope.

Lemma digits2_pos_bounds (m : positive) :
  2 ^ (Z.pos (digits2_pos m) - 1) <= Z.pos m < 2 ^ Z.pos (digits2_pos m).
Proof.
  induction m as [m IH|m IH|]; cbn [digits2_pos].
  - rewrite Pos2Z.inj_succ.
    replace (Z.succ (Z.pos (digits2_pos m)) - 1) with (Z.succ (Z.pos (digits2_pos m) - 1)) by lia.
    rewrite !Z.pow_succ_r by lia. lia.
  - rewrite Pos2Z.inj_succ.
    replace (Z.succ (Z.pos (digits2_pos m)) - 1) with (Z.succ (Z.pos (digits2_pos m) - 1)) by lia.
    rewrite !Z.pow_succ_r by lia. lia.
  - cbn. lia.
Qed.

(** What validity says of a binary64 mantissa and exponent. *)
Lemma bounded_inv m e :
  bounded prec emax m e = true ->
  -1074 <= e /\ Z.pos m < 2 ^ 53 /\ (-1074 < e -> 2 ^ 52 <= Z.pos m).
Proof.
  unfold bounded, canonical_mantissa, fexp, SpecFloat.emin, prec, emax.
  intros H. apply andb_true_iff in H. destruct H as [H _].
  apply Z.eqb_eq in H.
  pose proof (digits2_pos_bounds m) as [Hlo Hhi].
  set (d := Z.pos (digits2_pos m)) in *.
  assert (Hd : 0 < d) by (unfold d; lia).
  split; [lia|]. split.
  - assert (d <= 53) by lia.
    eapply Z.lt_le_trans; [exact Hhi|]. apply Z.pow_le_mono_r; lia.
  - intros He. assert (d = 53) by lia.
    replace (d - 1) with 52 in Hlo by lia. exact Hlo.
Qed.

Definition scaled (m : positive) (e : Z) : Z := Z.pos m * 2 ^ (e + 1074).

Lemma scaled_pos m e : -1074 <= e -> 0 < scaled m e.
Proof.
  intros He. unfold scaled. apply Z.mul_pos_pos; [lia|].
  apply Z.pow_pos_nonneg; lia.
Qed.

Lemma scaled_lt m1 e1 m2 e2 :
  bounded prec emax m1 e1 = true -> bounded prec emax m2 e2 = true ->
  e1 < e2 -> scaled m1 e1 < scaled m2 e2.
Proof.
  intros H1 H2 He.
  apply bounded_inv in H1. apply bounded_inv in H2.
  destruct H1 as (L1 & U1 & _). destruct H2 as (L2 & _ & N2).
  specialize (N2 ltac:(lia)). unfold scaled.
  assert (P1 : 0 < 2 ^ (e1 + 1074)) by (apply Z.pow_pos_nonneg; lia).
  replace (e2 + 1074) with ((e1 + 1074) + (e2 - e1)) by lia.
  rewrite (Z.pow_add_r 2 (e1 + 1074) (e2 - e1)) by lia.
  assert (P2 : 2 ^ 1 <= 2 ^ (e2 - e1)) by (apply Z.pow_le_mono_r; lia).
  change (2 ^ 1) with 2 in P2.
  change (2 ^ 53) with (2 ^ 52 * 2) in U1.
  set (P := 2 ^ (e1 + 1074)) in *. set (X := 2 ^ (e2 - e1)) in *.
  set (B := 2 ^ 52) in *.
  assert (B0 : 0 < B) by (unfold B; lia).
  apply Z.lt_le_trans with (B * 2 * P).
  - apply Z.mul_lt_mono_pos_r; assumption.
  - rewrite <- Z.mul_assoc.
    apply Z.mul_le_mono_nonneg; try lia.
    rewrite Z.mul_comm. apply Z.mul_le_mono_nonneg_l; lia.
Qed.

Lemma scaled_compare m1 e1 m2 e2 :
  bounded prec emax m1 e1 = true -> bounded prec emax m2 e2 = true ->
  (scaled m1 e1 ?= scaled m2 e2) =
  match e1 ?= e2 with
  | Lt => Lt
  | Gt => Gt
  | Eq => Pos.compare_cont Eq m1 m2
  end.
Proof.
  intros H1 H2. destruct (Z.compare_spec e1 e2) as [E|L|G].
  - subst e2. unfold scaled.
    assert (P : 0 < 2 ^ (e1 + 1074)).
    { apply bounded_inv in H1. apply Z.pow_pos_nonneg; lia. }
    change (Pos.compare_cont Eq m1 m2) with (Z.pos m1 ?= Z.pos m2).
    destruct (Z.compare_spec (Z.pos m1) (Z.pos m2)) as [E|L|G].
    + rewrite E. apply Z.compare_refl.
    + apply Z.compare_lt_iff. nia.
    + apply Z.compare_gt_iff. nia.
  - apply Z.compare_lt_iff. apply scaled_lt; assumption.
  - apply Z.compare_gt_iff. apply scaled_lt; assumption.
Qed.
End FloatOrder.

Section FloatValue.
Local Open Scope Q_scope.

Definition denom : Q := inject_Z (2 ^ 1074).

Lemma denom_pos : 0 < denom.
Proof.
  unfold denom. change (inject_Z 0 < inject_Z (2 ^ 1074)).
  rewrite <- Zlt_Qlt.
  apply Z.pow_pos_nonneg; lia.
Qed.

Lemma value_scaled (n e : Z) :
  (-1074 <= e)%Z ->
  inject_Z n * 2 ^ e == inject_Z (n * 2 ^ (e + 1074)) / denom.
Proof.
  intros He. unfold denom.
  rewrite inject_Z_mult.
  rewrite (Zpower_Qpower 2 (e + 1074)) by lia.
  rewrite (Zpower_Qpower 2 1074) by lia.
  change (inject_Z 2) with 2.
  rewrite (Qpower_plus 2 e 1074) by discriminate.
  assert (HD : ~ 2 ^ 1074 == 0) by (apply Qpower_not_0; discriminate).
  set (X := 2 ^ e) in *. set (D := 2 ^ 1074) in *.
  field. exact HD.
Qed.

Lemma Qcompare_scaled (a b : Z) :
  (inject_Z a / denom ?= inject_Z b / denom) = (a ?= b)%Z.
Proof.
  pose proof denom_pos as HD.
  assert (HI : 0 < / denom) by (apply Qinv_lt_0_compat; exact HD).
  destruct (Z.compare_spec a b) as [E|L|G].
  - subst. apply Qeq_alt. reflexivity.
  - apply Qlt_alt. unfold Qdiv. apply Qmult_lt_r; [exact HI|].
    rewrite <- Zlt_Qlt. exact L.
  - apply Qgt_alt. unfold Qdiv. apply Qmult_lt_r; [exact HI|].
    rewrite <- Zlt_Qlt. exact G.
Qed.

(** On valid finite numbers the comparison of the specification is the
    comparison of the values. *)
Lemma SFcompare_value f1 f2 q1 q2 :
  valid_binary f1 = true -> valid_binary f2 = true ->
  SF2Q f1 = Some q1 -> SF2Q f2 = Some q2 ->
  SFcompare f1 f2 = Some (q1 ?= q2).
Proof.
  intros V1 V2 E1 E2.
  destruct f1 as [s1| | |s1 m1 e1]; try discriminate;
  destruct f2 as [s2| | |s2 m2 e2]; try discriminate;
  cbn [SF2Q] in E1, E2; injection E1 as <-; injection E2 as <-;
  unfold valid_binary in V1, V2; cbn [SpecFloat.valid_binary] in V1, V2.
  - reflexivity.
  - pose proof (@bounded_inv _ _ V2) as (L2 & _).
    pose proof (@scaled_pos m2 _ L2) as P2. unfold scaled in P2.
    cbn [SFcompare]. f_equal. symmetry.
    rewrite (@value_scaled _ _ L2).
    change 0 with (inject_Z 0) at 1.
    assert (Z0 : inject_Z 0 == inject_Z 0 / denom) by (unfold Qdiv; ring).
    rewrite Z0 at 1. rewrite Qcompare_scaled.
    destruct s2.
    + apply Z.compare_gt_iff. lia.
    + apply Z.compare_lt_iff. lia.
  - pose proof (@bounded_inv _ _ V1) as (L1 & _).
    pose proof (@scaled_pos m1 _ L1) as P1. unfold scaled in P1.
    cbn [SFcompare]. f_equal. symmetry.
    rewrite (@value_scaled _ _ L1).
    assert (Z0 : 0 == inject_Z 0 / denom) by (unfold Qdiv; ring).
    rewrite Z0. rewrite Qcompare_scaled.
    destruct s1.
    + apply Z.compare_lt_iff. lia.
    + apply Z.compare_gt_iff. lia.
  - pose proof (@bounded_inv _ _ V1) as (L1 & _).
    pose proof (@bounded_inv _ _ V2) as (L2 & _).
    pose proof (@scaled_pos m1 _ L1) as P1.
    pose proof (@scaled_pos m2 _ L2) as P2.
    pose proof (@scaled_compare _ _ _ _ V1 V2) as C.
    unfold scaled in *.
    cbn [SFcompare]. f_equal. symmetry.
    rewrite (@value_scaled _ _ L1), (@value_scaled _ _ L2), Qcompare_scaled.
    destruct s1, s2.
    + replace (Z.neg m1 * 2 ^ (e1 + 1074))%Z with (- (Z.pos m1 * 2 ^ (e1 + 1074)))%Z by lia.
      replace (Z.neg m2 * 2 ^ (e2 + 1074))%Z with (- (Z.pos m2 * 2 ^ (e2 + 1074)))%Z by lia.
      rewrite Z.compare_opp, Z.compare_antisym, C.
      destruct (e1 ?= e2)%Z; reflexivity.
    + apply Z.compare_lt_iff. lia.
    + apply Z.compare_gt_iff. lia.
    + exact C.
Qed.
End FloatValue.

(* ================================================================== *)
(** * Rounding a sum or a product of numbers that are not negative *)

(** In binary64 the friction slope * pixel size + 0.00001 is rounded twice,
    after the product and after the sum.  Rounding to nearest never changes a
    sign, and it cannot take a number at least as large as the constant
    0.00001 down to zero. *)

Section BinaryRound.
Local Open Scope Z_scope.

Lemma digits2_pos_unique (m : positive) (d : Z) :
  2 ^ (d - 1) <= Z.pos m < 2 ^ d -> Z.pos (digits2_pos m) = d.
Proof.
  intros [Lo Hi]. pose proof (digits2_pos_bounds m) as [Lo' Hi'].
  set (d' := Z.pos (digits2_pos m)) in *.
  assert (0 < d').
  { unfold d'. lia. }
  assert (0 < d).
  { destruct (Z_lt_le_dec 0 d) as [?|Hd]; [assumption|].
    destruct (Z.eq_dec d 0) as [->|Hd0]; [cbn in Hi; lia|].
    rewrite Z.pow_neg_r in Hi by lia. lia. }
  destruct (Z_lt_le_dec d' d) as [L|G].
  - assert (2 ^ d' <= 2 ^ (d - 1)) by (apply Z.pow_le_mono_r; lia). lia.
  - destruct (Z_lt_le_dec d d') as [L|G'].
    + assert (2 ^ d <= 2 ^ (d' - 1)) by (apply Z.pow_le_mono_r; lia). lia.
    + lia.
Qed.

Lemma digits2_pos_le (a b : positive) :
  (a <= b)%positive -> Z.pos (digits2_pos a) <= Z.pos (digits2_pos b).
Proof.
  intros Hab. pose proof (digits2_pos_bounds a) as [La _].
  pose proof (digits2_pos_bounds b) as [_ Hb].
  destruct (Z_lt_le_dec (Z.pos (digits2_pos b)) (Z.pos (digits2_pos a))) as [L|G];
    [|exact G].
  assert (2 ^ Z.pos (digits2_pos b) <= 2 ^ (Z.pos (digits2_pos a) - 1))
    by (apply Z.pow_le_mono_r; lia).
  lia.
Qed.

Lemma digits2_pos_shift (m d : positive) :
  Z.pos (digits2_pos (Pos.iter xO m d)) = Z.pos (digits2_pos m) + Z.pos d.
Proof.
  induction d as [|d IH] using Pos.peano_ind.
  - cbn [Pos.iter digits2_pos]. lia.
  - rewrite Pos.iter_succ. cbn [digits2_pos]. rewrite Pos2Z.inj_succ, IH. lia.
Qed.

Lemma shr_1_m (r : shr_record) :
  0 <= shr_m r -> shr_m (shr_1 r) = shr_m r / 2.
Proof.
  destruct r as [m rb sb]. cbn [shr_m]. intros Hm.
  destruct m as [|[p|p|]|]; cbn [shr_1 shr_m].
  - reflexivity.
  - apply Z.div_unique with 1; lia.
  - apply Z.div_unique with 0; lia.
  - reflexivity.
  - lia.
Qed.

Lemma pow2_xI (n : positive) : 2 ^ Z.pos n~1 = 2 * 2 ^ Z.pos n * 2 ^ Z.pos n.
Proof.
  replace (Z.pos n~1) with (1 + Z.pos n + Z.pos n) by lia.
  rewrite (Z.pow_add_r 2 (1 + Z.pos n) (Z.pos n)) by lia.
  rewrite (Z.pow_add_r 2 1 (Z.pos n)) by lia. reflexivity.
Qed.

Lemma pow2_xO (n : positive) : 2 ^ Z.pos n~0 = 2 ^ Z.pos n * 2 ^ Z.pos n.
Proof.
  replace (Z.pos n~0) with (Z.pos n + Z.pos n) by lia.
  apply Z.pow_add_r; lia.
Qed.

Lemma pow2_pos (k : positive) : 0 < 2 ^ Z.pos k.
Proof. apply Z.pow_pos_nonneg; lia. Qed.

Lemma iter_shr_1_m (n : positive) : forall r,
  0 <= shr_m r -> shr_m (iter_pos shr_1 n r) = shr_m r / 2 ^ Z.pos n.
Proof.
  induction n as [n IH|n IH|]; intros r Hr; cbn [iter_pos].
  - assert (H1 : 0 <= shr_m (shr_1 r)).
    { rewrite shr_1_m by exact Hr. apply Z.div_pos; lia. }
    assert (H2 : 0 <= shr_m (iter_pos shr_1 n (shr_1 r))).
    { rewrite IH by exact H1. apply Z.div_pos; [exact H1|apply pow2_pos]. }
    rewrite IH by exact H2. rewrite IH by exact H1. rewrite shr_1_m by exact Hr.
    pose proof (pow2_pos n) as P.
    rewrite (Z.div_div (shr_m r) 2 (2 ^ Z.pos n)) by lia.
    rewrite (Z.div_div (shr_m r) (2 * 2 ^ Z.pos n) (2 ^ Z.pos n)) by lia.
    rewrite pow2_xI. reflexivity.
  - assert (H2 : 0 <= shr_m (iter_pos shr_1 n r)).
    { rewrite IH by exact Hr. apply Z.div_pos; [exact Hr|apply pow2_pos]. }
    rewrite IH by exact H2. rewrite IH by exact Hr.
    pose proof (pow2_pos n) as P.
    rewrite (Z.div_div (shr_m r) (2 ^ Z.pos n) (2 ^ Z.pos n)) by lia.
    rewrite pow2_xO. reflexivity.
  - rewrite shr_1_m by exact Hr. reflexivity.
Qed.

Lemma shr_record_of_loc_m (m : Z) (l : location) :
  shr_m (shr_record_of_loc m l) = m.
Proof. destruct l as [|[]]; reflexivity. Qed.

Lemma shr_fexp_nonneg (m e : Z) (l : location) :
  0 <= m -> 0 <= shr_m (fst (shr_fexp prec emax m e l)).
Proof.
  intros Hm. unfold shr_fexp, shr.
  destruct (fexp prec emax (Zdigits2 m + e) - e) as [|p|p]; cbn [fst];
    rewrite ?iter_shr_1_m; rewrite ?shr_record_of_loc_m; try exact Hm.
  apply Z.div_pos; [exact Hm|apply pow2_pos].
Qed.

Lemma shr_fexp_zero (e : Z) (l : location) :
  shr_m (fst (shr_fexp prec emax 0 e l)) = 0.
Proof.
  unfold shr_fexp, shr.
  destruct (fexp prec emax (Zdigits2 0 + e) - e) as [|p|p]; cbn [fst];
    rewrite ?iter_shr_1_m; rewrite ?shr_record_of_loc_m; try reflexivity; try lia.
Qed.

(** A mantissa whose leading bit lies above the subnormal floor survives the
    shift, and the position of its leading bit is unchanged. *)
Lemma shr_fexp_pos (m : positive) (e : Z) (l : location) :
  -1074 < Z.pos (digits2_pos m) + e ->
  exists m',
    shr_m (fst (shr_fexp prec emax (Z.pos m) e l)) = Z.pos m' /\
    Z.pos (digits2_pos m') + snd (shr_fexp prec emax (Z.pos m) e l)
      = Z.pos (digits2_pos m) + e.
Proof.
  intros Hd. unfold shr_fexp, shr. cbn [Zdigits2].
  change (fexp prec emax (Z.pos (digits2_pos m) + e))
    with (Z.max (Z.pos (digits2_pos m) + e - 53) (-1074)).
  pose proof (digits2_pos_bounds m) as [Lo Hi].
  set (d := Z.pos (digits2_pos m)) in *.
  destruct (Z.max (d + e - 53) (-1074) - e) as [|p|p] eqn:En; cbn [fst snd].
  - exists m. rewrite shr_record_of_loc_m. split; reflexivity.
  - rewrite iter_shr_1_m by (rewrite shr_record_of_loc_m; lia).
    rewrite shr_record_of_loc_m.
    assert (Hp : Z.pos p < d) by lia.
    pose proof (pow2_pos p) as P.
    assert (E1 : 2 ^ (d - 1) = 2 ^ Z.pos p * 2 ^ (d - Z.pos p - 1)).
    { rewrite <- Z.pow_add_r by lia. f_equal. lia. }
    assert (E2 : 2 ^ d = 2 ^ Z.pos p * 2 ^ (d - Z.pos p)).
    { rewrite <- Z.pow_add_r by lia. f_equal. lia. }
    assert (L : 2 ^ (d - Z.pos p - 1) <= Z.pos m / 2 ^ Z.pos p).
    { apply Z.div_le_lower_bound; [exact P|]. rewrite <- E1. exact Lo. }
    assert (U : Z.pos m / 2 ^ Z.pos p < 2 ^ (d - Z.pos p)).
    { apply Z.div_lt_upper_bound; [exact P|]. rewrite <- E2. exact Hi. }
    assert (0 < 2 ^ (d - Z.pos p - 1)) by (apply Z.pow_pos_nonneg; lia).
    destruct (Z.pos m / 2 ^ Z.pos p) as [|m'|m'] eqn:Eq; try lia.
    exists m'. split; [reflexivity|].
    rewrite (@digits2_pos_unique m' (d - Z.pos p)) by (split; assumption).
    lia.
  - exists m. rewrite shr_record_of_loc_m. split; reflexivity.
Qed.

Lemma round_nearest_even_pos (m : positive) (l : location) :
  exists m', round_nearest_even (Z.pos m) l = Z.pos m' /\ (m <= m')%positive.
Proof.
  destruct l as [|[]]; cbn [round_nearest_even].
  - exists m. split; [reflexivity|lia].
  - destruct (Z.even (Z.pos m)).
    + exists m. split; [reflexivity|lia].
    + exists (m + 1)%positive. split; [reflexivity|lia].
  - exists m. split; [reflexivity|lia].
  - exists (m + 1)%positive. split; [reflexivity|lia].
Qed.

Lemma round_nearest_even_nonneg (m : Z) (l : location) :
  0 <= m -> 0 <= round_nearest_even m l.
Proof.
  intros Hm. destruct l as [|[]]; cbn [round_nearest_even]; try lia.
  destruct (Z.even m); lia.
Qed.

(** What rounding a positive mantissa can give: never a NaN, never a
    negative number. *)
Definition not_negative (f : spec_float) : Prop :=
  match f with
  | S754_zero _ => True
  | S754_finite s _ _ => s = false
  | S754_infinity s => s = false
  | S754_nan => False
  end.

(** ... and strictly above zero. *)
Definition positive_or_inf (f : spec_float) : Prop :=
  match f with
  | S754_finite s _ _ => s = false
  | S754_infinity s => s = false
  | _ => False
  end.

Lemma binary_round_aux_not_negative (m : positive) (e : Z) (l : location) :
  not_negative (binary_round_aux prec emax false (Z.pos m) e l).
Proof.
  unfold binary_round_aux.
  pose proof (@shr_fexp_nonneg (Z.pos m) e l) as H1.
  destruct (shr_fexp prec emax (Z.pos m) e l) as [r1 e1]. cbn [fst] in H1.
  specialize (H1 ltac:(lia)).
  pose proof (@shr_fexp_nonneg
                (round_nearest_even (shr_m r1) (loc_of_shr_record r1)) e1 loc_Exact
                (round_nearest_even_nonneg _ H1)) as H2.
  destruct (shr_fexp prec emax _ e1 loc_Exact) as [r2 e2]. cbn [fst] in H2.
  destruct (shr_m r2) as [|m2|m2]; [exact I| |lia].
  destruct (e2 <=? emax - prec); reflexivity.
Qed.

Lemma binary_round_aux_positive (m : positive) (e : Z) (l : location) :
  -1074 < Z.pos (digits2_pos m) + e ->
  positive_or_inf (binary_round_aux prec emax false (Z.pos m) e l).
Proof.
  intros Hd. unfold binary_round_aux.
  destruct (@shr_fexp_pos m e l Hd) as (m1 & E1 & D1).
  destruct (shr_fexp prec emax (Z.pos m) e l) as [r1 e1]. cbn [fst snd] in E1, D1.
  rewrite E1.
  destruct (round_nearest_even_pos m1 (loc_of_shr_record r1)) as (m2 & E2 & L2).
  rewrite E2.
  pose proof (digits2_pos_le L2) as D2.
  destruct (@shr_fexp_pos m2 e1 loc_Exact ltac:(lia)) as (m3 & E3 & _).
  destruct (shr_fexp prec emax (Z.pos m2) e1 loc_Exact) as [r3 e3]. cbn [fst] in E3.
  rewrite E3.
  destruct (e3 <=? emax - prec); reflexivity.
Qed.

Lemma shl_align_digits (m : positive) (e e' : Z) :
  Z.pos (digits2_pos (fst (shl_align m e e'))) + snd (shl_align m e e')
    = Z.pos (digits2_pos m) + e.
Proof.
  unfold shl_align. destruct (e' - e) as [|d|d] eqn:Ed; cbn [fst snd];
    try reflexivity.
  rewrite digits2_pos_shift. lia.
Qed.

Lemma shl_align_exponent (m : positive) (e e' : Z) :
  e' <= e -> snd (shl_align m e e') = e'.
Proof.
  intros Hle. unfold shl_align. destruct (e' - e) as [|d|d] eqn:Ed; cbn [snd]; lia.
Qed.

Lemma binary_round_positive (m : positive) (e : Z) :
  -1074 < Z.pos (digits2_pos m) + e ->
  positive_or_inf (binary_round prec emax false m e).
Proof.
  intros Hd. unfold binary_round.
  pose proof (shl_align_digits m e (fexp prec emax (Z.pos (digits2_pos m) + e))) as D.
  destruct (shl_align m e _) as [mz ez]. cbn [fst snd] in D.
  apply binary_round_aux_positive. lia.
Qed.

(** The product of two numbers that are not negative is not negative. *)
Lemma SFmul_not_negative (x y : spec_float) (qx qy : Q) :
  SF2Q x = Some qx -> SF2Q y = Some qy ->
  not_negative x -> not_negative y ->
  not_negative (SFmul prec emax x y).
Proof.
  destruct x as [sx|sx| |sx mx ex], y as [sy|sy| |sy my ey]; cbn [SF2Q];
    try discriminate; intros _ _ Hx Hy; cbn [not_negative] in Hx, Hy; subst;
    cbn [SFmul xorb not_negative]; try exact I.
  apply binary_round_aux_not_negative.
Qed.

(** Adding the positive constant [c], whose leading bit lies above the
    subnormal floor, to a number that is not negative gives a positive number
    or, by overflow, plus infinity. *)
Lemma SFadd_positive (x : spec_float) (mc : positive) (ec : Z) :
  -1074 < Z.pos (digits2_pos mc) + ec ->
  not_negative x ->
  positive_or_inf (SFadd prec emax x (S754_finite false mc ec)).
Proof.
  intros Hc Hx. destruct x as [sx|sx| |sx mx ex]; cbn [not_negative] in Hx.
  - reflexivity.
  - subst. reflexivity.
  - destruct Hx.
  - subst. cbn [SFadd cond_Zopp].
    set (ez := Z.min ex ec).
    pose proof (shl_align_digits mc ec ez) as D.
    pose proof (@shl_align_exponent mc ec ez ltac:(unfold ez; lia)) as E.
    set (a := fst (shl_align mx ex ez)).
    set (b := fst (shl_align mc ec ez)) in *.
    change (Z.pos a + Z.pos b) with (Z.pos (a + b)).
    cbn [binary_normalize]. apply binary_round_positive.
    pose proof (@digits2_pos_le b (a + b)%positive ltac:(lia)). lia.
Qed.

End BinaryRound.

Section FrictionBinary64.

Lemma value_not_negative (f : spec_float) (q : Q) :
  SF2Q f = Some q -> (0 <= q)%Q -> not_negative f.
Proof.
  destruct f as [s|s| |s m e]; cbn [SF2Q not_negative]; try discriminate;
    try (intros; exact I).
  intros [= <-] Hq. destruct s; [|reflexivity]. exfalso.
  assert (P : (0 < 2 ^ e)%Q) by (apply Qpower_0_lt; reflexivity).
  apply (Qle_not_lt _ _ Hq).
  setoid_replace (inject_Z (Z.neg m) * 2 ^ e)%Q
    with (- (inject_Z (Z.pos m) * 2 ^ e))%Q
    by (change (Z.neg m) with (- Z.pos m)%Z; rewrite inject_Z_opp; ring).
  apply Qlt_minus_iff. setoid_replace (0 - - (inject_Z (Z.pos m) * 2 ^ e))%Q
    with (inject_Z (Z.pos m) * 2 ^ e)%Q by ring.
  apply Qmult_lt_0_compat; [|exact P].
  change 0%Q with (inject_Z 0). rewrite <- Zlt_Qlt. reflexivity.
Qed.

Lemma ltb_zero_positive (x : float) :
  positive_or_inf (Prim2SF x) -> PrimFloat.ltb 0 x = true.
Proof.
  intros Hx. rewrite ltb_spec. unfold SFltb.
  change (Prim2SF 0) with (S754_zero false).
  destruct (Prim2SF x) as [s|s| |s m e]; cbn [positive_or_inf] in Hx;
    try contradiction; subst; reflexivity.
Qed.

(** In binary64 too the friction is strictly positive (a positive double or,
    should the product overflow, plus infinity) wherever the slope and the
    pixel size are finite and not negative. *)
Lemma friction_positive_binary64 (s dx : float) (qs qdx : Q) :
  float_value s = Some qs -> (0 <= qs)%Q ->
  float_value dx = Some qdx -> (0 <= qdx)%Q ->
  (zero <? s * dx + lit_0_00001)%py = true.
Proof.
  intros Vs Hs Vdx Hdx.
  change (PrimFloat.ltb 0 (PrimFloat.add (PrimFloat.mul s dx) lit_0_00001) = true).
  apply ltb_zero_positive. rewrite add_spec, mul_spec.
  change (Prim2SF lit_0_00001) with (S754_finite false 5902958103587057 (-69)).
  apply SFadd_positive; [vm_compute; reflexivity|].
  apply (SFmul_not_negative _ _ Vs Vdx);
    eapply value_not_negative; eassumption.
Qed.

(** On flat terrain the binary64 friction is the constant itself. *)
Lemma friction_flat_binary64 (s dx : float) (qdx : Q) :
  PrimFloat.eqb s 0 = true -> float_value dx = Some qdx ->
  (s * dx + lit_0_00001)%py = lit_0_00001.
Proof.
  intros Hs Vdx.
  change (PrimFloat.add (PrimFloat.mul s dx) lit_0_00001 = lit_0_00001).
  rewrite <- (SF2Prim_Prim2SF (PrimFloat.add (PrimFloat.mul s dx) lit_0_00001)).
  rewrite <- (SF2Prim_Prim2SF lit_0_00001) at 2.
  f_equal. rewrite add_spec, mul_spec.
  rewrite eqb_spec in Hs. unfold SFeqb in Hs.
  change (Prim2SF 0) with (S754_zero false) in Hs.
  change (Prim2SF lit_0_00001) with (S754_finite false 5902958103587057 (-69)).
  unfold float_value in Vdx.
  destruct (Prim2SF s) as [b|b| |b m e]; cbn [SFcompare] in Hs;
    try discriminate; try (destruct b; discriminate).
  destruct (Prim2SF dx) as [c|c| |c m e]; cbn [SF2Q] in Vdx; try discriminate;
    reflexivity.
Qed.

End FrictionBinary64.

(* ================================================================== *)
(** * Exact means *)

Lemma Qlt_bool_iff (x y : Q) : Qlt_bool x y = true <-> (x < y)%Q.
Proof.
  unfold Qlt_bool. rewrite negb_true_iff. split; intros H.
  - apply Qnot_le_lt. intros L. apply Qle_bool_iff in L. congruence.
  - destruct (Qle_bool y x) eqn:E; [|reflexivity].
    apply Qle_bool_iff in E. exfalso. exact (Qlt_not_le _ _ H E).
Qed.

Lemma Q_between_value (a b c qa qc : Q) :
  Some a = Some qa -> Some c = Some qc ->
  Qlt_bool a b = true -> Qle_bool b c = true -> exists qb, Some b = Some qb.
Proof. intros _ _ _ _. exists b. reflexivity. Qed.

Lemma Q_lt_value (a b qa qb : Q) :
  Some a = Some qa -> Some b = Some qb -> (Qlt_bool a b = true <-> (qa < qb)%Q).
Proof. intros [= <-] [= <-]. apply Qlt_bool_iff. Qed.

Lemma Q_le_value (a b qa qb : Q) :
  Some a = Some qa -> Some b = Some qb -> (Qle_bool a b = true <-> (qa <= qb)%Q).
Proof. intros [= <-] [= <-]. apply Qle_bool_iff. Qed.

#[export] Instance Valued_Q : Valued Q := {
  value := fun q => Some q;
  value_zero := eq_refl;
  value_lt := Q_lt_value;
  value_le := Q_le_value;
  value_between := Q_between_value
}.

Lemma float_lt_value (a b : float) qa qb :
  float_value a = Some qa -> float_value b = Some qb ->
  (PrimFloat.ltb a b = true <-> (qa < qb)%Q).
Proof.
  intros Ha Hb. rewrite ltb_spec. unfold SFltb.
  rewrite (@SFcompare_value _ _ _ _ (Prim2SF_valid a) (Prim2SF_valid b) Ha Hb).
  rewrite Qlt_alt. destruct (qa ?= qb)%Q; split; congruence.
Qed.

Lemma float_le_value (a b : float) qa qb :
  float_value a = Some qa -> float_value b = Some qb ->
  (PrimFloat.leb a b = true <-> (qa <= qb)%Q).
Proof.
  intros Ha Hb. rewrite leb_spec. unfold SFleb.
  rewrite (@SFcompare_value _ _ _ _ (Prim2SF_valid a) (Prim2SF_valid b) Ha Hb).
  rewrite Qle_alt. destruct (qa ?= qb)%Q; split; congruence.
Qed.

Lemma float_between_value (a b c : float) qa qc :
  float_value a = Some qa -> float_value c = Some qc ->
  PrimFloat.ltb a b = true -> PrimFloat.leb b c = true ->
  exists qb, float_value b = Some qb.
Proof.
  unfold float_value. rewrite ltb_spec, leb_spec. unfold SFltb, SFleb.
  destruct (Prim2SF a) as [sa|sa| |sa ma ea]; try discriminate;
  destruct (Prim2SF c) as [sc|sc| |sc mc ec]; try discriminate;
  destruct (Prim2SF b) as [sb|[|]| |sb mb eb]; cbn; intros _ _ H1 H2;
    try discriminate; eexists; reflexivity.
Qed.

#[export] Instance Valued_float : Valued float := {
  value := float_value;
  value_zero := eq_refl;
  value_lt := float_lt_value;
  value_le := float_le_value;
  value_between := float_between_value
}.

Section Exact.
Context {A : Type} {NA : Number A} {VA : Valued A}.
Local Open Scope Q_scope.

Definition Qvalue (a : A) : Q :=
  match value a with
  | Some q => q
  | None => 0
  end.

Definition Qsum (vals : list A) : Q := fold_right Qplus 0 (map Qvalue vals).

(** The mean of the values, in exact arithmetic. *)
Definition Qmean (vals : list A) : Q :=
  Qsum vals / inject_Z (Z.of_nat (List.length vals)).

Lemma Qsum_bounds (T : A) qT (vals : list A) :
  value T = Some qT ->
  (forall v, In v vals -> (zero <? v)%py = true /\ (v <=? T)%py = true) ->
  0 <= Qsum vals /\ Qsum vals <= inject_Z (Z.of_nat (List.length vals)) * qT /\
  (vals <> [] -> 0 < Qsum vals).
Proof.
  intros HT. induction vals as [|v vals IH]; intros Hin.
  - cbn. split; [apply Qle_refl|]. split; [|congruence].
    rewrite Qmult_0_l. apply Qle_refl.
  - destruct (Hin v (or_introl eq_refl)) as [Hpos Hle].
    destruct (value_between zero v T value_zero HT Hpos Hle) as [qv Hv].
    apply (value_lt zero v value_zero Hv) in Hpos.
    apply (value_le v T Hv HT) in Hle.
    destruct (IH (fun w Hw => Hin w (or_intror Hw))) as (L & U & _).
    unfold Qsum in *. cbn [map fold_right List.length].
    assert (EV : Qvalue v = qv) by (unfold Qvalue; rewrite Hv; reflexivity).
    rewrite EV.
    rewrite Nat2Z.inj_succ, <- Z.add_1_l, inject_Z_plus.
    set (S := fold_right Qplus 0 (map Qvalue vals)) in *.
    set (N := inject_Z (Z.of_nat (List.length vals))) in *.
    change (inject_Z 1) with 1.
    assert (E : (1 + N) * qT == qT + N * qT) by ring.
    split; [|split].
    + apply Qle_trans with (0 + 0); [apply Qle_refl|].
      apply Qplus_le_compat; [apply Qlt_le_weak; exact Hpos|exact L].
    + rewrite E. apply Qplus_le_compat; assumption.
    + intros _. apply Qlt_le_trans with (qv + 0).
      * rewrite Qplus_0_r. exact Hpos.
      * apply Qplus_le_compat; [apply Qle_refl|exact L].
Qed.

(** A mean free of rounding error lies where its terms lie. *)
Lemma exact_mean_bounds (T m : A) qT qm (vals : list A) :
  vals <> [] ->
  (forall v, In v vals -> (zero <? v)%py = true /\ (v <=? T)%py = true) ->
  value T = Some qT -> value m = Some qm -> qm == Qmean vals ->
  (zero <? m)%py = true /\ (m <=? T)%py = true.
Proof.
  intros Hne Hin HT Hm Hex.
  destruct (@Qsum_bounds T qT vals HT Hin) as (_ & U & P). specialize (P Hne).
  assert (Hn : 0 < inject_Z (Z.of_nat (List.length vals))).
  { change 0 with (inject_Z 0). rewrite <- Zlt_Qlt.
    destruct vals; [congruence|]. cbn [List.length]. lia. }
  split.
  - apply (value_lt zero m value_zero Hm). rewrite Hex. unfold Qmean.
    apply Qlt_shift_div_l; [exact Hn|]. rewrite Qmult_0_l. exact P.
  - apply (value_le m T Hm HT). rewrite Hex. unfold Qmean.
    apply Qle_shift_div_r; [exact Hn|]. rewrite Qmult_comm. exact U.
Qed.

End Exact.

(* ================================================================== *)
(** * Masks, runs and their inversion *)

Definition parameter_name {A} (d : @ParameterDefinition A) : string :=
  match d with
  | QgsProcessingParameterVectorLayer name _ => name
  | QgsProcessingParameterRasterLayer name _ => name
  | QgsProcessingParameterNumber name _ _ => name
  | QgsProcessingParameterFeatureSink name _ => name
  end.

Section Generic.
Context {A : Type} {NA : Number A}.

Lemma run_post (backend : Backend A) feedback parameters
    (Q : result string -> State A -> Prop) :
  post (processAlgorithm backend feedback parameters) (initial A) Q ->
  Q (fst (run backend feedback parameters)) (snd (run backend feedback parameters)).
Proof. exact (fun H => H). Qed.

Lemma truthy_of_bool (b : bool) : truthy (of_bool b : A) = b.
Proof.
  unfold truthy, of_bool, one, zero. destruct b.
  - rewrite feq_1_0. reflexivity.
  - rewrite feq_0_0. reflexivity.
Qed.

Lemma threshold_eval (t v : A) :
  eval v (threshold_expression t) = of_bool ((zero <? v)%py && (v <=? t)%py).
Proof.
  unfold threshold_expression. cbn [eval].
  rewrite !truthy_of_bool.
  destruct ((zero <? v)%py && (v <=? t)%py); reflexivity.
Qed.

Lemma of_bool_one (b : bool) : ((of_bool b : A) =? one)%py = b.
Proof.
  unfold of_bool, one, zero. destruct b; [apply feq_1_1|apply feq_0_1].
Qed.

Lemma ThresholdMask_pixel (t : A) cost cs ext y x :
  pixel (ThresholdMask t cost cs ext) y x =
  of_bool ((zero <? pixel cost y x)%py && (pixel cost y x <=? t)%py).
Proof. unfold ThresholdMask, rastercalculator. cbn [pixel]. apply threshold_eval. Qed.

Lemma ThresholdMask_one (t : A) cost cs ext y x :
  (pixel (ThresholdMask t cost cs ext) y x =? one)%py =
  (zero <? pixel cost y x)%py && (pixel cost y x <=? t)%py.
Proof. rewrite ThresholdMask_pixel. apply of_bool_one. Qed.

End Generic.

Ltac run_walk :=
  lazymatch goal with
  | |- ?Q (fst (run ?b ?f ?p)) (snd (run ?b ?f ?p)) =>
      apply (@run_post _ _ b f p Q);
      unfold processAlgorithm, processAlgorithm_with, initial; walk;
      try subst Q; norm
  end.

Ltac inv_calls :=
  repeat match goal with
         | H : _ \/ _ |- _ => destruct H
         | H : False |- _ => contradiction
         | H : In _ _ |- _ => cbn [In] in H
         | H : RasterCall _ = RasterCall _ |- _ => inversion H; clear H; subst
         | H : VectorCall _ = VectorCall _ |- _ => inversion H; clear H; subst
         | H : VectorCall _ = RasterCall _ |- _ => discriminate H
         | H : RasterCall _ = VectorCall _ |- _ => discriminate H
         | H : nth_error _ _ = Some _ |- _ =>
             cbn [nth_error] in H; first [discriminate H | injection H as H]
         | H : nth_error _ _ = None |- _ => cbn [nth_error] in H; try discriminate H
         end.

Ltac inv_messages :=
  repeat match goal with
         | H : In (InfoMeanCost _) (_ :: _) |- _ => cbn [In] in H
         | H : In (InfoMeanCost _) ((_ :: _) ++ _) |- _ => cbn [app] in H
         | H : In (InfoMeanCost _) ([] ++ _) |- _ => cbn [app] in H
         | H : In (InfoMeanCost _) (_ ++ _) |- _ => apply in_app_or in H
         | H : In (InfoMeanCost _) [] |- _ => contradiction H
         | H : In (InfoMeanCost _) ?ms, F : Forall deletion_notice ?ms |- _ =>
             exfalso; exact (@no_mean_in_notices _ _ _ F H)
         | H : _ \/ _ |- _ => destruct H as [H|H]
         | H : Info _ = InfoMeanCost _ |- _ => discriminate H
         | H : InfoCouldNotDelete _ = InfoMeanCost _ |- _ => discriminate H
         | H : InfoMeanCost _ = InfoMeanCost _ |- _ => injection H as H
         | H : False |- _ => contradiction
         end.

Ltac same_results :=
  repeat match goal with
         | H1 : ?t = Some ?a, H2 : ?t = Some ?b |- _ =>
             first [ constr_eq a b; clear H2
                   | assert (b = a) by congruence; subst b; clear H2 ]
         | H1 : ?t = Some _, H2 : ?t = None |- _ => congruence
         end.


Section ScanRun.
Context {A : Type} {NA : Number A}.
Variable feedback : nat -> bool.

Lemma rows_scanned_all n : forall p,
  (forall k, (k < n)%nat -> feedback (p + k) = false) ->
  rows_scanned feedback p n = n.
Proof.
  induction n as [|n IH]; intros p H; cbn [rows_scanned]; [reflexivity|].
  rewrite <- (Nat.add_0_r p) at 1. rewrite (H 0%nat) by lia.
  f_equal. apply IH. intros k Hk.
  replace (S p + k)%nat with (p + S k)%nat by lia. apply H. lia.
Qed.

Lemma rows_scanned_le n : forall p, (rows_scanned feedback p n <= n)%nat.
Proof.
  induction n as [|n IH]; intros p; cbn [rows_scanned]; [lia|].
  destruct (feedback p); [lia|]. specialize (IH (S p)). lia.
Qed.

(** Pass 2 of a run: the scan ends with the sum and the count of the
    corridor costs of the rows scanned. *)
Lemma scan_run_spec (cost mask : Raster A) s r s2 :
  RasterXSize mask = RasterXSize cost ->
  RasterYSize mask = RasterYSize cost ->
  scan_rows feedback cost mask (RasterXSize cost) (seq 0 (RasterYSize cost))
    (zero, 0%Z) s = (r, s2) ->
  let vals := corridor_costs cost mask
                (rows_scanned feedback (polls s) (RasterYSize cost)) in
  r = Ok (corridor_sum vals, corridor_count vals).
Proof.
  intros HX HY H.
  destruct (@scan_rows_spec A NA feedback cost mask HX HY
              (RasterYSize cost) 0%nat s ltac:(lia)) as [p E].
  change (corridor_sum (corridor_costs cost mask 0)) with (zero : A) in E.
  change (corridor_count (corridor_costs cost mask 0)) with 0%Z in E.
  rewrite E in H. cbn [Nat.add] in H. injection H as <- _. reflexivity.
Qed.

End ScanRun.

(** ** Pass 2 on a mask of any size

    The source takes the number of columns and rows from the cost raster and
    reads the mask with them; it compares neither the sizes nor the grids of
    the two rasters. *)

Section ScanAny.
Context {A : Type} {NA : Number A}.
Variable feedback : nat -> bool.

(** A read outside the raster: [ReadAsArray] answers [None], and the
    subscript [[0]] raises. *)
Lemma read_row_outside (r : Raster A) y cols s :
  (RasterXSize r < cols)%nat \/ (RasterYSize r <= y)%nat ->
  read_row r y cols s = (Raise TypeError, s).
Proof.
  intros H. unfold read_row, ReadAsArray.
  replace ((0 + cols <=? RasterXSize r)%nat && (y + 1 <=? RasterYSize r)%nat)
    with false; [reflexivity|].
  symmetry. apply andb_false_iff.
  destruct H as [H|H]; [left|right]; apply Nat.leb_gt; lia.
Qed.

(** The mask covers the rows Pass 2 reads: [k] rows from row [y0], each as
    wide as the cost raster. *)
Definition covers (cost mask : Raster A) (y0 k : nat) : Prop :=
  k = 0%nat \/
  ((RasterXSize cost <= RasterXSize mask)%nat /\ (y0 + k <= RasterYSize mask)%nat).

(** Pass 2 on any two rasters.  Nothing but the two sizes is consulted: where
    the mask covers the rows read, the scan pairs the cells by row and column
    index, whatever the grids of the two rasters. *)
Lemma scan_rows_covered (cost mask : Raster A) :
  forall n y0 s,
    (y0 + n <= RasterYSize cost)%nat ->
    covers cost mask y0 (rows_scanned feedback (polls s) n) ->
    exists p,
      scan_rows feedback cost mask (RasterXSize cost) (seq y0 n)
        (corridor_sum (corridor_costs cost mask y0),
         corridor_count (corridor_costs cost mask y0)) s
      = (Ok (corridor_sum (corridor_costs cost mask (y0 + rows_scanned feedback (polls s) n)),
             corridor_count (corridor_costs cost mask (y0 + rows_scanned feedback (polls s) n))),
         with_polls s p).
Proof.
  induction n as [|n IH]; intros y0 s Hn Hcov; cbn [seq scan_rows rows_scanned] in *.
  - exists (polls s). rewrite Nat.add_0_r. destruct s; reflexivity.
  - unfold bind at 1. unfold isCanceled at 1.
    destruct (feedback (polls s)) eqn:Hc.
    + exists (S (polls s)). rewrite Nat.add_0_r. reflexivity.
    + destruct Hcov as [Hcov|[HX HY]]; [discriminate Hcov|].
      unfold bind at 1. rewrite read_row_ok by lia.
      unfold bind at 1. rewrite read_row_ok by lia.
      unfold corridor_sum, corridor_count. rewrite scan_row_spec.
      rewrite <- fold_left_app, <- Nat2Z.inj_add, <- length_app.
      rewrite <- corridor_costs_succ.
      match goal with |- context [scan_rows _ _ _ _ _ _ ?s1] =>
        destruct (IH (S y0) s1 ltac:(lia)) as [p E] end.
      { right. cbn [polls]. split; [exact HX|lia]. }
      cbn [polls] in E. unfold corridor_sum, corridor_count in E.
      rewrite E. exists p. rewrite <- Nat.add_succ_comm. reflexivity.
Qed.

(** Where the mask is narrower than the cost raster, or ends above a row
    that Pass 2 reaches, the read of that mask row raises. *)
Lemma scan_rows_uncovered (cost mask : Raster A) :
  forall n y0 s (acc : A * Z),
    (y0 + n <= RasterYSize cost)%nat ->
    ~ covers cost mask y0 (rows_scanned feedback (polls s) n) ->
    fst (scan_rows feedback cost mask (RasterXSize cost) (seq y0 n) acc s)
    = Raise TypeError.
Proof.
  induction n as [|n IH]; intros y0 s acc Hn Hcov; cbn [seq scan_rows rows_scanned] in *.
  - exfalso. apply Hcov. left. reflexivity.
  - unfold bind at 1. unfold isCanceled at 1.
    destruct (feedback (polls s)) eqn:Hc.
    + exfalso. apply Hcov. left. reflexivity.
    + unfold bind at 1. rewrite read_row_ok by lia.
      unfold bind at 1.
      destruct (Nat.lt_ge_cases (RasterXSize mask) (RasterXSize cost)) as [HX|HX].
      { rewrite read_row_outside by (left; exact HX). reflexivity. }
      destruct (Nat.le_gt_cases (RasterYSize mask) y0) as [HY|HY].
      { rewrite read_row_outside by (right; exact HY). reflexivity. }
      rewrite read_row_ok by lia.
      apply IH; [lia|]. cbn [polls].
      intros [Hk|[_ Hk]]; apply Hcov; right; split; try exact HX; lia.
Qed.

End ScanAny.

Section ScanAnyRun.
Context {A : Type} {NA : Number A}.
Variable feedback : nat -> bool.

Lemma scan_run_covered (cost mask : Raster A) s r s2 :
  scan_rows feedback cost mask (RasterXSize cost) (seq 0 (RasterYSize cost))
    (zero, 0%Z) s = (r, s2) ->
  covers cost mask 0 (rows_scanned feedback (polls s) (RasterYSize cost)) ->
  let vals := corridor_costs cost mask
                (rows_scanned feedback (polls s) (RasterYSize cost)) in
  r = Ok (corridor_sum vals, corridor_count vals).
Proof.
  intros H Hcov.
  destruct (@scan_rows_covered A NA feedback cost mask
              (RasterYSize cost) 0%nat s ltac:(lia) Hcov) as [p E].
  change (corridor_sum (corridor_costs cost mask 0)) with (zero : A) in E.
  change (corridor_count (corridor_costs cost mask 0)) with 0%Z in E.
  rewrite E in H. cbn [Nat.add] in H. injection H as <- _. reflexivity.
Qed.

Lemma scan_run_uncovered (cost mask : Raster A) s r s2 :
  scan_rows feedback cost mask (RasterXSize cost) (seq 0 (RasterYSize cost))
    (zero, 0%Z) s = (r, s2) ->
  let n := rows_scanned feedback (polls s) (RasterYSize cost) in
  (0 < n)%nat ->
  (RasterXSize mask < RasterXSize cost)%nat \/ (RasterYSize mask < n)%nat ->
  r = Raise TypeError.
Proof.
  cbv zeta. intros H Hn Hshort.
  pose proof (@scan_rows_uncovered A NA feedback cost mask
                (RasterYSize cost) 0%nat s (zero, 0%Z) ltac:(lia)) as E.
  rewrite H in E. cbn [fst] in E. apply E.
  unfold covers. intros [Hk|[HX HY]]; lia.
Qed.

Lemma scan_run_cases (cost mask : Raster A) s r s2 :
  scan_rows feedback cost mask (RasterXSize cost) (seq 0 (RasterYSize cost))
    (zero, 0%Z) s = (r, s2) ->
  (exists acc, r = Ok acc) \/ r = Raise TypeError.
Proof.
  intros H.
  set (n := rows_scanned feedback (polls s) (RasterYSize cost)).
  destruct (Nat.eq_dec n 0) as [Hz|Hz].
  - left. eexists. apply (@scan_run_covered cost mask s r s2 H). left. exact Hz.
  - destruct (Nat.lt_ge_cases (RasterXSize mask) (RasterXSize cost)) as [HX|HX].
    { right. apply (@scan_run_uncovered cost mask s r s2 H);
        [fold n; lia|left; exact HX]. }
    destruct (Nat.lt_ge_cases (RasterYSize mask) n) as [HY|HY].
    { right. apply (@scan_run_uncovered cost mask s r s2 H);
        [fold n; lia|right; exact HY]. }
    left. eexists. apply (@scan_run_covered cost mask s r s2 H). right. fold n.
    split; [exact HX|lia].
Qed.

Lemma run_host_post (backend : Backend A) parameters
    (Q : result string -> State A -> Prop) :
  post (processAlgorithm_host backend feedback parameters) (initial A) Q ->
  Q (fst (run_host backend feedback parameters))
    (snd (run_host backend feedback parameters)).
Proof. exact (fun H => H). Qed.

Lemma run_is_host_run (backend : Backend A) parameters :
  run backend feedback parameters = run_host (cell_wise backend) feedback parameters.
Proof. reflexivity. Qed.

End ScanAnyRun.

Definition accum_cost_path {A} (backend : Backend A) : string :=
  os_path_join (tempFolder backend) "cb_tmp_costdist.tif".
Definition belt_mask_path {A} (backend : Backend A) : string :=
  os_path_join (tempFolder backend) "cb_tmp_mask_coarse.tif".

Lemma corridor_count_zero {A} (vals : list A) :
  corridor_count vals = 0%Z -> vals = [].
Proof. unfold corridor_count. destruct vals; [reflexivity|cbn; lia]. Qed.

Ltac pass2_spec :=
  match goal with
  | H : scan_rows ?f ?c ?m _ _ _ ?s = (?r, ?s2) |- _ =>
      apply (@scan_run_spec _ _ f c m s r s2 eq_refl eq_refl) in H;
      cbn [polls] in H; cbv zeta in H
  end.

Ltac discharge H tac :=
  match type of H with
  | ?P -> _ =>
      let H1 := fresh "Hyp" in
      assert (H1 : P) by tac; specialize (H H1)
  end.

Ltac pydiv_inv :=
  repeat match goal with
         | H : pydiv _ ?b = None |- _ =>
             unfold pydiv in H; destruct (b =? zero)%py eqn:?; [clear H|discriminate H]
         | H : pydiv _ ?b = Some _ |- _ =>
             unfold pydiv in H; destruct (b =? zero)%py eqn:?;
             [discriminate H|injection H as H; try subst]
         | H : pydiv_int _ _ = None |- _ =>
             unfold pydiv_int in H;
             match goal with H' : (_ =? 0)%Z = false |- _ => rewrite H' in H end;
             discriminate H
         | H : pydiv_int _ _ = Some _ |- _ =>
             unfold pydiv_int in H;
             match goal with H' : (_ =? 0)%Z = false |- _ => rewrite H' in H end;
             injection H as H; try subst
         end.

Ltac unsome :=
  repeat match goal with
         | H : Some _ = Some _ |- _ => injection H as H; try subst
         | H : Some _ = None |- _ => discriminate H
         | H : None = Some _ |- _ => discriminate H
         end.

(** Two answers of the backend to the same call are the same answer. *)
Ltac same_outputs :=
  repeat match goal with
         | Ha : _ = Some ?x, Hb : _ = Some ?y |- _ =>
             tryif constr_eq x y then fail else
               (let E := fresh "E" in
                assert (E : Some x = Some y) by exact (eq_trans (eq_sym Ha) Hb);
                injection E as E; first [subst y | subst x])
         end.

Ltac absurd_outputs :=
  match goal with
  | Ha : _ = None, Hb : _ = Some ?y |- _ =>
      exfalso;
      assert (E : None = Some y) by exact (eq_trans (eq_sym Ha) Hb);
      discriminate E
  end.

Ltac hwalk1 :=
  lazymatch goal with
  | |- post (processing_run_host _ _) _ _ => unfold processing_run_host
  | |- _ => walk1
  end.

Ltac run_hwalk :=
  lazymatch goal with
  | |- ?Q (fst (run_host ?b ?f ?p)) (snd (run_host ?b ?f ?p)) =>
      apply (@run_host_post _ _ f b p Q);
      unfold processAlgorithm_host, processAlgorithm_with, initial;
      repeat hwalk1; try subst Q; norm
  end.


(* ================================================================== *)
(** * The claims *)

Import Scenario.
Local Open Scope string_scope.

Example tenth_is_decimal : tenth = PrimFloat.div 1 10.
Proof. reflexivity. Qed.

Example tenth_up_is_next : tenth_up = PrimFloat.next_up tenth.
Proof. reflexivity. Qed.


(** ** C1: the Pass 2 mean and the threshold *)

Section Subset.
Context {A : Type} {NA : Number A} {VA : Valued A}.

Lemma corridor_costs_in (cost : Raster A) (T cs : A) ext rows v :
  In v (corridor_costs cost (ThresholdMask T cost cs ext) rows) ->
  (zero <? v)%py = true /\ (v <=? T)%py = true.
Proof.
  unfold corridor_costs. rewrite in_map_iff. intros ([y x] & <- & H).
  apply filter_In in H. destruct H as [_ H]. unfold qualifies in H.
  cbn [fst snd] in *. rewrite ThresholdMask_one in H.
  apply andb_true_iff in H. destruct H as [H _].
  apply andb_true_iff in H. exact H.
Qed.

(** With a mean within the threshold, the refined mask selects no cell the
    coarse mask leaves out. *)
Lemma refined_subset (cost : Raster A) (T m cs : A) ext qT qm y x :
  value T = Some qT -> value m = Some qm -> (m <=? T)%py = true ->
  (pixel (ThresholdMask m cost cs ext) y x =? one)%py = true ->
  (pixel (ThresholdMask T cost cs ext) y x =? one)%py = true.
Proof.
  intros HT Hm Hle. rewrite !ThresholdMask_one.
  intros H. apply andb_true_iff in H. destruct H as [Hpos Hc].
  rewrite Hpos. cbn [andb].
  destruct (value_between zero (pixel cost y x) m value_zero Hm Hpos Hc) as [qc Hqc].
  apply (value_le _ _ Hqc HT).
  apply Qle_trans with qm.
  - apply (value_le _ _ Hqc Hm). exact Hc.
  - apply (value_le _ _ Hm HT). exact Hle.
Qed.

End Subset.

(** The mean a run logs is the Pass 2 mean: the run has scanned some rows
    of the cost surface under the coarse mask, at least one cell qualified,
    and the refined mask is computed at that mean. *)
Lemma logged_mean_is_corridor_mean {A} {NA : Number A}
    (backend : Backend A) (feedback : nat -> bool) (parameters : Parameters)
    (cost : Raster A) (e : expr A) (cs : A) (ext : QgsRectangle A) (crs : string)
    (m : A) :
  let s' := snd (run backend feedback parameters) in
  let T := parameterAsDouble parameters PARAM_COST_THRESHOLD in
  let vals := corridor_costs cost (ThresholdMask T cost cs ext)
                (rows_scanned feedback 0 (RasterYSize cost)) in
  nth_error (calls s') 4 = Some (RasterCall (qgis_rastercalculator e [cost] cs ext crs)) ->
  In (InfoMeanCost m) (messages s') ->
  (vals <> [] /\ m = corridor_mean vals) /\
  (forall c, nth_error (calls s') 5 = Some c ->
     c = RasterCall (qgis_rastercalculator (threshold_expression m) [cost] cs ext crs)).
Proof.
  cbv zeta.
  set (Q := fun (_ : result string) (s' : State A) =>
    nth_error (calls s') 4 = Some (RasterCall (qgis_rastercalculator e [cost] cs ext crs)) ->
    In (InfoMeanCost m) (messages s') ->
    (corridor_costs cost
       (ThresholdMask (parameterAsDouble parameters PARAM_COST_THRESHOLD) cost cs ext)
       (rows_scanned feedback 0 (RasterYSize cost)) <> [] /\
     m = corridor_mean
           (corridor_costs cost
              (ThresholdMask (parameterAsDouble parameters PARAM_COST_THRESHOLD) cost cs ext)
              (rows_scanned feedback 0 (RasterYSize cost)))) /\
    (forall c, nth_error (calls s') 5 = Some c ->
       c = RasterCall (qgis_rastercalculator (threshold_expression m) [cost] cs ext crs))).
  change (Q (fst (run backend feedback parameters))
            (snd (run backend feedback parameters))).
  unfold ThresholdMask, corridor_mean in *. run_walk.
  all: intros Hc Hm; inv_messages; inv_calls; subst.
  all: try pass2_spec.
  all: try match goal with H : Ok _ = Ok _ |- _ => injection H as -> -> end.
  all: try match goal with H : pydiv_int _ _ = Some _ |- _ =>
         unfold pydiv_int in H;
         match goal with H' : (_ =? 0)%Z = false |- _ => rewrite H' in H end;
         injection H as <- end.
  all: try (split; [split; [|reflexivity]|intros c Hc5; inv_calls; subst; reflexivity]).
  all: try match goal with
           | H' : (corridor_count _ =? 0)%Z = false |- _ <> [] =>
               intros E; apply Z.eqb_neq in H'; apply H';
               exact (f_equal (fun l => Z.of_nat (List.length l)) E)
           end.
Qed.


Section ExactRationals.
Local Open Scope Q_scope.

Lemma fold_left_Qplus (l : list Q) : forall a,
  fold_left Qplus l a == a + fold_right Qplus 0 l.
Proof.
  induction l as [|x l IH]; intros a; cbn [fold_left fold_right].
  - ring.
  - rewrite IH. ring.
Qed.

Lemma corridor_mean_exact (vals : list Q) : corridor_mean vals == Qmean vals.
Proof.
  unfold corridor_mean, corridor_sum, corridor_count, Qmean, Qsum.
  cbn [fdiv fadd of_int Number_Q zero].
  rewrite fold_left_Qplus.
  replace (map Qvalue vals) with vals.
  - change (inject_Z 0) with 0. rewrite Qplus_0_l. reflexivity.
  - induction vals as [|v vals IH]; [reflexivity|].
    cbn [map]. rewrite <- IH. reflexivity.
Qed.

(** On exact rationals nothing rounds: the Pass 2 mean of every run lies in
    (0, initial_cost_threshold] and the refined mask is within the coarse
    mask. *)
Lemma rational_mean_within_threshold
    (backend : Backend Q) (feedback : nat -> bool) (parameters : Parameters)
    (cost : Raster Q) (e : expr Q) (cs : Q) (ext : QgsRectangle Q) (crs : string)
    (m : Q) :
  let s' := snd (run backend feedback parameters) in
  let T := parameterAsDouble parameters PARAM_COST_THRESHOLD in
  nth_error (calls s') 4 = Some (RasterCall (qgis_rastercalculator e [cost] cs ext crs)) ->
  In (InfoMeanCost m) (messages s') ->
  (0 < m /\ m <= T) /\
  (forall y x,
     (pixel (ThresholdMask m cost cs ext) y x =? one)%py = true ->
     (pixel (ThresholdMask T cost cs ext) y x =? one)%py = true).
Proof.
  cbv zeta. intros Hc Hm.
  destruct (@logged_mean_is_corridor_mean Q _ backend feedback parameters
              cost e cs ext crs m Hc Hm) as [[Hne Hmean] _].
  assert (Hex : m == Qmean
            (corridor_costs cost
               (ThresholdMask (parameterAsDouble parameters PARAM_COST_THRESHOLD)
                  cost cs ext)
               (rows_scanned feedback 0 (RasterYSize cost)))).
  { rewrite Hmean at 1. apply corridor_mean_exact. }
  assert (Hb : (zero <? m)%py = true /\
               (m <=? parameterAsDouble parameters PARAM_COST_THRESHOLD)%py = true).
  { apply (@exact_mean_bounds Q Number_Q Valued_Q
             (parameterAsDouble parameters PARAM_COST_THRESHOLD) m
             (parameterAsDouble parameters PARAM_COST_THRESHOLD) m _ Hne);
      try reflexivity; try assumption.
    intros v Hv. exact (@corridor_costs_in Q _ cost _ cs ext _ v Hv). }
  split.
  - destruct Hb as [H1 H2]. split.
    + apply Qlt_bool_iff in H1. exact H1.
    + apply Qle_bool_iff in H2. exact H2.
  - intros y x.
    apply (@refined_subset Q Number_Q Valued_Q cost
             (parameterAsDouble parameters PARAM_COST_THRESHOLD) m cs ext
             (parameterAsDouble parameters PARAM_COST_THRESHOLD) m y x eq_refl eq_refl).
    exact (proj2 Hb).
Qed.

End ExactRationals.





(** ** C2: Pass 2 and Pass 3 *)

(** C2.  In every run that reaches Pass 2 on the cost surface [cost] (its
    coarse mask call is on [cost], and both rasters open), that is not
    cancelled during the scan and in which at least one cell qualifies, the
    mean the run logs and hands to Pass 3 is sum / count, where sum and count
    are the sum, accumulated from 0 in scan order, and the number of the cost
    values of exactly the cells with coarse mask = 1 and cost > 0, row by row;
    and the refined mask is 1 at a cell if and only if 0 < cost <= mean, and 0
    at every other cell. *)
Theorem pass2_mean_and_refined_mask {A} {NA : Number A}
    (backend : Backend A) (feedback : nat -> bool) (parameters : Parameters)
    (cost : Raster A) (e : expr A) (cs : A) (ext : QgsRectangle A) (crs : string) :
  let s' := snd (run backend feedback parameters) in
  let T := parameterAsDouble parameters PARAM_COST_THRESHOLD in
  let vals := corridor_costs cost (ThresholdMask T cost cs ext) (RasterYSize cost) in
  let mean := corridor_mean vals in
  nth_error (calls s') 4 = Some (RasterCall (qgis_rastercalculator e [cost] cs ext crs)) ->
  gdal_Open backend (accum_cost_path backend) = true ->
  gdal_Open backend (belt_mask_path backend) = true ->
  (forall k, (k < RasterYSize cost)%nat -> feedback k = false) ->
  vals <> [] ->
  In (InfoMeanCost mean) (messages s') /\
  nth_error (calls s') 5 =
    Some (RasterCall (qgis_rastercalculator (threshold_expression mean) [cost] cs ext crs)) /\
  (forall y x,
     let c := pixel cost y x in
     let refined := ThresholdMask mean cost cs ext in
     ((pixel refined y x =? one)%py = true <->
        (zero <? c)%py = true /\ (c <=? mean)%py = true) /\
     ((pixel refined y x =? one)%py = false -> pixel refined y x = zero)).
Proof.
  cbv zeta. intros Hc Ho1 Ho2 Hnc Hne.
  apply (proj1 (and_assoc _ _ _)). split.
  - revert Hc.
    set (Q := fun (_ : result string) (s' : State A) =>
      nth_error (calls s') 4 = Some (RasterCall (qgis_rastercalculator e [cost] cs ext crs)) ->
      In (InfoMeanCost
            (corridor_mean
               (corridor_costs cost
                  (ThresholdMask (parameterAsDouble parameters PARAM_COST_THRESHOLD)
                     cost cs ext) (RasterYSize cost)))) (messages s') /\
      nth_error (calls s') 5 =
        Some (RasterCall (qgis_rastercalculator
               (threshold_expression
                  (corridor_mean
                     (corridor_costs cost
                        (ThresholdMask (parameterAsDouble parameters PARAM_COST_THRESHOLD)
                           cost cs ext) (RasterYSize cost))))
               [cost] cs ext crs))).
    change (Q (fst (run backend feedback parameters))
              (snd (run backend feedback parameters))).
    unfold accum_cost_path, belt_mask_path, ThresholdMask, corridor_mean in *. run_walk.
    all: intros Hc; inv_calls; subst.
    all: try (rewrite Ho1, Ho2 in *; discriminate).
    all: pass2_spec.
    all: rewrite (@rows_scanned_all feedback (RasterYSize cost) 0%nat Hnc) in *.
    all: try discriminate.
    all: match goal with H : Ok _ = Ok _ |- _ => injection H as -> -> end.
    all: try (match goal with H : (corridor_count _ =? 0)%Z = true |- _ =>
                apply Z.eqb_eq, corridor_count_zero in H; exfalso; exact (Hne H) end).
    all: try (match goal with H : pydiv_int _ _ = None |- _ =>
                unfold pydiv_int in H;
                match goal with H' : (_ =? 0)%Z = false |- _ => rewrite H' in H end;
                discriminate end).
    all: match goal with H : pydiv_int _ _ = Some _ |- _ =>
           unfold pydiv_int in H;
           match goal with H' : (_ =? 0)%Z = false |- _ => rewrite H' in H end;
           injection H as <- end.
    all: split; [|reflexivity].
    all: cbn [app In]; repeat first [left; reflexivity | right].
  - intros y x. rewrite ThresholdMask_one, ThresholdMask_pixel.
    split; [apply andb_true_iff|]. intros ->. reflexivity.
Qed.

(** C2 on the 2 x 2 surface: mean (1 + 2 + 3 + 4) / 4. *)
Lemma pass2_mean_and_refined_mask_witness :
  let parameters := Synthetic.parameters demQ 1500%Q in
  let s' := snd (run (Synthetic.backend rowsQ) Synthetic.never parameters) in
  In (InfoMeanCost (10 # 4)%Q) (messages s') /\
  nth_error (calls s') 5 =
    Some (RasterCall (qgis_rastercalculator (threshold_expression (10 # 4)%Q)
            [costQ] (rasterUnitsPerPixelX demQ) (extent demQ) (authid demQ))).
Proof.
  cbv zeta.
  pose proof (@pass2_mean_and_refined_mask Q _
            (Synthetic.backend rowsQ) Synthetic.never
            (Synthetic.parameters demQ 1500%Q)
            costQ (threshold_expression 1500%Q)
            (rasterUnitsPerPixelX demQ) (extent demQ) (authid demQ)) as H.
  cbv zeta in H.
  discharge H ltac:(vm_compute; reflexivity).
  discharge H ltac:(reflexivity).
  discharge H ltac:(reflexivity).
  discharge H ltac:(intros k _; reflexivity).
  discharge H ltac:(vm_compute; discriminate).
  exact (conj (proj1 H) (proj1 (proj2 H))).
Defined.


(** ** C3: Pass 1 *)

(** C3.  The threshold of Pass 1 is the caller's initial cost threshold,
    1500.0 when the caller gives none; the fifth collaborator call of a run is
    the raster calculator on the threshold expression at that threshold over
    the output of the cost-distance transform; and for every cell of a cost
    surface the coarse mask is 1 there if and only if the accumulated cost is
    strictly greater than 0 and at most the threshold, and 0 at every other
    cell. *)
Theorem coarse_mask_cells {A} {NA : Number A}
    (backend : Backend A) (feedback : nat -> bool) (parameters : Parameters) :
  let s' := snd (run backend feedback parameters) in
  let T := parameterAsDouble parameters PARAM_COST_THRESHOLD in
  (forall a, lookup PARAM_COST_THRESHOLD parameters = Some (DoubleValue a) -> T = a) /\
  (lookup PARAM_COST_THRESHOLD parameters = None -> T = of_int 1500) /\
  (forall c, nth_error (calls s') 4 = Some c ->
     exists friction seed region cellsize cost cs ext crs,
       nth_error (calls s') 3 =
         Some (RasterCall (grass7_r_cost friction seed 0 300 region cellsize)) /\
       run_raster backend (grass7_r_cost friction seed 0 300 region cellsize) = Some cost /\
       c = RasterCall (qgis_rastercalculator (threshold_expression T) [cost] cs ext crs)) /\
  (forall cost cs ext y x,
     let mask := ThresholdMask T cost cs ext in
     let c := pixel cost y x in
     RasterXSize mask = RasterXSize cost /\
     RasterYSize mask = RasterYSize cost /\
     ((pixel mask y x =? one)%py = true <->
        (zero <? c)%py = true /\ (c <=? T)%py = true) /\
     ((pixel mask y x =? one)%py = false -> pixel mask y x = zero)).
Proof.
  cbv zeta. split; [|split; [|split]].
  - intros a H. unfold parameterAsDouble. rewrite H. reflexivity.
  - intros H. unfold parameterAsDouble. rewrite H. reflexivity.
  - set (Q := fun (_ : result string) (s' : State A) =>
      forall c, nth_error (calls s') 4 = Some c ->
      exists friction seed region cellsize cost cs ext crs,
        nth_error (calls s') 3 =
          Some (RasterCall (grass7_r_cost friction seed 0 300 region cellsize)) /\
        run_raster backend (grass7_r_cost friction seed 0 300 region cellsize) = Some cost /\
        c = RasterCall (qgis_rastercalculator
                          (threshold_expression
                             (parameterAsDouble parameters PARAM_COST_THRESHOLD))
                          [cost] cs ext crs)).
    change (Q (fst (run backend feedback parameters))
              (snd (run backend feedback parameters))).
    run_walk.
    all: intros c Hc; inv_calls; subst.
    all: eexists _, _, _, _, _, _, _, _; split; [reflexivity|]; split; [eassumption|reflexivity].
  - intros cost cs ext y x. split; [reflexivity|]. split; [reflexivity|].
    rewrite ThresholdMask_one, ThresholdMask_pixel.
    split; [apply andb_true_iff|].
    intros ->. reflexivity.
Qed.

Example coarse_mask_of_run :
  let mask := ThresholdMask (5 # 2)%Q costQ 10%Q (extent demQ) in
  map (fun y => map (pixel mask y) (seq 0 2)) (seq 0 2) = [[1; 1]; [0; 0]]%Q.
Proof. vm_compute. reflexivity. Qed.


(** ** C4: the empty selection *)

(** C4.  In every run that reaches Pass 2 on the cost surface [cost] and
    in which the Pass 2 count of qualifying cells is 0, the run fails with the
    empty-selection exception, creates no output sink, and makes no
    collaborator call after the coarse mask: the cost-distance transform and
    the coarse mask are each invoked once, with no retry. *)
Theorem empty_selection_fails {A} {NA : Number A}
    (backend : Backend A) (feedback : nat -> bool) (parameters : Parameters)
    (cost : Raster A) (e : expr A) (cs : A) (ext : QgsRectangle A) (crs : string) :
  let r := fst (run backend feedback parameters) in
  let s' := snd (run backend feedback parameters) in
  let T := parameterAsDouble parameters PARAM_COST_THRESHOLD in
  let vals := corridor_costs cost (ThresholdMask T cost cs ext)
                (rows_scanned feedback 0 (RasterYSize cost)) in
  nth_error (calls s') 4 = Some (RasterCall (qgis_rastercalculator e [cost] cs ext crs)) ->
  gdal_Open backend (accum_cost_path backend) = true ->
  gdal_Open backend (belt_mask_path backend) = true ->
  corridor_count vals = 0%Z ->
  r = Raise (QgsProcessingException EMPTY_SELECTION) /\
  sink s' = None /\
  map (@alg_id A) (calls s') =
    ["gdal:slope"; "qgis:rastercalculator"; "gdal:rasterize"; "grass7:r.cost";
     "qgis:rastercalculator"].
Proof.
  cbv zeta. intros Hc Ho1 Ho2 Hz. revert Hc.
  set (Q := fun (r : result string) (s' : State A) =>
    nth_error (calls s') 4 = Some (RasterCall (qgis_rastercalculator e [cost] cs ext crs)) ->
    r = Raise (QgsProcessingException EMPTY_SELECTION) /\
    sink s' = None /\
    map (@alg_id A) (calls s') =
      ["gdal:slope"; "qgis:rastercalculator"; "gdal:rasterize"; "grass7:r.cost";
       "qgis:rastercalculator"]).
  change (Q (fst (run backend feedback parameters))
            (snd (run backend feedback parameters))).
  unfold accum_cost_path, belt_mask_path, ThresholdMask in *. run_walk.
  all: intros Hc; inv_calls; subst.
  all: try (rewrite Ho1, Ho2 in *; discriminate).
  all: pass2_spec.
  all: try discriminate.
  all: match goal with H : Ok _ = Ok _ |- _ => injection H as -> -> end.
  all: try (match goal with H : (corridor_count _ =? 0)%Z = false |- _ =>
              apply Z.eqb_neq in H; exfalso; exact (H Hz) end).
  all: repeat split; reflexivity.
Qed.

(** C4 on Scenario B: a threshold below the least non-zero cost. *)
Lemma empty_selection_fails_witness :
  let parameters := Synthetic.parameters demQ (1 # 2)%Q in
  let r := run (Synthetic.backend rowsQ) Synthetic.never parameters in
  fst r = Raise (QgsProcessingException EMPTY_SELECTION) /\
  sink (snd r) = None /\
  map (@alg_id Q) (calls (snd r)) =
    ["gdal:slope"; "qgis:rastercalculator"; "gdal:rasterize"; "grass7:r.cost";
     "qgis:rastercalculator"].
Proof.
  cbv zeta.
  pose proof (@empty_selection_fails Q _
            (Synthetic.backend rowsQ) Synthetic.never
            (Synthetic.parameters demQ (1 # 2)%Q)
            costQ (threshold_expression (1 # 2)%Q)
            (rasterUnitsPerPixelX demQ) (extent demQ) (authid demQ)) as H.
  cbv zeta in H.
  discharge H ltac:(vm_compute; reflexivity).
  discharge H ltac:(reflexivity).
  discharge H ltac:(reflexivity).
  discharge H ltac:(vm_compute; reflexivity).
  exact H.
Defined.


(** ** C5: cancellation

    C5.  The source tests the cancellation signal at each row of Pass 2 and
    leaves the loop, but not the run.  With the signal set before the first
    row the count is 0 and the run raises the empty-selection exception; with
    the signal set before the second row the run goes on with the mean of the
    first row only (3/2 instead of 5/2), computes the refined mask from it,
    calls every later collaborator, creates the sink and returns its
    destination. *)
Theorem cancellation_does_not_stop_the_run :
  let parameters := Synthetic.parameters demQ 1500%Q in
  let full := run (Synthetic.backend rowsQ) Synthetic.never parameters in
  let at_first_row := run (Synthetic.backend rowsQ) (Synthetic.canceled_from 0) parameters in
  let at_second_row := run (Synthetic.backend rowsQ) (Synthetic.canceled_from 1) parameters in
  In (InfoMeanCost (10 # 4)%Q) (messages (snd full)) /\
  fst at_first_row = Raise (QgsProcessingException EMPTY_SELECTION) /\
  fst at_second_row = Ok "valley_floor" /\
  In (InfoMeanCost (3 # 2)%Q) (messages (snd at_second_row)) /\
  nth_error (calls (snd at_second_row)) 5 =
    Some (RasterCall (qgis_rastercalculator (threshold_expression (3 # 2)%Q)
            [costQ] (rasterUnitsPerPixelX demQ) (extent demQ) (authid demQ))) /\
  List.length (calls (snd at_second_row)) = 12%nat /\
  sink (snd at_second_row) =
    Some {| sink_fields := ["DN"]; sink_wkbType := 3; sink_crs := ""; added := [] |}.
Proof.
  cbv zeta.
  split; [vm_compute; do 6 right; left; reflexivity|].
  split; [vm_compute; reflexivity|].
  split; [vm_compute; reflexivity|].
  split; [vm_compute; do 6 right; left; reflexivity|].
  split; [vm_compute; reflexivity|].
  split; vm_compute; reflexivity.
Qed.


(** ** C6: grid alignment *)

(** C6 (as amended).  A run performs no validation of grid geometry and
    never fails with an alignment error.  Stated of runs in which every
    collaborator, the raster calculator included, is the host's and may
    answer with a raster of any size on any grid:
    - the friction raster and the seed mask are handed to the cost-distance
      transform as the collaborators produced them, whatever their grids;
    - the cost surface and the coarse mask are read row by row with the
      column and row counts of the cost raster, and nothing else of the two
      rasters is consulted: where the mask covers the rows read, Pass 2
      pairs the cells by index and ends with the empty-selection exception
      or with the mean of the qualifying cells; where the mask is narrower
      than the cost raster, or ends above a row that is read, the read of
      that mask row raises [TypeError];
    - a run fails only with one of the three exceptions of the source, with
      the failure of a collaborator, or with a Python error (of the
      grid-size arithmetic, of a read outside the mask, of a missing
      sink). *)
Theorem no_grid_validation {A} {NA : Number A}
    (backend : Backend A) (feedback : nat -> bool) (parameters : Parameters) :
  let r := fst (run_host backend feedback parameters) in
  let s' := snd (run_host backend feedback parameters) in
  (forall c1 friction c2 seed,
     nth_error (calls s') 1 = Some (RasterCall c1) ->
     run_raster backend c1 = Some friction ->
     nth_error (calls s') 2 = Some (RasterCall c2) ->
     run_raster backend c2 = Some seed ->
     exists dem,
       parameterAsRasterLayer parameters PARAM_DEM = Some dem /\
       nth_error (calls s') 3 =
         Some (RasterCall (grass7_r_cost friction seed 0 300 (extent dem)
                             (rasterUnitsPerPixelX dem)))) /\
  (forall c3 cost c4 mask,
     nth_error (calls s') 3 = Some (RasterCall c3) ->
     run_raster backend c3 = Some cost ->
     nth_error (calls s') 4 = Some (RasterCall c4) ->
     run_raster backend c4 = Some mask ->
     gdal_Open backend (accum_cost_path backend) = true ->
     gdal_Open backend (belt_mask_path backend) = true ->
     let n := rows_scanned feedback 0 (RasterYSize cost) in
     let vals := corridor_costs cost mask n in
     (covers cost mask 0 n ->
        (vals = [] -> r = Raise (QgsProcessingException EMPTY_SELECTION)) /\
        (vals <> [] ->
           In (InfoMeanCost (corridor_mean vals)) (messages s') /\
           r <> Raise TypeError)) /\
     ((0 < n)%nat ->
      (RasterXSize mask < RasterXSize cost)%nat \/ (RasterYSize mask < n)%nat ->
        r = Raise TypeError)) /\
  (forall e, r = Raise e ->
     e = QgsProcessingException "River Network or DEM not valid" \/
     e = QgsProcessingException "Could not open cost or mask raster for reading." \/
     e = QgsProcessingException EMPTY_SELECTION \/
     (exists id, e = ProcessingRunError id) \/
     e = ZeroDivisionError \/ e = MathCeilError \/ e = TypeError \/
     e = AttributeError).
Proof.
  cbv zeta.
  set (Q := fun (r : result string) (s' : State A) =>
    (forall c1 friction c2 seed,
       nth_error (calls s') 1 = Some (RasterCall c1) ->
       run_raster backend c1 = Some friction ->
       nth_error (calls s') 2 = Some (RasterCall c2) ->
       run_raster backend c2 = Some seed ->
       exists dem,
         parameterAsRasterLayer parameters PARAM_DEM = Some dem /\
         nth_error (calls s') 3 =
           Some (RasterCall (grass7_r_cost friction seed 0 300 (extent dem)
                               (rasterUnitsPerPixelX dem)))) /\
    (forall c3 cost c4 mask,
       nth_error (calls s') 3 = Some (RasterCall c3) ->
       run_raster backend c3 = Some cost ->
       nth_error (calls s') 4 = Some (RasterCall c4) ->
       run_raster backend c4 = Some mask ->
       gdal_Open backend (accum_cost_path backend) = true ->
       gdal_Open backend (belt_mask_path backend) = true ->
       (covers cost mask 0 (rows_scanned feedback 0 (RasterYSize cost)) ->
          (corridor_costs cost mask (rows_scanned feedback 0 (RasterYSize cost)) = [] ->
             r = Raise (QgsProcessingException EMPTY_SELECTION)) /\
          (corridor_costs cost mask (rows_scanned feedback 0 (RasterYSize cost)) <> [] ->
             In (InfoMeanCost
                   (corridor_mean
                      (corridor_costs cost mask
                         (rows_scanned feedback 0 (RasterYSize cost)))))
                (messages s') /\
             r <> Raise TypeError)) /\
       ((0 < rows_scanned feedback 0 (RasterYSize cost))%nat ->
        (RasterXSize mask < RasterXSize cost)%nat \/
        (RasterYSize mask < rows_scanned feedback 0 (RasterYSize cost))%nat ->
          r = Raise TypeError)) /\
    (forall e, r = Raise e ->
       e = QgsProcessingException "River Network or DEM not valid" \/
       e = QgsProcessingException "Could not open cost or mask raster for reading." \/
       e = QgsProcessingException EMPTY_SELECTION \/
       (exists id, e = ProcessingRunError id) \/
       e = ZeroDivisionError \/ e = MathCeilError \/ e = TypeError \/
       e = AttributeError)).
  change (Q (fst (run_host backend feedback parameters))
            (snd (run_host backend feedback parameters))).
  unfold accum_cost_path, belt_mask_path, corridor_mean.
  run_hwalk.
  all: split;
    [ intros c1 friction c2 seed Hc1 Hr1 Hc2 Hr2; inv_calls; subst;
      try absurd_outputs; same_outputs;
      eexists; (split; [first [eassumption|reflexivity]|reflexivity])
    | split;
      [ intros c3 cost c4 mask Hc3 Hr3 Hc4 Hr4 Ho1 Ho2; inv_calls; subst;
        try absurd_outputs; same_outputs
      | intros e0 He; try discriminate He; injection He as <-; eauto 10 ] ].
  all: unfold accum_cost_path, belt_mask_path, corridor_mean in *.
  all: try (match goal with H : negb _ = true |- _ =>
              rewrite Ho1, Ho2 in H; discriminate H end).
  all: try (match goal with
            | Hs : scan_rows ?f ?c ?m _ _ _ ?s = (Raise ?e, ?s2) |- ?e = _ \/ _ =>
                destruct (@scan_run_cases _ _ f c m s (Raise e) s2 Hs) as [[acc E]|E];
                [discriminate E|injection E as ->; do 6 right; left; reflexivity]
            end).
  all: split;
    [ intros Hcov;
      match goal with Hs : scan_rows ?f ?c ?m _ _ _ ?s = (?r, ?s2) |- _ =>
        pose proof (@scan_run_covered _ _ f c m s r s2 Hs Hcov) as E;
        cbn [polls] in E; cbv zeta in E
      end;
      first [discriminate E | injection E as -> ->]
    | intros Hn Hshort;
      match goal with Hs : scan_rows ?f ?c ?m _ _ _ ?s = (?r, ?s2) |- _ =>
        pose proof (@scan_run_uncovered _ _ f c m s r s2 Hs Hn Hshort) as E
      end;
      first [discriminate E | injection E as ->; reflexivity] ].
  all: pydiv_inv.
  all: split;
    [ intros He;
      first [ reflexivity
            | exfalso;
              match goal with H : (corridor_count _ =? 0)%Z = false |- _ =>
                rewrite He in H; discriminate H end ]
    | intros Hne;
      first [ exfalso;
              match goal with H : (corridor_count _ =? 0)%Z = true |- _ =>
                apply Z.eqb_eq, corridor_count_zero in H; exact (Hne H) end
            | split; [cbn [app In]; repeat first [left; reflexivity | right]
                     |intros Hx; discriminate Hx] ] ].
Qed.


(** C6 as stated fails: on an elevation grid with cells 10 wide and 20 high
    the friction grid has cell size 10 x 10 and the seed mask 10 x 20; the
    two reach the cost-distance transform and the run completes. *)
Lemma mismatched_grids_reach_cost_distance :
  let r := run (Synthetic.backend rowsQ) Synthetic.never
             (Synthetic.parameters demQ_oblong 1500%Q) in
  fst r = Ok "valley_floor" /\
  exists friction seed region cellsize,
    nth_error (calls (snd r)) 3 =
      Some (RasterCall (grass7_r_cost friction seed 0 300 region cellsize)) /\
    raster_grid friction =
      {| grid_extent := extent demQ_oblong; grid_xres := 10%Q; grid_yres := 10%Q |} /\
    raster_grid seed =
      {| grid_extent := extent demQ_oblong; grid_xres := (20 # 2)%Q;
         grid_yres := (40 # 2)%Q |} /\
    same_grid (raster_grid friction) (raster_grid seed) = false.
Proof.
  cbv zeta. split; [vm_compute; reflexivity|].
  eexists _, _, _, _. split; [vm_compute; reflexivity|].
  split; [vm_compute; reflexivity|].
  split; vm_compute; reflexivity.
Qed.


(** A cost surface three cells wide over an elevation grid two cells wide. *)
Definition rowsQ_wide : list (list Q) := [[1; 2; 3]; [4; 5; 6]]%Q.

(** A mask laid on the grid asked for, two cells wide under a cost surface
    three cells wide: the first read of a mask row raises. *)
Example narrower_mask_raises_TypeError :
  let r := run_host (Host.backend rowsQ_wide) Synthetic.never
             (Synthetic.parameters demQ 1500%Q) in
  exists c3 cost c4 mask,
    nth_error (calls (snd r)) 3 = Some (RasterCall c3) /\
    run_raster (Host.backend rowsQ_wide) c3 = Some cost /\
    nth_error (calls (snd r)) 4 = Some (RasterCall c4) /\
    run_raster (Host.backend rowsQ_wide) c4 = Some mask /\
    RasterXSize cost = 3%nat /\ RasterXSize mask = 2%nat /\
    fst r = Raise TypeError.
Proof.
  cbv zeta. eexists _, _, _, _.
  split; [vm_compute; reflexivity|].
  split; [vm_compute; reflexivity|].
  split; [vm_compute; reflexivity|].
  split; [vm_compute; reflexivity|].
  split; [reflexivity|]. split; vm_compute; reflexivity.
Qed.


(** ** C7: the friction grid *)

(** C7.  The second collaborator call of a run is the raster calculator on
    the expression slope * pixel size + 0.00001 over the slope raster; the
    friction grid it yields equals, cell by cell, the slope multiplied by the
    pixel size plus the strictly positive constant 0.00001, so that wherever
    the slope and the pixel size are not negative the friction is strictly
    greater than zero, and on flat terrain (slope 0) it is the constant.
    The call and the cell-wise formula hold for every arithmetic; positivity
    and the flat case are shown in exact arithmetic and in binary64, where
    the slope and the pixel size are finite numbers and the friction is a
    positive double or, on overflow of the product, plus infinity. *)
Theorem friction_strictly_positive {A} {NA : Number A}
    (backend : Backend A) (feedback : nat -> bool) (parameters : Parameters) :
  let s' := snd (run backend feedback parameters) in
  (forall c, nth_error (calls s') 1 = Some c ->
     exists dem slope,
       parameterAsRasterLayer parameters PARAM_DEM = Some dem /\
       run_raster backend (gdal_slope dem 1 one false true false) = Some slope /\
       let dx := rasterUnitsPerPixelX dem in
       c = RasterCall (qgis_rastercalculator (conditioned_slope_expression dx)
                         [slope] dx (extent dem) (authid dem))) /\
  (forall (slope : Raster A) (dx : A) (ext : QgsRectangle A) (y x : nat),
     let friction := rastercalculator (conditioned_slope_expression dx) [slope] dx ext in
     pixel friction y x = (pixel slope y x * dx + lit_0_00001)%py) /\
  (forall (slope : Raster Q) (dx : Q) (ext : QgsRectangle Q) (y x : nat),
     let friction := rastercalculator (conditioned_slope_expression dx) [slope] dx ext in
     pixel friction y x = (pixel slope y x * dx + (1 # 100000))%Q /\
     ((0 <= pixel slope y x)%Q -> (0 <= dx)%Q ->
        (0 < pixel friction y x)%Q /\ (zero <? pixel friction y x)%py = true) /\
     ((pixel slope y x == 0)%Q -> (pixel friction y x == 1 # 100000)%Q)) /\
  (forall (slope : Raster float) (dx : float) (ext : QgsRectangle float) (y x : nat)
          (qdx : Q),
     let friction := rastercalculator (conditioned_slope_expression dx) [slope] dx ext in
     float_value dx = Some qdx ->
     (forall qs, float_value (pixel slope y x) = Some qs -> (0 <= qs)%Q -> (0 <= qdx)%Q ->
        (zero <? pixel friction y x)%py = true) /\
     ((pixel slope y x =? zero)%py = true -> pixel friction y x = lit_0_00001)).
Proof.
  cbv zeta. split; [|split; [|split]].
  - set (Q := fun (_ : result string) (s' : State A) =>
      forall c, nth_error (calls s') 1 = Some c ->
      exists dem slope,
        parameterAsRasterLayer parameters PARAM_DEM = Some dem /\
        run_raster backend (gdal_slope dem 1 one false true false) = Some slope /\
        c = RasterCall (qgis_rastercalculator
                          (conditioned_slope_expression (rasterUnitsPerPixelX dem))
                          [slope] (rasterUnitsPerPixelX dem) (extent dem) (authid dem))).
    change (Q (fst (run backend feedback parameters))
              (snd (run backend feedback parameters))).
    run_walk.
    all: intros c Hc; inv_calls; subst.
    all: eexists _, _; (split; [first [eassumption|reflexivity]
                               |(split; [eassumption|reflexivity])]).
  - intros slope dx ext y x. reflexivity.
  - intros slope dx ext y x. split; [reflexivity|].
    change (pixel (rastercalculator (conditioned_slope_expression dx) [slope] dx ext) y x)
      with (pixel slope y x * dx + (1 # 100000))%Q.
    split.
    + intros Hs Hdx.
      assert (P : (0 < pixel slope y x * dx + (1 # 100000))%Q).
      { apply Qlt_le_trans with (0 + (1 # 100000))%Q; [reflexivity|].
        apply Qplus_le_compat; [|apply Qle_refl].
        apply Qmult_le_0_compat; assumption. }
      split; [exact P|]. apply Qlt_bool_iff. exact P.
    + intros E. rewrite E. ring.
  - intros slope dx ext y x qdx Vdx.
    change (pixel (rastercalculator (conditioned_slope_expression dx) [slope] dx ext) y x)
      with (pixel slope y x * dx + lit_0_00001)%py.
    split.
    + intros qs Vs Hs Hdx.
      exact (@friction_positive_binary64 _ _ qs qdx Vs Hs Vdx Hdx).
    + intros Hs. exact (@friction_flat_binary64 _ _ qdx Hs Vdx).
Qed.

Example friction_of_flat_terrain_binary64 :
  let slope := Synthetic.constant (raster_grid (dataset demF)) 2 2 zero in
  let friction :=
    rastercalculator (conditioned_slope_expression 10%float) [slope] 10%float
      (extent demF) in
  pixel friction 0 0 = lit_0_00001 /\ (zero <? pixel friction 0 0)%py = true.
Proof. cbv zeta. split; vm_compute; reflexivity. Qed.


(** ** C8: the gap closer *)

(** C8.  The gap factor is the caller's, 2.0 when none is given; with
    gap_distance the DEM pixel size multiplied by the gap factor, a run whose
    smoothing step succeeds applies to the smoothed layer a dissolving buffer
    of +gap_distance and then, to its result, a dissolving buffer of
    -gap_distance, as its eleventh and twelfth collaborator calls, and these
    are the only buffer calls of a run. *)
Theorem gap_closing_buffers {A} {NA : Number A}
    (backend : Backend A) (feedback : nat -> bool) (parameters : Parameters) :
  let s' := snd (run backend feedback parameters) in
  let gap_factor := parameterAsDouble parameters PARAM_GAP_FACTOR in
  (forall a, lookup PARAM_GAP_FACTOR parameters = Some (DoubleValue a) -> gap_factor = a) /\
  (lookup PARAM_GAP_FACTOR parameters = None -> gap_factor = of_int 2) /\
  (forall c smoothed,
     nth_error (calls s') 9 = Some (VectorCall c) ->
     run_vector backend c = Some smoothed ->
     exists dem hole_free,
       parameterAsRasterLayer parameters PARAM_DEM = Some dem /\
       c = native_smoothgeometry hole_free 0 3 lit_0_4 /\
       let gap_dist := (rasterUnitsPerPixelX dem * gap_factor)%py in
       nth_error (calls s') 10 =
         Some (VectorCall (native_buffer smoothed gap_dist 8 0 0 2 true)) /\
       forall buf_out,
         run_vector backend (native_buffer smoothed gap_dist 8 0 0 2 true) = Some buf_out ->
         nth_error (calls s') 11 =
           Some (VectorCall (native_buffer buf_out (- gap_dist)%py 8 0 0 2 true))) /\
  (forall i l d sg ec js ml ds,
     nth_error (calls s') i = Some (VectorCall (native_buffer l d sg ec js ml ds)) ->
     i = 10%nat \/ i = 11%nat).
Proof.
  cbv zeta. split; [|split].
  - intros a H. unfold parameterAsDouble. rewrite H. reflexivity.
  - intros H. unfold parameterAsDouble. rewrite H. reflexivity.
  - set (Q := fun (_ : result string) (s' : State A) =>
      (forall c smoothed,
         nth_error (calls s') 9 = Some (VectorCall c) ->
         run_vector backend c = Some smoothed ->
         exists dem hole_free,
           parameterAsRasterLayer parameters PARAM_DEM = Some dem /\
           c = native_smoothgeometry hole_free 0 3 lit_0_4 /\
           nth_error (calls s') 10 =
             Some (VectorCall
                     (native_buffer smoothed
                        (rasterUnitsPerPixelX dem *
                         parameterAsDouble parameters PARAM_GAP_FACTOR)%py
                        8 0 0 2 true)) /\
           forall buf_out,
             run_vector backend
               (native_buffer smoothed
                  (rasterUnitsPerPixelX dem *
                   parameterAsDouble parameters PARAM_GAP_FACTOR)%py
                  8 0 0 2 true) = Some buf_out ->
             nth_error (calls s') 11 =
               Some (VectorCall
                       (native_buffer buf_out
                          (- (rasterUnitsPerPixelX dem *
                              parameterAsDouble parameters PARAM_GAP_FACTOR))%py
                          8 0 0 2 true))) /\
      (forall i l d sg ec js ml ds,
         nth_error (calls s') i = Some (VectorCall (native_buffer l d sg ec js ml ds)) ->
         i = 10%nat \/ i = 11%nat)).
    change (Q (fst (run backend feedback parameters))
              (snd (run backend feedback parameters))).
    run_walk.
    all: split;
      [ intros c smoothed Hc Hs; inv_calls; subst; same_results;
        (eexists _, _; (split; [first [eassumption|reflexivity]|(split; [reflexivity|
           (split; [reflexivity|intros buf_out Hb; same_results; reflexivity])])]))
      | intros i l d sg ec js ml ds Hi;
        do 12 (destruct i as [|i]; [cbn [nth_error] in Hi; try discriminate Hi; auto|]);
        cbn [nth_error] in Hi; try discriminate Hi; destruct i; discriminate Hi ].
Qed.


Example buffers_of_run :
  let s' := snd (run (Synthetic.backend rowsQ) Synthetic.never
                   (Synthetic.parameters demQ 1500%Q)) in
  exists smoothed buf_out,
    nth_error (calls s') 10 =
      Some (VectorCall (native_buffer smoothed (10 * 2)%Q 8 0 0 2 true)) /\
    nth_error (calls s') 11 =
      Some (VectorCall (native_buffer buf_out (- (10 * 2))%Q 8 0 0 2 true)).
Proof. cbv zeta. eexists _, _. split; vm_compute; reflexivity. Qed.


(** ** C9: the features written *)

(** C9 (as amended).  Whenever a run has created its output sink, the sink
    has the fields, geometry type and reference system of the gap-closed
    layer (the output of the inward buffer), and the features written to it
    are an initial segment of that layer's features, unchanged: each carries
    its geometry and whatever attributes the collaborators left on it; the
    run adds no attribute and strips none. *)
Theorem sink_receives_gap_closed_features {A} {NA : Number A}
    (backend : Backend A) (feedback : nat -> bool) (parameters : Parameters)
    (k : Sink A) :
  let s' := snd (run backend feedback parameters) in
  sink s' = Some k ->
  exists c gaps_closed rest,
    nth_error (calls s') 11 = Some (VectorCall c) /\
    run_vector backend c = Some gaps_closed /\
    sink_fields k = fields gaps_closed /\
    sink_wkbType k = wkbType gaps_closed /\
    sink_crs k = sourceCrs gaps_closed /\
    getFeatures gaps_closed = (added k ++ rest)%list.
Proof.
  cbv zeta.
  set (Q := fun (_ : result string) (s' : State A) =>
    sink s' = Some k ->
    exists c gaps_closed rest,
      nth_error (calls s') 11 = Some (VectorCall c) /\
      run_vector backend c = Some gaps_closed /\
      sink_fields k = fields gaps_closed /\
      sink_wkbType k = wkbType gaps_closed /\
      sink_crs k = sourceCrs gaps_closed /\
      getFeatures gaps_closed = (added k ++ rest)%list).
  change (Q (fst (run backend feedback parameters))
            (snd (run backend feedback parameters))).
  run_walk.
  all: intros Hk; try discriminate Hk.
  all: match goal with H : sink_extends _ _ _ |- _ =>
         cbn [sink] in H; unfold sink_extends in H end.
  all: subst; try contradiction.
  all: match goal with H : _ /\ _ |- _ =>
         cbn [sink_fields sink_wkbType sink_crs added app] in H;
         destruct H as (F1 & F2 & F3 & written & rest & F4 & F5) end.
  all: eexists _, _, rest; (split; [reflexivity|(split; [eassumption|])]).
  all: rewrite F1, F2, F3, F4; auto.
Qed.

(** C9 as stated fails: with collaborators that keep attributes, the feature
    written carries the class field [DN] of the polygoniser. *)
Lemma emitted_feature_carries_class_attribute :
  let r := run (Synthetic.backend rowsQ) Synthetic.never
             (Synthetic.parameters demQ 1500%Q) in
  exists k f,
    sink (snd r) = Some k /\ In f (added k) /\
    sink_fields k = ["DN"] /\ attributes f = [1%Z].
Proof.
  cbv zeta. eexists _, _. split; [vm_compute; reflexivity|].
  split; [left; reflexivity|]. split; reflexivity.
Qed.


(** The amended C9 on that run. *)
Lemma sink_receives_gap_closed_features_witness :
  let parameters := Synthetic.parameters demQ 1500%Q in
  let s' := snd (run (Synthetic.backend rowsQ) Synthetic.never parameters) in
  exists k c gaps_closed rest,
    sink s' = Some k /\
    nth_error (calls s') 11 = Some (VectorCall c) /\
    run_vector (Synthetic.backend rowsQ) c = Some gaps_closed /\
    sink_fields k = fields gaps_closed /\
    getFeatures gaps_closed = (added k ++ rest)%list.
Proof.
  cbv zeta.
  assert (Hk : { k | sink (snd (run (Synthetic.backend rowsQ) Synthetic.never
                                  (Synthetic.parameters demQ 1500%Q))) = Some k }).
  { eexists. vm_compute. reflexivity. }
  destruct Hk as [k Hk].
  destruct (@sink_receives_gap_closed_features Q _
              (Synthetic.backend rowsQ) Synthetic.never
              (Synthetic.parameters demQ 1500%Q) k Hk)
    as (c & gaps_closed & rest & H1 & H2 & H3 & _ & _ & H6).
  exists k, c, gaps_closed, rest. repeat split; assumption.
Defined.


(** ** C10: the arguments of the cost-distance transform *)

(** C10.  For every input, every parameter setting and every backend, each
    invocation of the cost-distance transform in a run has maximum-cost
    cutoff 0 and memory budget 300; the transform is invoked, with these
    values, whenever the rasteriser has succeeded; and the algorithm declares
    no parameter besides the stream network, the elevation raster, the cost
    threshold, the gap factor and the output. *)
Theorem r_cost_cutoff_and_memory_fixed {A} {NA : Number A}
    (backend : Backend A) (feedback : nat -> bool) (parameters : Parameters) :
  let s' := snd (run backend feedback parameters) in
  (forall input start mc mem region cellsize,
      In (RasterCall (grass7_r_cost input start mc mem region cellsize)) (calls s') ->
      mc = 0%Z /\ mem = 300%Z) /\
  (forall c seed,
      nth_error (calls s') 2 = Some (RasterCall c) ->
      run_raster backend c = Some seed ->
      exists friction region cellsize,
        nth_error (calls s') 3 =
        Some (RasterCall (grass7_r_cost friction seed 0 300 region cellsize))) /\
  map parameter_name (@initAlgorithm A NA) =
  [PARAM_RIVER; PARAM_DEM; PARAM_COST_THRESHOLD; PARAM_GAP_FACTOR; PARAM_OUTPUT].
Proof.
  set (Q := fun (_ : result string) (s' : State A) =>
     (forall input start mc mem region cellsize,
      In (RasterCall (grass7_r_cost input start mc mem region cellsize)) (calls s') ->
      mc = 0%Z /\ mem = 300%Z) /\
     (forall c seed,
      nth_error (calls s') 2 = Some (RasterCall c) ->
      run_raster backend c = Some seed ->
      exists friction region cellsize,
        nth_error (calls s') 3 =
        Some (RasterCall (grass7_r_cost friction seed 0 300 region cellsize)))).
  cbv zeta. apply (proj1 (and_assoc _ _ _)). split; [|reflexivity].
  change (Q (fst (run backend feedback parameters)) (snd (run backend feedback parameters))).
  run_walk.
  all: split; [intros; inv_calls; auto|intros c seed Hc Hs; inv_calls; subst].
  all: same_results; eexists _, _, _; reflexivity.
Qed.

Example r_cost_of_run :
  let s' := snd (run (Synthetic.backend rowsQ) Synthetic.never
                   (Synthetic.parameters demQ 1500%Q)) in
  exists friction seed region cellsize,
    nth_error (calls s') 3 =
      Some (RasterCall (grass7_r_cost friction seed 0 300 region cellsize)).
Proof. cbv zeta. eexists _, _, _, _. vm_compute. reflexivity. Qed.


(* ================================================================== *)
(** * Further properties of a run

    The claims above follow one thread of [processAlgorithm].  What follows
    covers the rest of it: the validation of the inputs, the size of the seed
    grid, the order and the chaining of the collaborator calls, the failure
    modes, the sink loop under cancellation, the clean-up and the log. *)

(** ** The loops of a run, exactly

    The frame rules of the program logic say what a loop leaves alone.  The
    rules below say what it does: how many rows Pass 2 reads and how often it
    polls the signal, which features the sink loop writes, which files the
    clean-up removes and which notices it logs. *)

Section Loops.
Context {A : Type} {NA : Number A}.
Variable backend : Backend A.
Variable feedback : nat -> bool.

(** How many times a loop of [n] rounds that polls the cancellation signal
    at the head of each round asks for it, when its first poll is poll [p]:
    once per round, up to and including the poll that finds the signal set. *)
Fixpoint polls_of (p n : nat) : nat :=
  match n with
  | O => O
  | S n' => if feedback p then 1 else S (polls_of (S p) n')
  end.

(** The features the sink loop writes when its first poll is poll [p]: those
    that come before the first poll that finds the signal set. *)
Fixpoint features_written (p : nat) (fs : list (QgsFeature A)) : list (QgsFeature A) :=
  match fs with
  | [] => []
  | f :: fs' => if feedback p then [] else f :: features_written (S p) fs'
  end.

Lemma scan_rows_exact (cost mask : Raster A) :
  RasterXSize mask = RasterXSize cost ->
  RasterYSize mask = RasterYSize cost ->
  forall n y0 s,
    (y0 + n <= RasterYSize cost)%nat ->
    scan_rows feedback cost mask (RasterXSize cost) (seq y0 n)
      (corridor_sum (corridor_costs cost mask y0),
       corridor_count (corridor_costs cost mask y0)) s
    = (Ok (corridor_sum (corridor_costs cost mask (y0 + rows_scanned feedback (polls s) n)),
           corridor_count (corridor_costs cost mask (y0 + rows_scanned feedback (polls s) n))),
       with_polls s (polls s + polls_of (polls s) n)).
Proof.
  intros HX HY. induction n as [|n IH]; intros y0 s Hn;
    cbn [seq scan_rows rows_scanned polls_of].
  - rewrite !Nat.add_0_r. destruct s; reflexivity.
  - unfold bind at 1. unfold isCanceled at 1.
    destruct (feedback (polls s)) eqn:Hc.
    + rewrite Nat.add_0_r, Nat.add_1_r. reflexivity.
    + unfold bind at 1. rewrite read_row_ok by lia.
      unfold bind at 1. rewrite read_row_ok by lia.
      unfold corridor_sum, corridor_count. rewrite scan_row_spec.
      rewrite <- fold_left_app, <- Nat2Z.inj_add, <- length_app.
      rewrite <- corridor_costs_succ.
      match goal with |- context [scan_rows _ _ _ _ _ _ ?s1] =>
        pose proof (IH (S y0) s1 ltac:(lia)) as E end.
      cbn [polls] in E. unfold corridor_sum, corridor_count in E.
      rewrite E. unfold with_polls. cbn [calls polls sink messages removed].
      rewrite <- !Nat.add_succ_comm. reflexivity.
Qed.

Lemma post_scan_run (cost mask : Raster A) s
    (Q : result (A * Z) -> State A -> Prop) :
  RasterXSize mask = RasterXSize cost ->
  RasterYSize mask = RasterYSize cost ->
  (let vals := corridor_costs cost mask
                 (rows_scanned feedback (polls s) (RasterYSize cost)) in
   Q (Ok (corridor_sum vals, corridor_count vals))
     (with_polls s (polls s + polls_of (polls s) (RasterYSize cost)))) ->
  post (scan_rows feedback cost mask (RasterXSize cost) (seq 0 (RasterYSize cost))
          (zero, 0%Z)) s Q.
Proof.
  intros HX HY H. unfold post.
  pose proof (@scan_rows_exact cost mask HX HY (RasterYSize cost) 0%nat s
                ltac:(lia)) as E.
  change (corridor_sum (corridor_costs cost mask 0)) with (zero : A) in E.
  change (corridor_count (corridor_costs cost mask 0)) with 0%Z in E.
  rewrite E. cbn [fst snd Nat.add]. exact H.
Qed.

(** The sink loop on an open sink. *)
Lemma add_features_exact fs : forall s k,
  sink s = Some k ->
  add_features feedback fs s =
  (Ok tt,
   with_sink s (polls s + polls_of (polls s) (List.length fs))
     (Some {| sink_fields := sink_fields k; sink_wkbType := sink_wkbType k;
              sink_crs := sink_crs k;
              added := added k ++ features_written (polls s) fs |})).
Proof.
  induction fs as [|f fs IH]; intros s k Hk;
    cbn [add_features List.length polls_of features_written].
  - rewrite Nat.add_0_r, app_nil_r. unfold ret, with_sink.
    destruct s as [c p sk m r]. cbn [sink] in Hk. subst sk.
    destruct k; reflexivity.
  - unfold bind at 1. unfold isCanceled at 1.
    destruct (feedback (polls s)) eqn:Hc.
    + rewrite Nat.add_1_r, app_nil_r. unfold ret, with_sink.
      cbn [calls polls sink messages removed]. rewrite Hk.
      destruct k; reflexivity.
    + unfold bind at 1. unfold addFeature at 1.
      cbn [calls polls sink messages removed]. rewrite Hk.
      match goal with |- context [add_features _ _ ?s1] =>
        rewrite (IH s1 _ eq_refl) end.
      unfold with_sink.
      cbn [calls polls sink messages removed sink_fields sink_wkbType sink_crs added].
      rewrite <- app_assoc, <- Nat.add_succ_comm. reflexivity.
Qed.

Lemma post_add_features_open fs s k (Q : result unit -> State A -> Prop) :
  sink s = Some k ->
  Q (Ok tt)
    (with_sink s (polls s + polls_of (polls s) (List.length fs))
       (Some {| sink_fields := sink_fields k; sink_wkbType := sink_wkbType k;
                sink_crs := sink_crs k;
                added := added k ++ features_written (polls s) fs |})) ->
  post (add_features feedback fs) s Q.
Proof.
  intros Hk H. unfold post. rewrite (add_features_exact fs s Hk). exact H.
Qed.

(** The sink loop without a sink: the first feature that is not skipped by a
    cancellation meets [None.addFeature]. *)
Lemma post_add_features_none fs s p (Q : result unit -> State A -> Prop) :
  sink s = None ->
  polls s = p ->
  (fs = [] -> Q (Ok tt) s) ->
  (fs <> [] -> feedback p = true -> Q (Ok tt) (with_polls s (S p))) ->
  (fs <> [] -> feedback p = false -> Q (Raise AttributeError) (with_polls s (S p))) ->
  post (add_features feedback fs) s Q.
Proof.
  intros Hk <- H0 H1 H2. unfold post. destruct fs as [|f fs].
  - apply H0. reflexivity.
  - assert (E : add_features feedback (f :: fs) s =
                (if feedback (polls s) then Ok tt else Raise AttributeError,
                 with_polls s (S (polls s)))).
    { cbn [add_features]. unfold bind at 1. unfold isCanceled at 1.
      destruct (feedback (polls s)); [reflexivity|].
      unfold bind at 1. unfold addFeature at 1.
      cbn [calls polls sink messages removed]. unfold with_polls.
      rewrite Hk. reflexivity. }
    rewrite E. cbn [fst snd].
    destruct (feedback (polls s)) eqn:Hc.
    + apply H1; [discriminate|reflexivity].
    + apply H2; [discriminate|reflexivity].
Qed.

(** The clean-up loop. *)
Lemma delete_files_exact ps : forall s,
  delete_files backend ps s =
  (Ok tt,
   with_cleanup s
     (messages s ++ map (@InfoCouldNotDelete A) (filter (os_remove_raises backend) ps))
     (removed s ++ filter (fun p => negb (os_remove_raises backend p)) ps)).
Proof.
  induction ps as [|p ps IH]; intros s; cbn [delete_files filter map].
  - rewrite !app_nil_r. destruct s; reflexivity.
  - unfold bind at 1.
    destruct (os_remove_raises backend p); cbn [negb map];
      unfold pushInfo, os_remove; rewrite IH; unfold with_cleanup;
      cbn [calls polls sink messages removed]; rewrite <- app_assoc; reflexivity.
Qed.

Lemma post_delete_files_exact ps s (Q : result unit -> State A -> Prop) :
  Q (Ok tt)
    (with_cleanup s
       (messages s ++ map (@InfoCouldNotDelete A) (filter (os_remove_raises backend) ps))
       (removed s ++ filter (fun p => negb (os_remove_raises backend p)) ps)) ->
  post (delete_files backend ps) s Q.
Proof. intros H. unfold post. rewrite delete_files_exact. exact H. Qed.

End Loops.

Ltac xwalk1 :=
  lazymatch goal with
  | |- post (scan_rows _ _ _ _ _ _) _ _ =>
      apply post_scan_run; [reflexivity|reflexivity|cbv zeta; norm]
  | |- post (add_features _ _) _ _ =>
      first [ eapply post_add_features_open; [reflexivity|norm]
            | eapply post_add_features_none;
              [reflexivity|cbn [polls Nat.add]; reflexivity
              |intros ?|intros ? ?|intros ? ?]; norm ]
  | |- post (delete_files _ _) _ _ => apply post_delete_files_exact; norm
  | |- _ => walk1
  end.

Ltac xwalk := repeat xwalk1.

Ltac run_xwalk :=
  lazymatch goal with
  | |- ?Q (fst (run ?b ?f ?p)) (snd (run ?b ?f ?p)) =>
      apply (@run_post _ _ b f p Q);
      unfold processAlgorithm, processAlgorithm_with, initial; xwalk;
      try subst Q; norm
  end.


Ltac split_last :=
  match goal with
  | |- exists before c, ?l = (before ++ [c])%list /\ _ =>
      match l with
      | ?c0 :: _ => exists (removelast l), (last l c0); cbn [removelast last app]
      end
  end.


(** ** The cancellation signal *)

Section RowsScanned.
Variable feedback : nat -> bool.

Lemma rows_scanned_spec n : forall p,
  let k := rows_scanned feedback p n in
  (k <= n)%nat /\
  (forall i, (i < k)%nat -> feedback (p + i) = false) /\
  ((k < n)%nat -> feedback (p + k) = true).
Proof.
  induction n as [|n IH]; intros p; cbn [rows_scanned]; cbv zeta.
  - repeat split; intros; lia.
  - destruct (feedback p) eqn:Hp.
    + repeat split; intros; try lia. rewrite Nat.add_0_r. exact Hp.
    + destruct (IH (S p)) as (L & F & T). cbv zeta in *. repeat split.
      * lia.
      * intros [|i] Hi; [rewrite Nat.add_0_r; exact Hp|].
        rewrite <- Nat.add_succ_comm. apply F. lia.
      * intros Hk. rewrite <- Nat.add_succ_comm. apply T. lia.
Qed.

End RowsScanned.

Section Cancellation.
Context {A : Type}.
Variable feedback : nat -> bool.

Lemma features_written_all (fs : list (QgsFeature A)) : forall p,
  (forall i, feedback i = false) -> features_written feedback p fs = fs.
Proof.
  induction fs as [|f fs IH]; intros p H; cbn [features_written]; [reflexivity|].
  rewrite H, IH by exact H. reflexivity.
Qed.

Lemma features_written_none (fs : list (QgsFeature A)) p :
  feedback p = true -> features_written feedback p fs = [].
Proof. intros H. destruct fs; cbn [features_written]; [|rewrite H]; reflexivity. Qed.

Lemma polls_of_all n : forall p,
  (forall i, feedback i = false) -> polls_of feedback p n = n.
Proof.
  induction n as [|n IH]; intros p H; cbn [polls_of]; [reflexivity|].
  rewrite H, IH by exact H. reflexivity.
Qed.

Lemma polls_of_cancelled n : forall p i,
  (i < n)%nat -> feedback (p + i) = true ->
  exists j, (j <= i)%nat /\ feedback (p + j) = true /\ polls_of feedback p n = S j.
Proof.
  induction n as [|n IH]; intros p i Hi Hf; [lia|]. cbn [polls_of].
  destruct (feedback p) eqn:Hp.
  - exists 0%nat. rewrite Nat.add_0_r. repeat split; [lia|exact Hp].
  - destruct i as [|i]; [rewrite Nat.add_0_r in Hf; congruence|].
    rewrite <- Nat.add_succ_comm in Hf.
    destruct (IH (S p) i ltac:(lia) Hf) as (j & Hj & Fj & E).
    exists (S j). rewrite <- Nat.add_succ_comm. repeat split; [lia|exact Fj|].
    rewrite E. reflexivity.
Qed.

(** Once set, the signal stays set. *)
Definition sticky : Prop :=
  forall i j, (i <= j)%nat -> feedback i = true -> feedback j = true.

Lemma sticky_after_scan n i :
  sticky -> (i < n)%nat -> feedback i = true ->
  feedback (polls_of feedback 0 n) = true.
Proof.
  intros Hs Hi Hf.
  destruct (@polls_of_cancelled n 0%nat i Hi Hf) as (j & _ & Fj & E).
  rewrite E. apply (Hs j); [lia|exact Fj].
Qed.

End Cancellation.

Lemma canceled_from_sticky n : sticky (Synthetic.canceled_from n).
Proof.
  intros i j Hij Hi. unfold Synthetic.canceled_from in *.
  apply Nat.leb_le. apply Nat.leb_le in Hi. lia.
Qed.


(** ** Faulty toolboxes and further scenarios *)

Module Faulty.
Section Faulty.
Context {A : Type} {NA : Number A}.

(** A toolbox whose temporary rasters cannot be opened for reading. *)
Definition unreadable (b : Backend A) : Backend A :=
  {| tempFolder := tempFolder b;
     run_raster := run_raster b;
     run_vector := run_vector b;
     gdal_Open := fun _ => false;
     os_remove_raises := os_remove_raises b;
     getMapLayer := getMapLayer b |}.

(** A toolbox on which deleting the file [locked] raises, and whose
    destination is a loaded map layer. *)
Definition locking (locked : string) (b : Backend A) : Backend A :=
  {| tempFolder := tempFolder b;
     run_raster := run_raster b;
     run_vector := run_vector b;
     gdal_Open := gdal_Open b;
     os_remove_raises := String.eqb locked;
     getMapLayer := fun _ => true |}.

End Faulty.
End Faulty.

(** An elevation layer whose pixels have no width. *)
Definition flat_pixels : QgsRasterLayer Q := Synthetic.dem 2 2 0%Q 10%Q.

(** An elevation layer 25 wide and 20 high with cells of 10: the extent is
    not a whole number of cells. *)
Definition demQ_ragged : QgsRasterLayer Q :=
  {| source := "dem.tif";
     dataset :=
       Synthetic.constant
         {| grid_extent := {| xMinimum := 0%Q; xMaximum := 25%Q;
                              yMinimum := 0%Q; yMaximum := 20%Q |};
            grid_xres := 10%Q; grid_yres := 10%Q |}
         3 2 0%Q;
     authid := "EPSG:32610" |}.


(** The parameters of a caller who named no destination. *)
Definition parameters_without_output {A} {NA : Number A} (d : QgsRasterLayer A)
  : @Parameters A :=
  [ (PARAM_RIVER, VectorLayerValue Synthetic.river);
    (PARAM_DEM, RasterLayerValue d) ].


(** Three cells of cost 0.7 in binary64. *)
Definition seven_tenths : float := 0x1.6666666666666p-1%float.
Definition rowsF_below : list (list float) := [[seven_tenths; seven_tenths; seven_tenths]].
Definition demF_three : QgsRasterLayer float := Synthetic.dem 3 1 10%float 10%float.


(** ** The inputs and the size of the seed grid *)

(** The message of the exception for invalid inputs. *)
Definition INVALID_INPUTS : string := "River Network or DEM not valid".


(** X1.  A run fails with the exception [River Network or DEM not valid]
    exactly when the stream network or the elevation raster is missing from
    the parameters (absent, or not a layer of the kind asked for); it then
    has called no collaborator, logged nothing, polled nothing and created
    no sink. *)
Theorem invalid_inputs_rejected {A} {NA : Number A}
    (backend : Backend A) (feedback : nat -> bool) (parameters : Parameters) :
  let r := run backend feedback parameters in
  let missing :=
    parameterAsVectorLayer parameters PARAM_RIVER = None \/
    parameterAsRasterLayer parameters PARAM_DEM = None in
  (fst r = Raise (QgsProcessingException INVALID_INPUTS) <-> missing) /\
  (missing -> snd r = initial A).
Proof.
  cbv zeta. split; [split|].
  - set (Q := fun (r : result string) (_ : State A) =>
      r = Raise (QgsProcessingException INVALID_INPUTS) ->
      parameterAsVectorLayer parameters PARAM_RIVER = None \/
      parameterAsRasterLayer parameters PARAM_DEM = None).
    change (Q (fst (run backend feedback parameters))
              (snd (run backend feedback parameters))).
    run_xwalk.
    all: intros Hr; try discriminate Hr; auto.
  - unfold run, processAlgorithm, processAlgorithm_with.
    intros [H|H]; rewrite H; [|destruct (parameterAsVectorLayer _ _)]; reflexivity.
  - unfold run, processAlgorithm, processAlgorithm_with.
    intros [H|H]; rewrite H; [|destruct (parameterAsVectorLayer _ _)]; reflexivity.
Qed.


(** X2.  With both inputs valid, a run ends with [ZeroDivisionError] exactly
    when the pixel width of the elevation raster is zero, or the width in
    pixels could be computed and the pixel height is zero: the grid size is
    computed by dividing the extent by the pixel size before anything else
    is done, and the run has then called no collaborator and logged nothing.
    No other division of the run can fail: the mean is only taken of a
    non-zero count. *)
Theorem zero_pixel_size_raises {A} {NA : Number A}
    (backend : Backend A) (feedback : nat -> bool) (parameters : Parameters)
    (river : QgsVectorLayer A) (dem : QgsRasterLayer A) :
  let r := run backend feedback parameters in
  let width := (xMaximum (extent dem) - xMinimum (extent dem))%py in
  let zero_size :=
    (rasterUnitsPerPixelX dem =? zero)%py = true \/
    (fceil (fdiv width (rasterUnitsPerPixelX dem)) <> None /\
     (rasterUnitsPerPixelY dem =? zero)%py = true) in
  parameterAsVectorLayer parameters PARAM_RIVER = Some river ->
  parameterAsRasterLayer parameters PARAM_DEM = Some dem ->
  (fst r = Raise ZeroDivisionError <-> zero_size) /\
  (zero_size -> snd r = initial A).
Proof.
  cbv zeta. intros Hriver Hdem.
  set (Q := fun (r : result string) (s : State A) =>
    (r = Raise ZeroDivisionError <->
       (rasterUnitsPerPixelX dem =? zero)%py = true \/
       (fceil (fdiv (xMaximum (extent dem) - xMinimum (extent dem))%py
                    (rasterUnitsPerPixelX dem)) <> None /\
        (rasterUnitsPerPixelY dem =? zero)%py = true)) /\
    ((rasterUnitsPerPixelX dem =? zero)%py = true \/
       (fceil (fdiv (xMaximum (extent dem) - xMinimum (extent dem))%py
                    (rasterUnitsPerPixelX dem)) <> None /\
        (rasterUnitsPerPixelY dem =? zero)%py = true) -> s = initial A)).
  change (Q (fst (run backend feedback parameters))
            (snd (run backend feedback parameters))).
  run_xwalk.
  all: unsome; try discriminate.
  all: pydiv_inv.
  all: try (split; [split; [intros _; auto|reflexivity]|reflexivity]).
  all: try (split; [split; [intros _; right; split; [congruence|assumption]
                           |reflexivity]|reflexivity]).
  all: try (split; [split; [intros Hr; discriminate Hr|]|];
            intros [Hz|[Hc Hz]]; congruence).
  right. split; [congruence|reflexivity].
Qed.


(** X2 on an elevation layer with pixel width 0. *)
Lemma zero_pixel_size_raises_witness :
  run (Synthetic.backend rowsQ) Synthetic.never (Synthetic.parameters flat_pixels 1500%Q)
  = (Raise ZeroDivisionError, initial Q).
Proof.
  pose proof (@zero_pixel_size_raises Q _ (Synthetic.backend rowsQ) Synthetic.never
                (Synthetic.parameters flat_pixels 1500%Q) Synthetic.river flat_pixels
                eq_refl eq_refl) as [H1 H2].
  cbv zeta in H1, H2.
  assert (Z : (rasterUnitsPerPixelX flat_pixels =? zero)%py = true) by reflexivity.
  rewrite (surjective_pairing (run _ _ _)).
  rewrite (proj2 H1 (or_introl Z)), (H2 (or_introl Z)). reflexivity.
Defined.

Section CeilingDivision.
Local Open Scope Q_scope.

(** [int(math.ceil(a / b))] in exact arithmetic: the least number of cells
    of size [b] that cover a length [a]. *)
Lemma ceil_div_bounds (a b : Q) :
  0 < b ->
  inject_Z (Qceiling (a / b) - 1) * b < a /\ a <= inject_Z (Qceiling (a / b)) * b.
Proof.
  intros Hb.
  assert (Hnz : ~ b == 0) by (intros E; rewrite E in Hb; discriminate Hb).
  assert (E : a == b * (a / b)) by (symmetry; apply Qmult_div_r; exact Hnz).
  split.
  - rewrite E at 2. rewrite (Qmult_comm _ b). apply Qmult_lt_l; [exact Hb|].
    apply Qceiling_lt.
  - rewrite E at 1. rewrite (Qmult_comm _ b). apply Qmult_le_l; [exact Hb|].
    apply Qle_ceiling.
Qed.

End CeilingDivision.

Section FloatCeiling.
Local Open Scope Q_scope.

Lemma Qpower_2_nonneg (e : Z) : (0 <= e)%Z -> 2 ^ e == inject_Z (2 ^ e).
Proof.
  intros He. rewrite (Zpower_Qpower 2 e) by exact He. reflexivity.
Qed.

(** [math.ceil] on a double is the ceiling of its value. *)
Lemma float_ceil_value (x : float) (z : Z) :
  float_ceil x = Some z ->
  exists q, float_value x = Some q /\ z = Qceiling q.
Proof.
  unfold float_ceil, float_value.
  destruct (Prim2SF x) as [s|s| |s m e]; cbn [SF2Q]; try discriminate.
  - intros [= <-]. exists 0. split; reflexivity.
  - intros [= <-].
    set (n := if s then Z.neg m else Z.pos m).
    exists (inject_Z n * 2 ^ e). split; [reflexivity|].
    destruct (Z.leb_spec 0 e) as [He|He].
    + rewrite (Qceiling_comp (inject_Z n * 2 ^ e) (inject_Z (n * 2 ^ e))).
      * symmetry. apply Qceiling_Z.
      * rewrite Qpower_2_nonneg by exact He. rewrite inject_Z_mult. reflexivity.
    + destruct e as [|p|p]; try lia.
      change (- Z.neg p)%Z with (Z.pos p).
      unfold Qceiling. f_equal.
      rewrite (Zdiv_Qdiv (- n) (2 ^ Z.pos p)).
      apply Qfloor_comp.
      change (2 ^ Z.neg p) with (/ 2 ^ Z.pos p).
      rewrite (@Qpower_2_nonneg (Z.pos p)) by lia.
      rewrite inject_Z_opp. unfold Qdiv. ring.
Qed.

Lemma float_ceil_bounds (x : float) (z : Z) :
  float_ceil x = Some z ->
  exists q, float_value x = Some q /\ inject_Z (z - 1) < q /\ q <= inject_Z z.
Proof.
  intros H. destruct (@float_ceil_value x z H) as (q & Hq & ->).
  exists q. split; [exact Hq|]. split; [apply Qceiling_lt|apply Qle_ceiling].
Qed.

End FloatCeiling.


(** X3.  The third collaborator call of a run is the rasteriser on the
    stream network, burning the value 1 into a grid of [width_px] by
    [height_px] pixels over the extent of the elevation raster, with no-data
    and initial value 0, where [width_px] and [height_px] are the ceilings
    of the quotients extent / pixel size as the arithmetic of the run
    computes them.  In exact arithmetic, for a positive pixel size, they are
    the least numbers of pixels that cover the extent:
    [(width_px - 1) * xres < xmax - xmin <= width_px * xres].  In binary64
    they are the least integers not below the rounded quotient. *)
Theorem seed_grid_size {A} {NA : Number A}
    (backend : Backend A) (feedback : nat -> bool) (parameters : Parameters) :
  let s' := snd (run backend feedback parameters) in
  (forall c, nth_error (calls s') 2 = Some c ->
     exists river dem width_px height_px,
       parameterAsVectorLayer parameters PARAM_RIVER = Some river /\
       parameterAsRasterLayer parameters PARAM_DEM = Some dem /\
       c = RasterCall (gdal_rasterize river 1 false 0 width_px height_px
                         (extent dem) 0 5 0 false) /\
       let width := (xMaximum (extent dem) - xMinimum (extent dem))%py in
       let height := (yMaximum (extent dem) - yMinimum (extent dem))%py in
       fceil (fdiv width (rasterUnitsPerPixelX dem)) = Some width_px /\
       fceil (fdiv height (rasterUnitsPerPixelY dem)) = Some height_px) /\
  (forall (len cell : Q) (n : Z),
     fceil (fdiv len cell) = Some n -> (0 < cell)%Q ->
     (inject_Z (n - 1) * cell < len)%Q /\ (len <= inject_Z n * cell)%Q) /\
  (forall (len cell : float) (n : Z),
     fceil (fdiv len cell) = Some n ->
     exists q, float_value (fdiv len cell) = Some q /\
               (inject_Z (n - 1) < q)%Q /\ (q <= inject_Z n)%Q).
Proof.
  cbv zeta. split; [|split].
  - set (P := fun (_ : result string) (s' : State A) =>
      forall c, nth_error (calls s') 2 = Some c ->
      exists river dem width_px height_px,
        parameterAsVectorLayer parameters PARAM_RIVER = Some river /\
        parameterAsRasterLayer parameters PARAM_DEM = Some dem /\
        c = RasterCall (gdal_rasterize river 1 false 0 width_px height_px
                          (extent dem) 0 5 0 false) /\
        fceil (fdiv (xMaximum (extent dem) - xMinimum (extent dem))%py
                    (rasterUnitsPerPixelX dem)) = Some width_px /\
        fceil (fdiv (yMaximum (extent dem) - yMinimum (extent dem))%py
                    (rasterUnitsPerPixelY dem)) = Some height_px).
    change (P (fst (run backend feedback parameters))
              (snd (run backend feedback parameters))).
    run_xwalk.
    all: intros c Hc; cbn [nth_error] in Hc; try discriminate Hc; injection Hc as <-.
    all: pydiv_inv.
    all: eexists _, _, _, _;
         (split; [first [eassumption|reflexivity]
                 |(split; [first [eassumption|reflexivity]
                          |(split; [reflexivity|split; assumption])])]).
  - intros len cell n Hn Hcell. cbn [fceil fdiv Number_Q] in Hn.
    injection Hn as <-. apply ceil_div_bounds. exact Hcell.
  - intros len cell n Hn. apply float_ceil_bounds. exact Hn.
Qed.


(** On an extent of 25 by 20 with cells of 10: 3 by 2 pixels. *)
Example seed_grid_of_a_ragged_extent :
  let s' := snd (run (Synthetic.backend rowsQ) Synthetic.never
                   (Synthetic.parameters demQ_ragged 1500%Q)) in
  nth_error (calls s') 2 =
    Some (RasterCall (gdal_rasterize Synthetic.river 1 false 0 3 2
                        (extent demQ_ragged) 0 5 0 false)).
Proof. vm_compute. reflexivity. Qed.


(** In binary64 the quotient is rounded before its ceiling is taken, and the
    grid can fall short of the extent: 36891.79319510226 / 38.07202600113752
    rounds to exactly 969, while 969 cells of that size end before the
    extent does. *)
Definition length_F : float := 0x1.2037961dab1f2p+15%float.
Definition cell_F : float := 0x1.3093825e3ac75p+5%float.
Definition demF_short : QgsRasterLayer float :=
  {| source := "dem.tif";
     dataset :=
       Synthetic.constant
         {| grid_extent := {| xMinimum := 0%float; xMaximum := length_F;
                              yMinimum := 0%float; yMaximum := cell_F |};
            grid_xres := cell_F; grid_yres := cell_F |}
         970 1 0%float;
     authid := "EPSG:32610" |}.

Example binary64_seed_grid_can_fall_short :
  let s' := snd (run (Synthetic.backend rowsF_exact) Synthetic.never
                   (Synthetic.parameters demF_short 1500%float)) in
  nth_error (calls s') 2 =
    Some (RasterCall (gdal_rasterize Synthetic.river 1 false 0 969 1
                        (extent demF_short) 0 5 0 false)) /\
  exists ql qc,
    float_value length_F = Some ql /\ float_value cell_F = Some qc /\
    (inject_Z 969 * qc < ql)%Q.
Proof.
  cbv zeta. split; [vm_compute; reflexivity|].
  eexists _, _. split; [vm_compute; reflexivity|].
  split; [vm_compute; reflexivity|]. vm_compute. reflexivity.
Qed.


(** ** The order of the collaborator calls *)

(** The collaborators of a run, in the order the source calls them. *)
Definition PIPELINE : list string :=
  ["gdal:slope"; "qgis:rastercalculator"; "gdal:rasterize"; "grass7:r.cost";
   "qgis:rastercalculator"; "qgis:rastercalculator"; "gdal:polygonize";
   "native:extractbyattribute"; "native:deleteholes"; "native:smoothgeometry";
   "native:buffer"; "native:buffer"].

Definition failed {A} (backend : Backend A) (c : Call A) : Prop :=
  match c with
  | RasterCall a => run_raster backend a = None
  | VectorCall a => run_vector backend a = None
  end.


(** X4.  The collaborators a run has called are, in order, an initial
    segment of the twelve steps of the source (slope, raster calculator,
    rasterise, r.cost, raster calculator twice, polygonise, extract by
    attribute, delete holes, smooth, buffer, buffer): no step is skipped,
    repeated or reordered.  A run that returns has called all twelve; a run
    that ends with the failure of a collaborator ends at that collaborator,
    which is the last one called. *)
Theorem collaborators_run_in_order {A} {NA : Number A}
    (backend : Backend A) (feedback : nat -> bool) (parameters : Parameters) :
  let r := fst (run backend feedback parameters) in
  let s' := snd (run backend feedback parameters) in
  let ids := map (@alg_id A) (calls s') in
  (exists rest, PIPELINE = (ids ++ rest)%list) /\
  (forall d, r = Ok d -> ids = PIPELINE) /\
  (forall id, r = Raise (ProcessingRunError id) ->
     exists before c,
       calls s' = (before ++ [c])%list /\ alg_id c = id /\ failed backend c).
Proof.
  cbv zeta.
  set (Q := fun (r : result string) (s' : State A) =>
    (exists rest, PIPELINE = (map (@alg_id A) (calls s') ++ rest)%list) /\
    (forall d, r = Ok d -> map (@alg_id A) (calls s') = PIPELINE) /\
    (forall id, r = Raise (ProcessingRunError id) ->
       exists before c,
         calls s' = (before ++ [c])%list /\ alg_id c = id /\ failed backend c)).
  change (Q (fst (run backend feedback parameters))
            (snd (run backend feedback parameters))).
  run_xwalk.
  all: split; [eexists; cbn [map alg_id app]; reflexivity|].
  all: split; [intros d Hr; first [discriminate Hr|reflexivity]|].
  all: intros id Hr; try discriminate Hr; injection Hr as <-.
  all: split_last; split; [reflexivity|split; [reflexivity|assumption]].
Qed.


(** ** Pass 2 *)

(** The message of the exception for a raster that cannot be read. *)
Definition COULD_NOT_OPEN : string := "Could not open cost or mask raster for reading.".


(** X5.  A run that has computed its coarse mask fails with the exception
    [Could not open cost or mask raster for reading.] exactly when the cost
    raster or the coarse mask raster cannot be opened; it then stops after
    its fifth collaborator call, right after announcing the mean, without
    having polled the cancellation signal, created a sink or removed a
    file. *)
Theorem unreadable_raster_aborts {A} {NA : Number A}
    (backend : Backend A) (feedback : nat -> bool) (parameters : Parameters)
    (c : Call A) :
  let r := fst (run backend feedback parameters) in
  let s' := snd (run backend feedback parameters) in
  let readable :=
    gdal_Open backend (accum_cost_path backend) &&
    gdal_Open backend (belt_mask_path backend) in
  nth_error (calls s') 4 = Some c ->
  (r = Raise (QgsProcessingException COULD_NOT_OPEN) <-> readable = false) /\
  (readable = false ->
     List.length (calls s') = 5%nat /\ polls s' = 0%nat /\ sink s' = None /\
     removed s' = [] /\
     last (messages s') (Info "") = Info "Computing mean inside coarse mask...").
Proof.
  cbv zeta.
  set (Q := fun (r : result string) (s' : State A) =>
    nth_error (calls s') 4 = Some c ->
    (r = Raise (QgsProcessingException COULD_NOT_OPEN) <->
       gdal_Open backend (accum_cost_path backend) &&
       gdal_Open backend (belt_mask_path backend) = false) /\
    (gdal_Open backend (accum_cost_path backend) &&
     gdal_Open backend (belt_mask_path backend) = false ->
       List.length (calls s') = 5%nat /\ polls s' = 0%nat /\ sink s' = None /\
       removed s' = [] /\
       last (messages s') (Info "") = Info "Computing mean inside coarse mask...")).
  change (Q (fst (run backend feedback parameters))
            (snd (run backend feedback parameters))).
  unfold accum_cost_path, belt_mask_path. run_xwalk.
  all: intros Hc; cbn [nth_error] in Hc; try discriminate Hc.
  all: unfold accum_cost_path, belt_mask_path.
  all: match goal with
       | H : negb ?b = true |- _ => apply negb_true_iff in H; rewrite H
       | H : negb ?b = false |- _ => apply negb_false_iff in H; rewrite H
       end.
  all: try (split; [split; [intros Hr; discriminate Hr|intros Hr; discriminate Hr]
                   |intros Hr; discriminate Hr]).
  all: split; [split; reflexivity|intros _; repeat split; reflexivity].
Qed.


(** X5 on a toolbox whose temporary rasters cannot be opened. *)
Lemma unreadable_raster_aborts_witness :
  let backend := Faulty.unreadable (Synthetic.backend rowsQ) in
  let r := run backend Synthetic.never (Synthetic.parameters demQ 1500%Q) in
  fst r = Raise (QgsProcessingException COULD_NOT_OPEN) /\
  List.length (calls (snd r)) = 5%nat.
Proof.
  cbv zeta.
  assert (Hc : { c | nth_error
                       (calls (snd (run (Faulty.unreadable (Synthetic.backend rowsQ))
                                      Synthetic.never (Synthetic.parameters demQ 1500%Q))))
                       4 = Some c }).
  { eexists. vm_compute. reflexivity. }
  destruct Hc as [c Hc].
  destruct (@unreadable_raster_aborts Q _ (Faulty.unreadable (Synthetic.backend rowsQ))
              Synthetic.never (Synthetic.parameters demQ 1500%Q) c Hc) as [H1 H2].
  split; [apply H1; reflexivity|apply H2; reflexivity].
Defined.


(** X6.  Pass 2 reads the rows of the cost surface from the top until it
    finds the cancellation signal set: with [n] the number of rows for which
    the poll at the head of the loop found it clear ([n] is all rows when it
    is never set, and the signal is set at poll [n] otherwise), the mean the
    run logs and hands to the refined mask is sum / count over the
    qualifying cells of the first [n] rows only, provided one of them
    qualifies. *)
Theorem scan_stops_at_cancellation {A} {NA : Number A}
    (backend : Backend A) (feedback : nat -> bool) (parameters : Parameters)
    (cost : Raster A) (e : expr A) (cs : A) (ext : QgsRectangle A) (crs : string) :
  let s' := snd (run backend feedback parameters) in
  let T := parameterAsDouble parameters PARAM_COST_THRESHOLD in
  let n := rows_scanned feedback 0 (RasterYSize cost) in
  let vals := corridor_costs cost (ThresholdMask T cost cs ext) n in
  nth_error (calls s') 4 = Some (RasterCall (qgis_rastercalculator e [cost] cs ext crs)) ->
  gdal_Open backend (accum_cost_path backend) = true ->
  gdal_Open backend (belt_mask_path backend) = true ->
  vals <> [] ->
  ((n <= RasterYSize cost)%nat /\
   (forall i, (i < n)%nat -> feedback i = false) /\
   ((n < RasterYSize cost)%nat -> feedback n = true)) /\
  In (InfoMeanCost (corridor_mean vals)) (messages s') /\
  nth_error (calls s') 5 =
    Some (RasterCall (qgis_rastercalculator (threshold_expression (corridor_mean vals))
                        [cost] cs ext crs)).
Proof.
  cbv zeta. intros Hc Ho1 Ho2 Hne. split.
  { exact (rows_scanned_spec feedback (RasterYSize cost) 0). }
  revert Hc.
  set (Q := fun (_ : result string) (s' : State A) =>
    nth_error (calls s') 4 = Some (RasterCall (qgis_rastercalculator e [cost] cs ext crs)) ->
    In (InfoMeanCost
          (corridor_mean
             (corridor_costs cost
                (ThresholdMask (parameterAsDouble parameters PARAM_COST_THRESHOLD)
                   cost cs ext) (rows_scanned feedback 0 (RasterYSize cost)))))
       (messages s') /\
    nth_error (calls s') 5 =
      Some (RasterCall (qgis_rastercalculator
             (threshold_expression
                (corridor_mean
                   (corridor_costs cost
                      (ThresholdMask (parameterAsDouble parameters PARAM_COST_THRESHOLD)
                         cost cs ext) (rows_scanned feedback 0 (RasterYSize cost)))))
             [cost] cs ext crs))).
  change (Q (fst (run backend feedback parameters))
            (snd (run backend feedback parameters))).
  unfold accum_cost_path, belt_mask_path, ThresholdMask, corridor_mean in *.
  run_xwalk.
  all: intros Hc; inv_calls; subst.
  all: try (rewrite Ho1, Ho2 in *; discriminate).
  all: try (match goal with H : (corridor_count _ =? 0)%Z = true |- _ =>
              apply Z.eqb_eq, corridor_count_zero in H; exfalso; exact (Hne H) end).
  all: pydiv_inv.
  all: split; [|reflexivity].
  all: cbn [app In]; repeat first [left; reflexivity | right].
Qed.


(** X6 on the 2 x 2 surface with the signal set before the second row: the
    mean is that of the first row, (1 + 2) / 2. *)
Lemma scan_stops_at_cancellation_witness :
  let parameters := Synthetic.parameters demQ 1500%Q in
  let s' := snd (run (Synthetic.backend rowsQ) (Synthetic.canceled_from 1) parameters) in
  rows_scanned (Synthetic.canceled_from 1) 0 (RasterYSize costQ) = 1%nat /\
  In (InfoMeanCost (3 # 2)%Q) (messages s').
Proof.
  cbv zeta.
  pose proof (@scan_stops_at_cancellation Q _ (Synthetic.backend rowsQ)
                (Synthetic.canceled_from 1) (Synthetic.parameters demQ 1500%Q)
                costQ (threshold_expression 1500%Q)
                (rasterUnitsPerPixelX demQ) (extent demQ) (authid demQ)) as H.
  cbv zeta in H.
  discharge H ltac:(vm_compute; reflexivity).
  discharge H ltac:(reflexivity).
  discharge H ltac:(reflexivity).
  discharge H ltac:(vm_compute; discriminate).
  destruct H as (_ & H & _).
  split; [reflexivity|exact H].
Defined.

Section BelowMean.
Local Open Scope Q_scope.

Lemma below_or_all_above (m : Q) (l : list Q) :
  (exists q, In q l /\ q <= m) \/ (forall q, In q l -> m < q).
Proof.
  induction l as [|x l [(q & Hq & Hle)|IH]].
  - right. intros q [].
  - left. exists q. split; [right; exact Hq|exact Hle].
  - destruct (Qlt_le_dec m x) as [Hx|Hx].
    + right. intros q [<-|Hq]; [exact Hx|apply IH; exact Hq].
    + left. exists x. split; [left; reflexivity|exact Hx].
Qed.

Lemma sum_above (m : Q) (l : list Q) :
  l <> [] -> (forall q, In q l -> m < q) ->
  inject_Z (Z.of_nat (List.length l)) * m < fold_right Qplus 0 l.
Proof.
  induction l as [|x l IH]; intros Hne Hall; [congruence|].
  cbn [fold_right List.length]. rewrite Nat2Z.inj_succ, <- Z.add_1_l, inject_Z_plus.
  change (inject_Z 1) with 1.
  assert (E : (1 + inject_Z (Z.of_nat (List.length l))) * m
              == m + inject_Z (Z.of_nat (List.length l)) * m) by ring.
  rewrite E. clear E.
  assert (Hx : m < x) by (apply Hall; left; reflexivity).
  destruct l as [|y l].
  - cbn [List.length fold_right Z.of_nat]. change (inject_Z 0) with 0.
    rewrite Qmult_0_l, !Qplus_0_r. exact Hx.
  - apply Qplus_lt_le_compat; [exact Hx|]. apply Qlt_le_weak.
    apply IH; [discriminate|]. intros q Hq. apply Hall. right. exact Hq.
Qed.

(** Some term of a non-empty sum is not above the mean. *)
Lemma some_term_below_mean (l : list Q) :
  l <> [] ->
  exists q, In q l /\ q <= fold_right Qplus 0 l / inject_Z (Z.of_nat (List.length l)).
Proof.
  intros Hne.
  set (n := inject_Z (Z.of_nat (List.length l))).
  assert (Hn : 0 < n).
  { unfold n. change 0 with (inject_Z 0). rewrite <- Zlt_Qlt.
    destruct l; [congruence|]. cbn [List.length]. lia. }
  destruct (below_or_all_above (fold_right Qplus 0 l / n) l) as [H|H]; [exact H|].
  exfalso. pose proof (sum_above Hne H) as S. fold n in S.
  rewrite Qmult_div_r in S.
  - exact (Qlt_irrefl _ S).
  - intros E. rewrite E in Hn. discriminate Hn.
Qed.

End BelowMean.

Lemma cells_in (rows cols : nat) (c : nat * nat) :
  In c (cells rows cols) -> (fst c < rows)%nat /\ (snd c < cols)%nat.
Proof.
  unfold cells. rewrite in_flat_map. intros (y & Hy & Hc).
  apply in_map_iff in Hc. destruct Hc as (x & <- & Hx).
  apply in_seq in Hy. apply in_seq in Hx. cbn [fst snd]. lia.
Qed.


(** X7.  Whenever a run logs a mean that carries no rounding error (its
    value is the exact mean of the costs accumulated, as always in exact
    arithmetic), the refined mask is not empty: some cell of the cost
    surface, a qualifying cell whose cost is not above the mean, is set to 1
    in it. *)
Theorem refined_mask_not_empty {A} {NA : Number A} {VA : Valued A}
    (backend : Backend A) (feedback : nat -> bool) (parameters : Parameters)
    (cost : Raster A) (e : expr A) (cs : A) (ext : QgsRectangle A) (crs : string)
    (m : A) (qT qm : Q) :
  let s' := snd (run backend feedback parameters) in
  let T := parameterAsDouble parameters PARAM_COST_THRESHOLD in
  let vals := corridor_costs cost (ThresholdMask T cost cs ext)
                (rows_scanned feedback 0 (RasterYSize cost)) in
  nth_error (calls s') 4 = Some (RasterCall (qgis_rastercalculator e [cost] cs ext crs)) ->
  In (InfoMeanCost m) (messages s') ->
  value T = Some qT -> value m = Some qm -> (qm == Qmean vals)%Q ->
  exists y x,
    (y < RasterYSize cost)%nat /\ (x < RasterXSize cost)%nat /\
    (pixel (ThresholdMask m cost cs ext) y x =? one)%py = true.
Proof.
  cbv zeta. intros Hc Hm HT Hqm Hex.
  destruct (@logged_mean_is_corridor_mean A NA backend feedback parameters
              cost e cs ext crs m Hc Hm) as [[Hne _] _].
  set (T := parameterAsDouble parameters PARAM_COST_THRESHOLD) in *.
  set (n := rows_scanned feedback 0 (RasterYSize cost)) in *.
  set (vals := corridor_costs cost (ThresholdMask T cost cs ext) n) in *.
  assert (Hq : map Qvalue vals <> []).
  { destruct vals; [congruence|discriminate]. }
  destruct (some_term_below_mean Hq) as (q & Hin & Hle).
  apply in_map_iff in Hin. destruct Hin as (v & <- & Hv).
  rewrite length_map in Hle. fold (Qsum vals) in Hle. fold (Qmean vals) in Hle.
  destruct (@corridor_costs_in A NA cost T cs ext n v Hv) as [Hpos HvT].
  destruct (value_between zero v T value_zero HT Hpos HvT) as [qv Hqv].
  assert (Hvm : (v <=? m)%py = true).
  { apply (value_le v m Hqv Hqm). rewrite Hex.
    unfold Qvalue in Hle. rewrite Hqv in Hle. exact Hle. }
  unfold vals, corridor_costs in Hv. apply in_map_iff in Hv.
  destruct Hv as ([y x] & <- & Hcell). apply filter_In in Hcell.
  destruct Hcell as [Hcell _]. apply cells_in in Hcell. cbn [fst snd] in *.
  exists y, x. split; [|split; [lia|]].
  - pose proof (rows_scanned_le feedback (RasterYSize cost) 0). fold n in H. lia.
  - rewrite ThresholdMask_one, Hpos, Hvm. reflexivity.
Qed.


(** X7 on the binary64 run without rounding: costs 1, 2, 3, mean 2. *)
Lemma refined_mask_not_empty_witness :
  let cs := rasterUnitsPerPixelX demF in
  let ext := extent demF in
  exists y x,
    (y < 2)%nat /\ (x < 2)%nat /\
    (pixel (ThresholdMask 2%float costF_exact cs ext) y x =? one)%py = true.
Proof.
  cbv zeta.
  pose proof (@refined_mask_not_empty float _ _
            (Synthetic.backend rowsF_exact) Synthetic.never
            (Synthetic.parameters demF 1500%float)
            costF_exact (threshold_expression 1500%float)
            (rasterUnitsPerPixelX demF) (extent demF) (authid demF)
            2%float (6597069766656000 # 4398046511104)
            (4503599627370496 # 2251799813685248)) as H.
  cbv zeta in H.
  discharge H ltac:(vm_compute; reflexivity).
  discharge H ltac:(vm_compute; do 6 right; left; reflexivity).
  discharge H ltac:(vm_compute; reflexivity).
  discharge H ltac:(vm_compute; reflexivity).
  discharge H ltac:(vm_compute; reflexivity).
  exact H.
Defined.


(** The hypothesis of exactness is needed.  In binary64 the sum
    0.7 + 0.7 + 0.7 rounds downwards, the mean is below each of the three
    costs, the refined mask of the run is empty and nothing is written. *)
Example binary64_refined_mask_can_be_empty :
  let r := run (Synthetic.backend rowsF_below) Synthetic.never
             (Synthetic.parameters demF_three 1500%float) in
  let mean := 0x1.6666666666665p-1%float in
  let refined := ThresholdMask mean (cost_surface demF_three rowsF_below)
                   (rasterUnitsPerPixelX demF_three) (extent demF_three) in
  seven_tenths = PrimFloat.div 7 10 /\
  In (InfoMeanCost mean) (messages (snd r)) /\
  nth_error (calls (snd r)) 5 =
    Some (RasterCall (qgis_rastercalculator (threshold_expression mean)
            [cost_surface demF_three rowsF_below]
            (rasterUnitsPerPixelX demF_three) (extent demF_three) (authid demF_three))) /\
  pixel refined 0 0 = zero /\ pixel refined 0 1 = zero /\ pixel refined 0 2 = zero /\
  exists k, sink (snd r) = Some k /\ added k = [].
Proof.
  cbv zeta.
  split; [reflexivity|].
  split; [vm_compute; do 6 right; left; reflexivity|].
  split; [vm_compute; reflexivity|].
  split; [vm_compute; reflexivity|].
  split; [vm_compute; reflexivity|].
  split; [vm_compute; reflexivity|].
  eexists. split; vm_compute; reflexivity.
Qed.


(** ** From the refined mask to polygons *)

(** X8.  Each vector step of a run works on the output of the step before
    it: the polygoniser on the refined mask (band 1, class field [DN],
    4-connected), the extraction on the polygons ([DN] = 1), the hole
    removal on the extracted layer (every hole, minimum area 0), the
    smoothing on the hole-free layer (3 iterations, offset 0.4). *)
Theorem vector_steps_chain {A} {NA : Number A}
    (backend : Backend A) (feedback : nat -> bool) (parameters : Parameters) :
  let s' := snd (run backend feedback parameters) in
  (forall c, nth_error (calls s') 6 = Some c ->
     exists e layers cs ext crs,
       nth_error (calls s') 5 =
         Some (RasterCall (qgis_rastercalculator e layers cs ext crs)) /\
       c = VectorCall (gdal_polygonize (rastercalculator e layers cs ext) 1 "DN" false)) /\
  (forall c, nth_error (calls s') 7 = Some c ->
     exists a refined_poly,
       nth_error (calls s') 6 = Some (VectorCall a) /\
       run_vector backend a = Some refined_poly /\
       c = VectorCall (native_extractbyattribute refined_poly "DN" 0 1)) /\
  (forall c, nth_error (calls s') 8 = Some c ->
     exists a extracted,
       nth_error (calls s') 7 = Some (VectorCall a) /\
       run_vector backend a = Some extracted /\
       c = VectorCall (native_deleteholes extracted 0)) /\
  (forall c, nth_error (calls s') 9 = Some c ->
     exists a hole_free,
       nth_error (calls s') 8 = Some (VectorCall a) /\
       run_vector backend a = Some hole_free /\
       c = VectorCall (native_smoothgeometry hole_free 0 3 lit_0_4)).
Proof.
  cbv zeta.
  set (Q := fun (_ : result string) (s' : State A) =>
    (forall c, nth_error (calls s') 6 = Some c ->
       exists e layers cs ext crs,
         nth_error (calls s') 5 =
           Some (RasterCall (qgis_rastercalculator e layers cs ext crs)) /\
         c = VectorCall (gdal_polygonize (rastercalculator e layers cs ext) 1 "DN" false)) /\
    (forall c, nth_error (calls s') 7 = Some c ->
       exists a refined_poly,
         nth_error (calls s') 6 = Some (VectorCall a) /\
         run_vector backend a = Some refined_poly /\
         c = VectorCall (native_extractbyattribute refined_poly "DN" 0 1)) /\
    (forall c, nth_error (calls s') 8 = Some c ->
       exists a extracted,
         nth_error (calls s') 7 = Some (VectorCall a) /\
         run_vector backend a = Some extracted /\
         c = VectorCall (native_deleteholes extracted 0)) /\
    (forall c, nth_error (calls s') 9 = Some c ->
       exists a hole_free,
         nth_error (calls s') 8 = Some (VectorCall a) /\
         run_vector backend a = Some hole_free /\
         c = VectorCall (native_smoothgeometry hole_free 0 3 lit_0_4))).
  change (Q (fst (run backend feedback parameters))
            (snd (run backend feedback parameters))).
  run_xwalk.
  all: split; [|split; [|split]].
  all: intros c Hc; cbn [nth_error] in Hc; try discriminate Hc;
       injection Hc as <-.
  all: first [ eexists _, _, _, _, _; split; reflexivity
             | eexists _, _; split; [reflexivity|split; [eassumption|reflexivity]] ].
Qed.


(** ** The output sink *)

(** X9.  The sink loop polls the cancellation signal once before each
    feature and leaves at the first poll that finds it set: with [p] the
    number of polls made by Pass 2, the features written are those of the
    gap-closed layer that come before the first set poll from poll [p] on,
    and the run has polled the signal once per row read and per feature
    written, plus once for each poll that found it set. *)
Theorem sink_written_until_cancelled {A} {NA : Number A}
    (backend : Backend A) (feedback : nat -> bool) (parameters : Parameters)
    (k : Sink A) (c3 : RasterAlg A) (cost : Raster A)
    (c11 : VectorAlg A) (gaps_closed : QgsVectorLayer A) :
  let s' := snd (run backend feedback parameters) in
  let p := polls_of feedback 0 (RasterYSize cost) in
  sink s' = Some k ->
  nth_error (calls s') 3 = Some (RasterCall c3) ->
  run_raster backend c3 = Some cost ->
  nth_error (calls s') 11 = Some (VectorCall c11) ->
  run_vector backend c11 = Some gaps_closed ->
  added k = features_written feedback p (getFeatures gaps_closed) /\
  polls s' = (p + polls_of feedback p (List.length (getFeatures gaps_closed)))%nat.
Proof.
  cbv zeta.
  set (Q := fun (_ : result string) (s' : State A) =>
    sink s' = Some k ->
    nth_error (calls s') 3 = Some (RasterCall c3) ->
    run_raster backend c3 = Some cost ->
    nth_error (calls s') 11 = Some (VectorCall c11) ->
    run_vector backend c11 = Some gaps_closed ->
    added k = features_written feedback (polls_of feedback 0 (RasterYSize cost))
                (getFeatures gaps_closed) /\
    polls s' = (polls_of feedback 0 (RasterYSize cost) +
                polls_of feedback (polls_of feedback 0 (RasterYSize cost))
                  (List.length (getFeatures gaps_closed)))%nat).
  change (Q (fst (run backend feedback parameters))
            (snd (run backend feedback parameters))).
  run_xwalk.
  all: intros Hk Hc3 Hr3 Hc11 Hr11; try discriminate Hk.
  all: inv_calls; subst; same_outputs.
  all: injection Hk as <-.
  all: split; reflexivity.
Qed.


(** X9 on the 2 x 2 surface with the signal set right after Pass 2: the two
    rows are read, the third poll stops the sink loop, nothing is written. *)
Lemma sink_written_until_cancelled_witness :
  let s' := snd (run (Synthetic.backend rowsQ) (Synthetic.canceled_from 2)
                   (Synthetic.parameters demQ 1500%Q)) in
  exists k, sink s' = Some k /\ added k = [] /\ polls s' = 3%nat.
Proof.
  cbv zeta.
  set (s' := snd (run (Synthetic.backend rowsQ) (Synthetic.canceled_from 2)
                    (Synthetic.parameters demQ 1500%Q))).
  assert (Hk : { k | sink s' = Some k }) by (eexists; vm_compute; reflexivity).
  assert (H3 : { c | nth_error (calls s') 3 = Some (RasterCall c) })
    by (eexists; vm_compute; reflexivity).
  assert (H11 : { c | nth_error (calls s') 11 = Some (VectorCall c) })
    by (eexists; vm_compute; reflexivity).
  destruct Hk as [k Hk], H3 as [c3 H3], H11 as [c11 H11].
  assert (R3 : { cost | run_raster (Synthetic.backend rowsQ) c3 = Some cost
                        /\ RasterYSize cost = 2%nat }).
  { vm_compute in H3. injection H3 as <-. eexists. split; reflexivity. }
  assert (R11 : { l | run_vector (Synthetic.backend rowsQ) c11 = Some l
                      /\ List.length (getFeatures l) = 1%nat }).
  { vm_compute in H11. injection H11 as <-. eexists. split; reflexivity. }
  destruct R3 as (cost & R3 & Y), R11 as (gaps_closed & R11 & L).
  destruct (@sink_written_until_cancelled Q _ (Synthetic.backend rowsQ)
              (Synthetic.canceled_from 2) (Synthetic.parameters demQ 1500%Q)
              k c3 cost c11 gaps_closed Hk H3 R3 H11 R11) as [W P].
  exists k. split; [exact Hk|]. unfold s'. rewrite W, P, Y, L.
  destruct (getFeatures gaps_closed); split; reflexivity.
Defined.


(** X10.  When the cancellation signal is never set, a run that has created
    its sink has written every feature of the gap-closed layer to it, in
    order, and returns. *)
Theorem uncancelled_run_writes_every_feature {A} {NA : Number A}
    (backend : Backend A) (feedback : nat -> bool) (parameters : Parameters)
    (k : Sink A) (c11 : VectorAlg A) (gaps_closed : QgsVectorLayer A) :
  let r := fst (run backend feedback parameters) in
  let s' := snd (run backend feedback parameters) in
  (forall i, feedback i = false) ->
  sink s' = Some k ->
  nth_error (calls s') 11 = Some (VectorCall c11) ->
  run_vector backend c11 = Some gaps_closed ->
  added k = getFeatures gaps_closed /\ exists dest_id, r = Ok dest_id.
Proof.
  cbv zeta. intros Hnever.
  set (Q := fun (r : result string) (s' : State A) =>
    sink s' = Some k ->
    nth_error (calls s') 11 = Some (VectorCall c11) ->
    run_vector backend c11 = Some gaps_closed ->
    added k = getFeatures gaps_closed /\ exists dest_id, r = Ok dest_id).
  change (Q (fst (run backend feedback parameters))
            (snd (run backend feedback parameters))).
  run_xwalk.
  all: intros Hk Hc11 Hr11; try discriminate Hk.
  all: inv_calls; subst; same_outputs.
  all: injection Hk as <-.
  all: cbn [added app]; rewrite (features_written_all feedback _ _ Hnever).
  all: split; [reflexivity|eexists; reflexivity].
Qed.


(** X10 on the 2 x 2 surface. *)
Lemma uncancelled_run_writes_every_feature_witness :
  let r := run (Synthetic.backend rowsQ) Synthetic.never
             (Synthetic.parameters demQ 1500%Q) in
  (exists dest_id, fst r = Ok dest_id) /\
  exists k, sink (snd r) = Some k /\ List.length (added k) = 1%nat.
Proof.
  cbv zeta.
  set (s' := snd (run (Synthetic.backend rowsQ) Synthetic.never
                    (Synthetic.parameters demQ 1500%Q))).
  assert (Hk : { k | sink s' = Some k }) by (eexists; vm_compute; reflexivity).
  assert (H11 : { c | nth_error (calls s') 11 = Some (VectorCall c) })
    by (eexists; vm_compute; reflexivity).
  destruct Hk as [k Hk], H11 as [c11 H11].
  assert (R11 : { l | run_vector (Synthetic.backend rowsQ) c11 = Some l
                      /\ List.length (getFeatures l) = 1%nat }).
  { vm_compute in H11. injection H11 as <-. eexists. split; reflexivity. }
  destruct R11 as (gaps_closed & R11 & L).
  destruct (@uncancelled_run_writes_every_feature Q _ (Synthetic.backend rowsQ)
              Synthetic.never (Synthetic.parameters demQ 1500%Q)
              k c11 gaps_closed (fun _ => eq_refl) Hk H11 R11)
    as (W & d & Hr).
  split.
  - exists d. exact Hr.
  - exists k. split; [exact Hk|]. rewrite W. exact L.
Defined.


(** X11.  When the cancellation signal, once set, stays set, and it is set
    at one of the polls of Pass 2, a run that still creates its sink writes
    no feature to it, and returns as if it had succeeded. *)
Theorem cancelled_scan_writes_nothing {A} {NA : Number A}
    (backend : Backend A) (feedback : nat -> bool) (parameters : Parameters)
    (k : Sink A) (c3 : RasterAlg A) (cost : Raster A) (i : nat) :
  let r := fst (run backend feedback parameters) in
  let s' := snd (run backend feedback parameters) in
  sticky feedback ->
  nth_error (calls s') 3 = Some (RasterCall c3) ->
  run_raster backend c3 = Some cost ->
  (i < RasterYSize cost)%nat -> feedback i = true ->
  sink s' = Some k ->
  added k = [] /\ exists dest_id, r = Ok dest_id.
Proof.
  cbv zeta. intros Hsticky.
  set (Q := fun (r : result string) (s' : State A) =>
    nth_error (calls s') 3 = Some (RasterCall c3) ->
    run_raster backend c3 = Some cost ->
    (i < RasterYSize cost)%nat -> feedback i = true ->
    sink s' = Some k ->
    added k = [] /\ exists dest_id, r = Ok dest_id).
  change (Q (fst (run backend feedback parameters))
            (snd (run backend feedback parameters))).
  run_xwalk.
  all: intros Hc3 Hr3 Hi Hf Hk; try discriminate Hk.
  all: inv_calls; subst; same_outputs.
  all: injection Hk as <-.
  all: cbn [added app];
       rewrite (features_written_none feedback _ _
                  (sticky_after_scan Hsticky Hi Hf)).
  all: split; [reflexivity|eexists; reflexivity].
Qed.


(** X11 on the 2 x 2 surface with the signal set before the second row. *)
Lemma cancelled_scan_writes_nothing_witness :
  let r := run (Synthetic.backend rowsQ) (Synthetic.canceled_from 1)
             (Synthetic.parameters demQ 1500%Q) in
  exists k, sink (snd r) = Some k /\ added k = [] /\ exists dest_id, fst r = Ok dest_id.
Proof.
  cbv zeta.
  set (s' := snd (run (Synthetic.backend rowsQ) (Synthetic.canceled_from 1)
                    (Synthetic.parameters demQ 1500%Q))).
  assert (Hk : { k | sink s' = Some k }) by (eexists; vm_compute; reflexivity).
  assert (H3 : { c | nth_error (calls s') 3 = Some (RasterCall c) })
    by (eexists; vm_compute; reflexivity).
  destruct Hk as [k Hk], H3 as [c3 H3].
  assert (R3 : { cost | run_raster (Synthetic.backend rowsQ) c3 = Some cost
                        /\ RasterYSize cost = 2%nat }).
  { vm_compute in H3. injection H3 as <-. eexists. split; reflexivity. }
  destruct R3 as (cost & R3 & Y).
  exists k. split; [exact Hk|].
  apply (@cancelled_scan_writes_nothing Q _ (Synthetic.backend rowsQ)
           (Synthetic.canceled_from 1) (Synthetic.parameters demQ 1500%Q)
           k c3 cost 1%nat (canceled_from_sticky 1) H3 R3);
    [rewrite Y; lia|reflexivity|exact Hk].
Defined.


(** X12.  The source does not test the sink it is given.  When the caller
    named no destination no sink is created; the run then ends with
    [AttributeError] at the first feature it tries to write, leaving its
    temporary files in place, and returns an empty destination if there is
    no feature to write or the signal is set at the first poll of the sink
    loop. *)
Theorem missing_destination {A} {NA : Number A}
    (backend : Backend A) (feedback : nat -> bool) (parameters : Parameters)
    (c3 : RasterAlg A) (cost : Raster A)
    (c11 : VectorAlg A) (gaps_closed : QgsVectorLayer A) :
  let r := fst (run backend feedback parameters) in
  let s' := snd (run backend feedback parameters) in
  let p := polls_of feedback 0 (RasterYSize cost) in
  (forall dest_id, lookup PARAM_OUTPUT parameters <> Some (SinkValue dest_id)) ->
  nth_error (calls s') 3 = Some (RasterCall c3) ->
  run_raster backend c3 = Some cost ->
  nth_error (calls s') 11 = Some (VectorCall c11) ->
  run_vector backend c11 = Some gaps_closed ->
  sink s' = None /\
  (getFeatures gaps_closed <> [] -> feedback p = false ->
     r = Raise AttributeError /\ removed s' = []) /\
  (getFeatures gaps_closed = [] \/ feedback p = true -> r = Ok "").
Proof.
  cbv zeta. intros Hout.
  set (Q := fun (r : result string) (s' : State A) =>
    nth_error (calls s') 3 = Some (RasterCall c3) ->
    run_raster backend c3 = Some cost ->
    nth_error (calls s') 11 = Some (VectorCall c11) ->
    run_vector backend c11 = Some gaps_closed ->
    sink s' = None /\
    (getFeatures gaps_closed <> [] ->
     feedback (polls_of feedback 0 (RasterYSize cost)) = false ->
       r = Raise AttributeError /\ removed s' = []) /\
    (getFeatures gaps_closed = [] \/
     feedback (polls_of feedback 0 (RasterYSize cost)) = true -> r = Ok "")).
  change (Q (fst (run backend feedback parameters))
            (snd (run backend feedback parameters))).
  run_xwalk.
  all: intros Hc3 Hr3 Hc11 Hr11.
  all: inv_calls; subst; same_outputs.
  all: try (exfalso; eapply Hout; eassumption).
  all: split; [reflexivity|split].
  all: try (intros Hne Hf; first [contradiction | congruence | split; reflexivity]).
  all: try (intros [He|Hf]; first [reflexivity | contradiction | congruence]).
Qed.

(** A run whose caller named no destination. *)


(** X12 on the 2 x 2 surface, no destination given. *)
Lemma missing_destination_witness :
  let r := run (Synthetic.backend rowsQ) Synthetic.never
             (parameters_without_output demQ) in
  fst r = Raise AttributeError /\ sink (snd r) = None /\ removed (snd r) = [].
Proof.
  cbv zeta.
  set (s' := snd (run (Synthetic.backend rowsQ) Synthetic.never
                    (parameters_without_output demQ))).
  assert (H3 : { c | nth_error (calls s') 3 = Some (RasterCall c) })
    by (eexists; vm_compute; reflexivity).
  assert (H11 : { c | nth_error (calls s') 11 = Some (VectorCall c) })
    by (eexists; vm_compute; reflexivity).
  destruct H3 as [c3 H3], H11 as [c11 H11].
  assert (R3 : { cost | run_raster (Synthetic.backend rowsQ) c3 = Some cost
                        /\ RasterYSize cost = 2%nat }).
  { vm_compute in H3. injection H3 as <-. eexists. split; reflexivity. }
  assert (R11 : { l | run_vector (Synthetic.backend rowsQ) c11 = Some l
                      /\ getFeatures l <> [] }).
  { vm_compute in H11. injection H11 as <-. eexists.
    split; [reflexivity|vm_compute; discriminate]. }
  destruct R3 as (cost & R3 & Y), R11 as (gaps_closed & R11 & L).
  destruct (@missing_destination Q _ (Synthetic.backend rowsQ) Synthetic.never
              (parameters_without_output demQ) c3 cost c11 gaps_closed
              ltac:(intros d H; discriminate H) H3 R3 H11 R11) as (N & F & _).
  destruct (F L eq_refl) as [Hr Hm].
  split; [exact Hr|split; [exact N|exact Hm]].
Defined.


(** ** The clean-up and the log *)

(** The temporary files of a run, in the order the clean-up visits them. *)
Definition to_delete {A} (backend : Backend A) : list string :=
  map (os_path_join (tempFolder backend))
    ["cb_tmp_slope.tif"; "cb_tmp_slope_cond.tif"; "cb_tmp_river.tif";
     "cb_tmp_costdist.tif"; "cb_tmp_mask_coarse.tif"; "cb_tmp_mask_refined.tif";
     "cb_refined_poly.gpkg"].

(** The paths of the notices [Could not delete temp file ...] of a log. *)
Fixpoint could_not_delete {A} (ms : list (Message A)) : list string :=
  match ms with
  | [] => []
  | InfoCouldNotDelete p :: rest => p :: could_not_delete rest
  | _ :: rest => could_not_delete rest
  end.

Lemma could_not_delete_app {A} (ms1 ms2 : list (Message A)) :
  could_not_delete (ms1 ++ ms2) = (could_not_delete ms1 ++ could_not_delete ms2)%list.
Proof.
  induction ms1 as [|[s|m|p] ms1 IH]; cbn [could_not_delete app];
    rewrite ?IH; reflexivity.
Qed.

Lemma could_not_delete_notices {A} (ps : list string) :
  could_not_delete (map (@InfoCouldNotDelete A) ps) = ps.
Proof.
  induction ps as [|p ps IH]; cbn [could_not_delete map]; rewrite ?IH; reflexivity.
Qed.


(** X13.  A run that returns has gone through its seven temporary files
    once each, in the order of the source; the files removed are those whose
    removal does not raise, the others are reported, in order, by a notice
    each, and none of them makes the run fail. *)
Theorem cleanup_of_a_successful_run {A} {NA : Number A}
    (backend : Backend A) (feedback : nat -> bool) (parameters : Parameters)
    (dest_id : string) :
  let r := fst (run backend feedback parameters) in
  let s' := snd (run backend feedback parameters) in
  r = Ok dest_id ->
  removed s' =
    filter (fun p => negb (os_remove_raises backend p)) (to_delete backend) /\
  could_not_delete (messages s') =
    filter (os_remove_raises backend) (to_delete backend).
Proof.
  cbv zeta.
  set (Q := fun (r : result string) (s' : State A) =>
    r = Ok dest_id ->
    removed s' =
      filter (fun p => negb (os_remove_raises backend p)) (to_delete backend) /\
    could_not_delete (messages s') =
      filter (os_remove_raises backend) (to_delete backend)).
  change (Q (fst (run backend feedback parameters))
            (snd (run backend feedback parameters))).
  run_xwalk.
  all: intros Hr; try discriminate Hr.
  all: split; [reflexivity|].
  all: cbn [could_not_delete].
  all: rewrite ?could_not_delete_app, could_not_delete_notices, ?app_nil_r;
       reflexivity.
Qed.


(** X13 on a toolbox that cannot delete the river raster. *)
Lemma cleanup_of_a_successful_run_witness :
  let backend := Faulty.locking "/tmp/processing/cb_tmp_river.tif" (Synthetic.backend rowsQ) in
  let s' := snd (run backend Synthetic.never (Synthetic.parameters demQ 1500%Q)) in
  removed s' =
    ["/tmp/processing/cb_tmp_slope.tif"; "/tmp/processing/cb_tmp_slope_cond.tif";
     "/tmp/processing/cb_tmp_costdist.tif"; "/tmp/processing/cb_tmp_mask_coarse.tif";
     "/tmp/processing/cb_tmp_mask_refined.tif"; "/tmp/processing/cb_refined_poly.gpkg"] /\
  could_not_delete (messages s') = ["/tmp/processing/cb_tmp_river.tif"].
Proof.
  cbv zeta.
  pose proof (@cleanup_of_a_successful_run Q _
           (Faulty.locking "/tmp/processing/cb_tmp_river.tif" (Synthetic.backend rowsQ))
           Synthetic.never (Synthetic.parameters demQ 1500%Q) "valley_floor") as H.
  cbv zeta in H.
  discharge H ltac:(vm_compute; reflexivity).
  exact H.
Defined.


(** X14.  A run that fails, with whatever exception, has created no output
    sink, has removed none of its temporary files (the clean-up is not
    reached), and has logged neither a deletion notice nor the symbology
    message. *)
Theorem failed_run_leaves_no_output {A} {NA : Number A}
    (backend : Backend A) (feedback : nat -> bool) (parameters : Parameters)
    (e : exn) :
  let r := fst (run backend feedback parameters) in
  let s' := snd (run backend feedback parameters) in
  r = Raise e ->
  sink s' = None /\ removed s' = [] /\ could_not_delete (messages s') = [] /\
  ~ In (Info "Applied light blue symbology with 30% transparency.") (messages s').
Proof.
  cbv zeta.
  set (Q := fun (r : result string) (s' : State A) =>
    r = Raise e ->
    sink s' = None /\ removed s' = [] /\ could_not_delete (messages s') = [] /\
    ~ In (Info "Applied light blue symbology with 30% transparency.") (messages s')).
  change (Q (fst (run backend feedback parameters))
            (snd (run backend feedback parameters))).
  run_xwalk.
  all: intros Hr; try discriminate Hr; injection Hr as <-.
  all: split; [reflexivity|split; [reflexivity|split; [reflexivity|]]].
  all: cbn [In]; intros Hx;
       repeat match goal with H : _ \/ _ |- _ => destruct H as [H|H] end;
       first [discriminate Hx | contradiction].
Qed.


(** X14 on the empty selection. *)
Lemma failed_run_leaves_no_output_witness :
  let r := run (Synthetic.backend rowsQ) Synthetic.never
             (Synthetic.parameters demQ (1 # 2)%Q) in
  fst r = Raise (QgsProcessingException EMPTY_SELECTION) /\
  sink (snd r) = None /\ removed (snd r) = [].
Proof.
  cbv zeta.
  pose proof (@failed_run_leaves_no_output Q _ (Synthetic.backend rowsQ) Synthetic.never
              (Synthetic.parameters demQ (1 # 2)%Q)
              (QgsProcessingException EMPTY_SELECTION)) as H.
  cbv zeta in H.
  discharge H ltac:(vm_compute; reflexivity).
  destruct H as (H1 & H2 & _).
  split; [vm_compute; reflexivity|split; assumption].
Defined.

Section Log.
Context {A : Type}.




End Log.




